(** * pulser-mcp: a shallow embedding of the MCP servers' decision logic

    The repository is a set of FastAPI services.  This development embeds
    the parts of them that carry logic of their own:

    - [PyNum]: Python numbers as the code uses them (decimal literals read
      both as exact rationals and as IEEE binary64 values, [int()] of a
      float, [min]/[max] on floats);
    - [Synthetic]: the probability tables and the row generation loops of
      [synthetic_data_mcp/src/synthetic_server_v3.py];
    - [Audio]: the quality heuristics of
      [audio_analysis_mcp/src/audio_server.py];
    - [Py]: a small exception monad for handler bodies;
    - [Handlers], [Auth], [Financial], [Unified], [Demo]: the handler
      pattern, the bearer-token gate, the code-execution dispatch, the
      cross-agent analysis and the demo search handler;
    - [SyntheticTxn], [SyntheticPlan]: the draws of one transaction (hour,
      quantity, brand) and the size of the first pass;
    - [Text], [CallQuality], [Silence], [CallAssessment], [Sentiment]: the
      text counts, the call-quality report, the silence scan, the
      assessment of a stored analysis and the keyword scores of
      [audio_server.py];
    - [UnifiedSources]: the source registry and the cached query of
      [unified_mcp/src/unified_server.py];
    - [ScoutQuery]: the statement [fetch_transcriptions] of
      [scout_local_mcp/src/server.py] builds;
    - [DemoAnalyze]: the demo analysis handler and its route.

    Library calls (librosa, numpy's and Python's random generators, sqlite,
    Docker, the child process, the temporary directory, Redis and its
    clock, [str.lower], the JWT decoder) are not part of the repository:
    their results, a raised exception included, enter the model as
    arguments or as section variables. *)

From Stdlib Require Import ZArith QArith Qabs Qminmax Lqa Floats Lia.
From stdpp Require Import gmap strings list.

Set Warnings "-inexact-float,-register-all".

(* ===================================================================== *)
(** * Python numbers *)
(* ===================================================================== *)

Module PyNum.

(** A decimal literal of the source, [mant / 10 ^ places]: [0.07] is
    [Dec 7 2], [3.5] is [Dec 35 1]. *)
Record dec := Dec { mant : Z; places : nat }.

Definition pow10 (k : nat) : Z := (10 ^ Z.of_nat k)%Z.

(** The literal as the exact rational it denotes. *)
Definition dec_Q (d : dec) : Q := Qmake (mant d) (Z.to_pos (pow10 (places d))).

(** A Python [int] converted to a [float]: round to nearest, ties to even. *)
Definition float_of_Z (z : Z) : float :=
  SF2Prim (binary_normalize prec emax z 0 false).

(** The literal as the binary64 value Python reads it as.  Both operands are
    exactly representable for the literals of the source, and IEEE division
    is correctly rounded, so the quotient is the double nearest to the
    decimal. *)
Definition dec_float (d : dec) : float :=
  (float_of_Z (mant d) / float_of_Z (pow10 (places d)))%float.

(** [int(x)] on a float truncates towards zero; it raises on [nan] and on
    the infinities ([None]). *)
Definition py_int (x : float) : option Z :=
  match Prim2SF x with
  | S754_zero _ => Some 0%Z
  | S754_finite s m e =>
      let a := if (0 <=? e)%Z then (Z.pos m * 2 ^ e)%Z
               else (Z.pos m / 2 ^ (- e))%Z in
      Some (if s then (- a)%Z else a)
  | S754_infinity _ | S754_nan => None
  end.

(** The builtin [min(a, b)] keeps [a] unless [b < a]; [max(a, b)] keeps [a]
    unless [b > a].  On [nan] every comparison is false, so the first
    argument wins. *)
Definition py_min (a b : float) : float := if (b <? a)%float then b else a.
Definition py_max (a b : float) : float := if (a <? b)%float then b else a.

(** [np.clip(x, lo, hi)] on exact values. *)
Definition clipQ (x lo hi : Q) : Q := Qmin (Qmax x lo) hi.

End PyNum.

(* ===================================================================== *)
(** * Python values, exceptions and results *)
(* ===================================================================== *)

Module Py.

(** JSON-like values, enough for the response dicts of the handlers. *)
Inductive pyval :=
| VNone
| VBool (b : bool)
| VInt (z : Z)
| VDec (d : PyNum.dec)
| VStr (s : string)
| VList (l : list pyval)
| VDict (l : list (string * pyval)).

(** Truthiness, as [if x] and [x and y] test it. *)
Definition truthy (v : pyval) : bool :=
  match v with
  | VNone => false
  | VBool b => b
  | VInt z => negb (z =? 0)%Z
  | VDec d => negb (PyNum.mant d =? 0)%Z
  | VStr s => negb (String.eqb s "")
  | VList l => match l with [] => false | _ => true end
  | VDict l => match l with [] => false | _ => true end
  end.

(** A raised object: its class name, whether the class derives from
    [Exception] (what [except Exception] catches; [KeyboardInterrupt],
    [SystemExit] and [asyncio.CancelledError] do not), [str(e)], and the
    status code when it is a [fastapi.HTTPException]. *)
Record exn := Exn {
  exn_class : string;
  derives_Exception : bool;
  exn_str : string;
  http_status : option Z
}.

Definition Exception (cls msg : string) : exn := Exn cls true msg None.
Definition HTTPException (status_code : Z) (detail : string) : exn :=
  Exn "HTTPException" true detail (Some status_code).

(** A computation either returns or raises. *)
Inductive result (A : Type) :=
| Return (a : A)
| Raise (e : exn).
Arguments Return {A} a.
Arguments Raise {A} e.

Definition bind {A B} (m : result A) (k : A -> result B) : result B :=
  match m with
  | Return a => k a
  | Raise e => Raise e
  end.

(** A response dict. *)
Abbreviation response := (gmap string pyval).

(** [{"success": False, "error": msg}] *)
Definition error_response (msg : string) : response :=
  <["success" := VBool false]> (<["error" := VStr msg]> ∅).

(** [try: body  except Exception as e: return {"success": False,
    "error": str(e)}] around a whole body. *)
Definition try_except_Exception (body : result response) : result response :=
  match body with
  | Return r => Return r
  | Raise e =>
      if derives_Exception e then Return (error_response (exn_str e))
      else Raise e
  end.

End Py.

(** [x ← m; k] is stdpp's notation for [bind]. *)
#[global] Instance result_ret : MRet Py.result := @Py.Return.
#[global] Instance result_bind : MBind Py.result :=
  fun A B k m => Py.bind m k.

(* ===================================================================== *)
(** * synthetic_data_mcp/src/synthetic_server_v3.py *)
(* ===================================================================== *)

Module Synthetic.
Import PyNum.

(** A dict literal with string keys, in insertion order (the order
    [.items()], [.keys()] and [.values()] iterate in). *)
Definition table := list (string * dec).

Fixpoint dict_get (t : table) (k : string) (default : dec) : dec :=
  match t with
  | [] => default
  | (k', v) :: t' => if String.eqb k' k then v else dict_get t' k default
  end.

Definition keys (t : table) : list string := map fst t.
Definition values (t : table) : list dec := map snd t.

Definition CATEGORY_WEIGHTS : table :=
  [ ("Dairy", Dec 7 2); ("Coffee Creamer", Dec 1 2); ("Snacks", Dec 14 2);
    ("Beverage", Dec 9 2); ("CSD", Dec 7 2); ("Noodles", Dec 6 2);
    ("Pasta", Dec 1 2); ("Tobacco", Dec 14 2); ("Home Care", Dec 8 2);
    ("Personal Care", Dec 6 2); ("Condiment", Dec 4 2); ("Canned", Dec 3 2);
    ("Rice", Dec 7 2); ("Coffee", Dec 3 2); ("Confectionery", Dec 3 2);
    ("Alcohol", Dec 4 2); ("Other", Dec 3 2) ]%string.

Definition TBWA_CATEGORY_SHARE : table :=
  [ ("Dairy", Dec 50 2); ("Coffee Creamer", Dec 95 2); ("Snacks", Dec 35 2);
    ("Beverage", Dec 20 2); ("CSD", Dec 0 1); ("Noodles", Dec 0 1);
    ("Pasta", Dec 10 2); ("Tobacco", Dec 40 2); ("Home Care", Dec 12 2);
    ("Personal Care", Dec 10 2); ("Condiment", Dec 40 2); ("Canned", Dec 70 2);
    ("Rice", Dec 0 1); ("Coffee", Dec 0 1); ("Confectionery", Dec 0 1);
    ("Alcohol", Dec 0 1); ("Other", Dec 0 1) ]%string.

(** [calculate_total_tbwa_share], on the exact values of the literals. *)
Definition calculate_total_tbwa_share_Q : Q :=
  fold_left
    (fun total '(category, cat_weight) =>
       let tbwa_share := dict_get TBWA_CATEGORY_SHARE category (Dec 0 0) in
       (total + dec_Q cat_weight * dec_Q tbwa_share)%Q)
    CATEGORY_WEIGHTS 0%Q.

(** [calculate_total_tbwa_share], as Python evaluates it: binary64
    products accumulated left to right from [0]. *)
Definition calculate_total_tbwa_share : float :=
  fold_left
    (fun total '(category, cat_weight) =>
       let tbwa_share := dict_get TBWA_CATEGORY_SHARE category (Dec 0 0) in
       (total + dec_float cat_weight * dec_float tbwa_share)%float)
    CATEGORY_WEIGHTS 0%float.

Definition EXPECTED_TBWA_SHARE : float := calculate_total_tbwa_share.

(** scripts/generate_realistic_data.py, [validate_data]: the distribution
    check [abs(actual - expected) / expected < 0.1], with [expected]
    defaulting to [0.22] when the server sends none. *)
Definition default_expected_tbwa_share : dec := Dec 22 2.

Definition within_acceptable_range (actual expected : float) : bool :=
  (abs (actual - expected) / expected <? dec_float (Dec 1 1))%float.

Definition within_acceptable_range_Q (actual expected : Q) : Prop :=
  (Qabs (actual - expected) / expected < dec_Q (Dec 1 1))%Q.

(** Sum of the weights, exact and as the builtin [sum] does it on floats. *)
Definition sumQ (l : list Q) : Q := fold_left Qplus l 0%Q.
Definition sum_float (l : list float) : float :=
  fold_left (fun a b => (a + b)%float) l 0%float.

Definition REGIONAL_WEIGHTS : table :=
  [ ("NCR", Dec 35 1); ("Region III", Dec 20 1); ("Region IV-A", Dec 25 1);
    ("Region VII", Dec 20 1); ("Region XI", Dec 18 1); ("CAR", Dec 12 1);
    ("Region I", Dec 10 1); ("Region II", Dec 8 1); ("Region V", Dec 10 1);
    ("Region VI", Dec 12 1); ("Region VIII", Dec 8 1); ("Region IX", Dec 9 1);
    ("Region X", Dec 13 1); ("Region XII", Dec 10 1); ("Region XIII", Dec 9 1);
    ("BARMM", Dec 7 1); ("Region IV-B", Dec 8 1) ]%string.

Definition CITY_MULTIPLIERS : table :=
  [ ("Makati", Dec 18 1); ("Taguig", Dec 16 1); ("Manila", Dec 12 1);
    ("Quezon City", Dec 13 1); ("Pasig", Dec 14 1); ("Caloocan", Dec 9 1);
    ("Mandaluyong", Dec 13 1); ("Cebu City", Dec 15 1);
    ("Davao City", Dec 14 1); ("Angeles City", Dec 13 1);
    ("Baguio City", Dec 12 1); ("Tagaytay", Dec 11 1);
    ("default", Dec 10 1) ]%string.

(** A row of [locations_master.csv], with the columns the code reads. *)
Record location := Location {
  store_name : string;
  barangay : string;
  city_or_municipality : string;
  province : string;
  region : string
}.

Record GenerationRequest := {
  dataset_type : string;
  num_records : Z;
  start_date : option string;
  end_date : option string;
  output_format : string;
  coverage_first : bool
}.

(** The field defaults of the Pydantic model. *)
Definition GenerationRequest_default : GenerationRequest :=
  {| dataset_type := "transactions"; num_records := 17000;
     start_date := None; end_date := None;
     output_format := "csv"; coverage_first := true |}.

(** [max(50, request.num_records // (len(REGIONAL_WEIGHTS) * 4))] *)
Definition MIN_PER_REGION (request : GenerationRequest) : Z :=
  Z.max 50 (num_records request / (Z.of_nat (length REGIONAL_WEIGHTS) * 4)).

(** [int(MIN_PER_REGION * REGIONAL_WEIGHTS[region])]: the int is converted
    to a float, the product is a binary64 product, [int] truncates. *)
Definition region_target (MIN : Z) (weight : dec) : option Z :=
  py_int (float_of_Z MIN * dec_float weight)%float.

Section Generation.
(** The random generators' state, the generated row and [datetime.date]
    belong to libraries; so do the draws. [LOCATIONS_DF] is read from a
    data file at start-up. *)
Context {rng txn date : Type}.
Variable LOCATIONS_DF : list location.
Variable fromisoformat : string -> option date.
Variable date_of_ymd : Z -> Z -> Z -> date.
Variable sample_one : list location -> rng -> location * rng.
Variable np_random_choice : nat -> list float -> rng -> nat * rng.
(** [(end_date - start_date).days] *)
Variable days_between : date -> date -> Z.
(** [random.randint(a, b)] for [a <= b], and the text of the [ValueError]
    it raises for the empty range [0 .. b], which names the bounds. *)
Variable randint : Z -> Z -> rng -> Z * rng.
Variable empty_range_message : Z -> string.
(** The body of [_generate_single_transaction] after the day is drawn
    (lines 362-476): it reads the brand and SKU tables and may raise. *)
Variable transaction_on :
  location -> date -> Z -> Z -> rng -> Py.result (txn * rng).
Variable summarise : list txn -> Py.pyval.
Variable output_path : string.

(** [_generate_single_transaction]: [days_range = (end_date -
    start_date).days], then [random.randint(0, days_range)], which raises
    a [ValueError] when [start_date] is after [end_date]. *)
Definition _generate_single_transaction (loc : location) (sd ed : date)
    (txn_id : Z) (g : rng) : Py.result (txn * rng) :=
  let days_range := days_between sd ed in
  if (days_range <? 0)%Z
  then Py.Raise (Py.Exception "ValueError" (empty_range_message days_range))
  else
    let '(offset, g1) := randint 0 days_range g in
    transaction_on loc sd offset txn_id g1.

(** [date.fromisoformat(s) if s else date(y, m, d)] *)
Definition date_or_default (s : option string) (y m d : Z)
  : Py.result date :=
  match s with
  | None => Py.Return (date_of_ymd y m d)
  | Some str =>
      if String.eqb str "" then Py.Return (date_of_ymd y m d)
      else match fromisoformat str with
           | Some d' => Py.Return d'
           | None => Py.Raise (Py.Exception "ValueError" "Invalid isoformat string")
           end
  end.

(** The normalised economic weight of each location. *)
Definition location_weights : list float :=
  let raw :=
    map (fun loc =>
           (dec_float (dict_get REGIONAL_WEIGHTS (region loc) (Dec 10 1))
            * dec_float (dict_get CITY_MULTIPLIERS (city_or_municipality loc)
                           (dict_get CITY_MULTIPLIERS "default" (Dec 10 1))))%float)
        LOCATIONS_DF in
  let total_weight := sum_float raw in
  map (fun w => (w / total_weight)%float) raw.

(** The loop state: [rows], [txn_counter] and the generators. *)
Record gen_state := GenState {
  rows : list txn;
  txn_counter : Z;
  gen : rng
}.

(** [txn = await _generate_single_transaction(loc, start_date, end_date,
    txn_counter); rows.append(txn); txn_counter += 1] *)
Definition append_txn (loc : location) (sd ed : date) (g : rng)
    (st : gen_state) : Py.result gen_state :=
  match _generate_single_transaction loc sd ed (txn_counter st) g with
  | Py.Return (t, g') =>
      Py.Return {| rows := rows st ++ [t]; txn_counter := txn_counter st + 1;
                   gen := g' |}
  | Py.Raise e => Py.Raise e
  end.

(** [for _ in range(region_target)]: one sampled location and one row per
    iteration. *)
Fixpoint first_pass_region (region_locs : list location) (sd ed : date)
    (n : nat) (st : gen_state) : Py.result gen_state :=
  match n with
  | O => Py.Return st
  | S n' =>
      let '(loc, g) := sample_one region_locs (gen st) in
      match append_txn loc sd ed g st with
      | Py.Return st' => first_pass_region region_locs sd ed n' st'
      | Py.Raise e => Py.Raise e
      end
  end.

(** [for region in REGIONAL_WEIGHTS.keys()], regions without a location
    skipped. *)
Fixpoint first_pass (regions : table) (MIN : Z) (sd ed : date)
    (st : gen_state) : Py.result gen_state :=
  match regions with
  | [] => Py.Return st
  | (region_name, weight) :: rest =>
      let region_locs :=
        List.filter (fun loc => String.eqb (region loc) region_name)
                    LOCATIONS_DF in
      if (0 <? length region_locs)%nat then
        match region_target MIN weight with
        | None => Py.Raise (Py.Exception "OverflowError" "cannot convert float to integer")
        | Some target =>
            match first_pass_region region_locs sd ed (Z.to_nat target) st with
            | Py.Return st' => first_pass rest MIN sd ed st'
            | Py.Raise e => Py.Raise e
            end
        end
      else first_pass rest MIN sd ed st
  end.

(** [for _ in range(remaining)]: a weighted draw of a location index.
    numpy refuses to draw from an empty population. *)
Fixpoint second_pass (sd ed : date) (n : nat) (st : gen_state)
    : Py.result gen_state :=
  match n with
  | O => Py.Return st
  | S n' =>
      if (length LOCATIONS_DF =? 0)%nat then
        Py.Raise (Py.Exception "ValueError" "a must be greater than 0 unless no samples are taken")
      else
        let '(loc_idx, g) :=
          np_random_choice (length LOCATIONS_DF) location_weights (gen st) in
        match LOCATIONS_DF !! loc_idx with
        | None => Py.Raise (Py.Exception "IndexError" "single positional indexer is out-of-bounds")
        | Some loc =>
            match append_txn loc sd ed g st with
            | Py.Return st' => second_pass sd ed n' st'
            | Py.Raise e => Py.Raise e
            end
        end
  end.

(** The two passes of [_generate_transactions]: the state after the
    second loop. *)
Definition generate_rows (request : GenerationRequest) (g : rng)
    : Py.result gen_state :=
  sd ← date_or_default (start_date request) 2024 1 1;
  ed ← date_or_default (end_date request) 2024 12 31;
  let st0 := {| rows := []; txn_counter := 1; gen := g |} in
  st1 ← (if coverage_first request
         then first_pass REGIONAL_WEIGHTS (MIN_PER_REGION request) sd ed st0
         else Py.Return st0);
  let remaining := (num_records request - Z.of_nat (length (rows st1)))%Z in
  second_pass sd ed (Z.to_nat remaining) st1.

(** [_generate_transactions]: the rows become a DataFrame; the summary
    reads the column [is_tbwa_client], which a frame built from no rows
    does not have.  Writing the output file is not modelled. *)
Definition _generate_transactions (request : GenerationRequest) (g : rng)
    : Py.result Py.response :=
  st ← generate_rows request g;
  match rows st with
  | [] => Py.Raise (Py.Exception "AttributeError"
                      "'DataFrame' object has no attribute 'is_tbwa_client'")
  | _ =>
      Py.Return
        (<["success" := Py.VBool true]>
         (<["records_generated" := Py.VInt (Z.of_nat (length (rows st)))]>
          (<["output_path" := Py.VStr output_path]>
           (<["summary" := summarise (rows st)]> ∅))))
  end.

(** The tool handler [generate_synthetic_data]. *)
Definition generate_synthetic_data (request : GenerationRequest) (g : rng)
    : Py.result Py.response :=
  Py.try_except_Exception
    (if String.eqb (dataset_type request) "transactions"
     then _generate_transactions request g
     else Py.Return
            (Py.error_response
               ("Dataset type " ++ dataset_type request ++ " not yet implemented"))).

(** The number of rows the first pass is to generate: the targets of the
    regions that have at least one location. *)
Fixpoint first_pass_total (regions : table) (MIN : Z) : option Z :=
  match regions with
  | [] => Some 0%Z
  | (region_name, weight) :: rest =>
      let region_locs :=
        List.filter (fun loc => String.eqb (region loc) region_name)
                    LOCATIONS_DF in
      if (0 <? length region_locs)%nat then
        match region_target MIN weight, first_pass_total rest MIN with
        | Some target, Some total => Some (Z.max 0 target + total)%Z
        | _, _ => None
        end
      else first_pass_total rest MIN
  end.

(** The rows the first pass is to add for a request: none when
    [coverage_first] is off. *)
Definition planned_first_pass (request : GenerationRequest) : option Z :=
  if coverage_first request
  then first_pass_total REGIONAL_WEIGHTS (MIN_PER_REGION request)
  else Some 0%Z.

(** The draws of the second pass stay within the frame. *)
Definition draws_in_range : Prop :=
  forall k p g, (0 < k)%nat -> (fst (np_random_choice k p g) < k)%nat.

(** The rest of a transaction is generated for every location, day, id and
    generator state: no brand or SKU lookup fails. *)
Definition transactions_return (sd : date) : Prop :=
  forall loc offset txn_id g,
    exists t g', transaction_on loc sd offset txn_id g = Py.Return (t, g').

End Generation.

(** A small world to run the generator in: one store in each of the 17
    regions, dates as their [toordinal()], generators without state, rows
    reduced to their id and region. *)
Definition one_store_per_region : list location :=
  map (fun r => Location ("Store " ++ r) "Poblacion" "City" "Province" r)
      (keys REGIONAL_WEIGHTS).

Definition only_barmm : list location :=
  [Location "Store BARMM" "Poblacion" "Cotabato City" "Maguindanao" "BARMM"].

Definition first_of (locs : list location) (g : unit) : location * unit :=
  (hd (Location "" "" "" "" "") locs, g).
Definition draw_zero (k : nat) (p : list float) (g : unit) : nat * unit := (O, g).
Definition row_of_id (loc : location) (sd : Z) (offset txn_id : Z) (g : unit)
    : Py.result ((Z * string) * unit) := Py.Return ((txn_id, region loc), g).

(** [date.fromisoformat] on the three dates the examples use, and the two
    default dates [date(2024, 1, 1)] and [date(2024, 12, 31)]. *)
Definition fromisoformat_sample (s : string) : option Z :=
  if String.eqb s "2024-01-01" then Some 738886%Z
  else if String.eqb s "2024-06-30" then Some 739067%Z
  else if String.eqb s "2024-12-31" then Some 739251%Z
  else None.
Definition date_of_ymd_sample (y m d : Z) : Z :=
  if (m =? 1)%Z then 738886%Z else 739251%Z.
Definition days_sample (sd ed : Z) : Z := (ed - sd)%Z.
Definition randint_low (a b : Z) (g : unit) : Z * unit := (a, g).
Definition empty_range_sample (b : Z) : string := "empty range for randrange()".

(** The generator in that world. *)
Definition run_rows (locations : list location) (request : GenerationRequest)
    : Py.result (@gen_state unit (Z * string)) :=
  generate_rows locations fromisoformat_sample date_of_ymd_sample
    first_of draw_zero days_sample randint_low empty_range_sample row_of_id
    request tt.

(** The tool handler in that world. *)
Definition run_handler (locations : list location) (request : GenerationRequest)
    : Py.result Py.response :=
  generate_synthetic_data locations fromisoformat_sample date_of_ymd_sample
    first_of draw_zero days_sample randint_low empty_range_sample row_of_id
    (fun _ => Py.VNone) "output/transactions.csv" request tt.

End Synthetic.

(* ===================================================================== *)
(** * audio_analysis_mcp/src/audio_server.py: QualityAnalyzer *)
(* ===================================================================== *)

Module Audio.
Import PyNum.

Section EstimateSnr.
(** [np.log10] on binary64 values. *)
Variable log10 : float -> float.

(** What the spectral analysis inside the [try] block computes from the
    audio: the number of frames quieter than the 20th energy percentile
    and the two magnitude means. *)
Record spectral_estimates := {
  noise_frame_count : nat;
  noise_estimate : float;
  signal_estimate : float
}.

(** [_estimate_snr].  [None] stands for an audio input on which one of
    the library calls of the [try] block raises. *)
Definition _estimate_snr (analysis : option spectral_estimates) : float :=
  match analysis with
  | Some a =>
      if (0 <? noise_frame_count a)%nat then
        let snr :=
          (20 * log10 (signal_estimate a
                       / (noise_estimate a + dec_float (Dec 1 10))))%float in
        py_max 0 (py_min 50 snr)
      else 25%float
  | None => 20%float
  end.
End EstimateSnr.

(** The means of the three librosa feature tracks.  Binary64 arithmetic
    is read here as exact arithmetic on rationals. *)
Record spectral_means := {
  mean_spectral_centroid : Q;
  mean_spectral_bandwidth : Q;
  mean_spectral_rolloff : Q
}.

Definition centroid_score (m : spectral_means) : Q :=
  (clipQ ((mean_spectral_centroid m - 1000) / 3000) 0 1 * 100)%Q.
Definition bandwidth_score (m : spectral_means) : Q :=
  (clipQ (mean_spectral_bandwidth m / 4000) 0 1 * 100)%Q.
Definition rolloff_score (m : spectral_means) : Q :=
  (clipQ ((mean_spectral_rolloff m - 2000) / 6000) 0 1 * 100)%Q.

(** [_calculate_clarity_score].  [None] stands for an audio input on which
    the feature extraction raises. *)
Definition _calculate_clarity_score (features : option spectral_means) : Q :=
  match features with
  | Some m =>
      (centroid_score m * dec_Q (Dec 4 1) + bandwidth_score m * dec_Q (Dec 3 1)
       + rolloff_score m * dec_Q (Dec 3 1))%Q
  | None => 70%Q
  end.

(** The formula as the specification words it: the weights applied to the
    three means themselves. *)
Definition spec_clarity_of_means (m : spectral_means) : Q :=
  (mean_spectral_centroid m * dec_Q (Dec 4 1)
   + mean_spectral_bandwidth m * dec_Q (Dec 3 1)
   + mean_spectral_rolloff m * dec_Q (Dec 3 1))%Q.

End Audio.

(* ===================================================================== *)
(** * The tool handlers and their routes, server by server *)
(* ===================================================================== *)

Module Handlers.
Import Py.

(** How a public method of a server's [MCPTools] class is built. *)
Inductive tool_shape :=
| WholeBodyTry      (** the whole body is one [try]/[except Exception] *)
| ConnectThenTry.   (** assignments opening a connection, then
                        [try]/[except Exception]/[finally: conn.close()] *)

Record tool := Tool {
  tool_server : string;
  tool_name : string;
  shape : tool_shape
}.

Definition MCP_TOOLS : list tool :=
  [ Tool "audio_analysis_mcp/src/audio_server.py"
      "analyze_audio" WholeBodyTry;
    Tool "audio_analysis_mcp/src/audio_server.py"
      "assess_call_quality" WholeBodyTry;
    Tool "audio_analysis_mcp/src/audio_server.py"
      "analyze_sentiment" WholeBodyTry;
    Tool "audio_analysis_mcp/src/audio_server.py"
      "search_audio" WholeBodyTry;
    Tool "briefvault_rag_mcp/src/briefvault_server.py"
      "ingest_document" WholeBodyTry;
    Tool "briefvault_rag_mcp/src/briefvault_server.py"
      "search_briefs" WholeBodyTry;
    Tool "briefvault_rag_mcp/src/briefvault_server.py"
      "analyze_brief" WholeBodyTry;
    Tool "creative_rag_mcp/src/rag_server.py"
      "ingest_asset" WholeBodyTry;
    Tool "creative_rag_mcp/src/rag_server.py"
      "search_vector" WholeBodyTry;
    Tool "creative_rag_mcp/src/rag_server.py"
      "search_web" WholeBodyTry;
    Tool "deep_researcher_mcp/src/researcher_server.py"
      "conduct_research" WholeBodyTry;
    Tool "deep_researcher_mcp/src/researcher_server.py"
      "analyze_competitors" WholeBodyTry;
    Tool "deep_researcher_mcp/src/researcher_server.py"
      "analyze_trends" WholeBodyTry;
    Tool "deep_researcher_mcp/src/researcher_server.py"
      "setup_monitoring" WholeBodyTry;
    Tool "financial_analyst_mcp/src/financial_server.py"
      "analyze_kpis" WholeBodyTry;
    Tool "financial_analyst_mcp/src/financial_server.py"
      "generate_code" WholeBodyTry;
    Tool "financial_analyst_mcp/src/financial_server.py"
      "execute_code" WholeBodyTry;
    Tool "scout_local_mcp/src/server.py"
      "add_transcription" ConnectThenTry;
    Tool "scout_local_mcp/src/server.py"
      "fetch_transcriptions" ConnectThenTry;
    Tool "scout_local_mcp/src/server.py"
      "analyze_local_trends" ConnectThenTry;
    Tool "shared_memory_mcp/src/memory_server.py"
      "store_memory" WholeBodyTry;
    Tool "shared_memory_mcp/src/memory_server.py"
      "recall_memories" WholeBodyTry;
    Tool "shared_memory_mcp/src/memory_server.py"
      "create_relation" WholeBodyTry;
    Tool "shared_memory_mcp/src/memory_server.py"
      "get_memory_graph" WholeBodyTry;
    Tool "synthetic_data_mcp/src/synthetic_server.py"
      "generate_synthetic_data" WholeBodyTry;
    Tool "synthetic_data_mcp/src/synthetic_server.py"
      "validate_data_quality" WholeBodyTry;
    Tool "synthetic_data_mcp/src/synthetic_server.py"
      "simulate_market_scenario" WholeBodyTry;
    Tool "synthetic_data_mcp/src/synthetic_server_v2.py"
      "generate_synthetic_data" WholeBodyTry;
    Tool "synthetic_data_mcp/src/synthetic_server_v2.py"
      "validate_data_quality" WholeBodyTry;
    Tool "synthetic_data_mcp/src/synthetic_server_v3.py"
      "generate_synthetic_data" WholeBodyTry;
    Tool "synthetic_data_mcp/src/synthetic_server_v3.py"
      "validate_data_quality" WholeBodyTry;
    Tool "unified_mcp/src/unified_server.py"
      "query_unified_data" WholeBodyTry;
    Tool "unified_mcp/src/unified_server.py"
      "analyze_cross_agent" WholeBodyTry;
    Tool "unified_mcp/src/unified_server.py"
      "create_predictive_model" WholeBodyTry;
    Tool "unified_mcp/src/unified_server.py"
      "enable_mcp_plugin" WholeBodyTry;
    Tool "video_rag_mcp/src/video_server.py"
      "analyze_video" WholeBodyTry;
    Tool "video_rag_mcp/src/video_server.py"
      "check_brand_compliance" WholeBodyTry;
    Tool "video_rag_mcp/src/video_server.py"
      "search_videos" WholeBodyTry;
    Tool "voice_agent_mcp/src/voice_server.py"
      "start_voice_session" WholeBodyTry;
    Tool "voice_agent_mcp/src/voice_server.py"
      "transcribe_audio" WholeBodyTry;
    Tool "voice_agent_mcp/src/voice_server.py"
      "analyze_call" WholeBodyTry;
    Tool "voice_agent_mcp/src/voice_server.py"
      "crawl_for_contacts" WholeBodyTry ].

(** A tool run against the outcomes of its parts: the statements before the
    [try] (none for [WholeBodyTry]), the [try] block, the [finally] block. *)
Definition run_tool (sh : tool_shape) (setup : result unit)
    (body : result response) (cleanup : result unit) : result response :=
  match sh with
  | WholeBodyTry => try_except_Exception body
  | ConnectThenTry =>
      _ ← setup;
      let r := try_except_Exception body in
      match cleanup with
      | Return _ => r
      | Raise e => Raise e
      end
  end.

Inductive router := app | api_v1.
Inductive http_method := GET | POST | DELETE.

(** How a route function is built. *)
Inductive route_shape :=
| PassThrough (tool_called : string)
    (** [return await MCPTools.tool(request)] *)
| CheckSuccess (tool_called : string) (status_code : Z)
    (** [result = ...; if not result["success"]: raise
        HTTPException(status_code, detail=result["error"]); return result] *)
| TryReturnError
    (** own body in [try]; [except Exception] returns the error dict *)
| TryRaiseHTTP (status_code : Z)
    (** own body in [try]; [except Exception] raises
        [HTTPException(status_code, detail=str(e))] *)
| GuardThenTryRaiseHTTP (guard_status status_code : Z)
    (** an [HTTPException(guard_status)] for an unknown tool, then as
        [TryRaiseHTTP] *)
| Unguarded.
    (** a body without [try] *)

(** A decorated route function: the file, the router and verb of the
    decorator, the path, the function, whether its signature has
    [Depends(verify_token)], and its shape. *)
Record route := Route {
  route_server : string;
  route_router : router;
  route_method : http_method;
  route_path : string;
  route_function : string;
  depends_verify_token : bool;
  route_shape_of : route_shape
}.

Definition ROUTES : list route :=
  [ Route "audio_analysis_mcp/src/audio_server.py"
      api_v1 POST "/mcp/tools/analyze_audio" "analyze_audio" true (PassThrough "analyze_audio");
    Route "audio_analysis_mcp/src/audio_server.py"
      api_v1 POST "/mcp/tools/assess_quality" "assess_quality" true (PassThrough "assess_call_quality");
    Route "audio_analysis_mcp/src/audio_server.py"
      api_v1 POST "/mcp/tools/analyze_sentiment" "analyze_sentiment" true (PassThrough "analyze_sentiment");
    Route "audio_analysis_mcp/src/audio_server.py"
      api_v1 POST "/mcp/tools/search_audio" "search_audio" true (PassThrough "search_audio");
    Route "audio_analysis_mcp/src/audio_server.py"
      api_v1 POST "/mcp/tools/upload_audio" "upload_audio" true (TryReturnError);
    Route "briefvault_rag_mcp/src/briefvault_server.py"
      api_v1 POST "/mcp/tools/ingest_document" "ingest_document" true (PassThrough "ingest_document");
    Route "briefvault_rag_mcp/src/briefvault_server.py"
      api_v1 POST "/mcp/tools/search_briefs" "search_briefs" true (PassThrough "search_briefs");
    Route "briefvault_rag_mcp/src/briefvault_server.py"
      api_v1 POST "/mcp/tools/analyze_brief" "analyze_brief" true (PassThrough "analyze_brief");
    Route "briefvault_rag_mcp/src/briefvault_server.py"
      api_v1 POST "/mcp/tools/upload_document" "upload_document" true (TryReturnError);
    Route "creative_rag_mcp/src/rag_server.py"
      api_v1 POST "/mcp/tools/ingest_asset" "ingest_asset" true (CheckSuccess "ingest_asset" 400);
    Route "creative_rag_mcp/src/rag_server.py"
      api_v1 POST "/mcp/tools/search_vector" "search_vector" true (CheckSuccess "search_vector" 400);
    Route "creative_rag_mcp/src/rag_server.py"
      api_v1 POST "/mcp/tools/search_web" "search_web" true (CheckSuccess "search_web" 400);
    Route "creative_rag_mcp/src/rag_server.py"
      api_v1 POST "/mcp/tools/ingest_image" "ingest_image" true (TryRaiseHTTP 500);
    Route "creative_rag_mcp/src/rag_server.py"
      api_v1 GET "/mcp/metadata" "get_metadata" true (Unguarded);
    Route "deep_researcher_mcp/src/researcher_server.py"
      api_v1 POST "/mcp/tools/conduct_research" "conduct_research" true (PassThrough "conduct_research");
    Route "deep_researcher_mcp/src/researcher_server.py"
      api_v1 POST "/mcp/tools/analyze_competitors" "analyze_competitors" true (PassThrough "analyze_competitors");
    Route "deep_researcher_mcp/src/researcher_server.py"
      api_v1 POST "/mcp/tools/analyze_trends" "analyze_trends" true (PassThrough "analyze_trends");
    Route "deep_researcher_mcp/src/researcher_server.py"
      api_v1 POST "/mcp/tools/setup_monitoring" "setup_monitoring" true (PassThrough "setup_monitoring");
    Route "financial_analyst_mcp/src/financial_server.py"
      api_v1 POST "/mcp/tools/analyze_kpis" "analyze_kpis" true (CheckSuccess "analyze_kpis" 400);
    Route "financial_analyst_mcp/src/financial_server.py"
      api_v1 POST "/mcp/tools/generate_code" "generate_code" true (CheckSuccess "generate_code" 400);
    Route "financial_analyst_mcp/src/financial_server.py"
      api_v1 POST "/mcp/tools/execute_code" "execute_code" true (CheckSuccess "execute_code" 400);
    Route "financial_analyst_mcp/src/financial_server.py"
      api_v1 GET "/mcp/tools/list_plots" "list_plots" true (Unguarded);
    Route "financial_analyst_mcp/src/financial_server.py"
      api_v1 GET "/mcp/metadata" "get_metadata" true (Unguarded);
    Route "scout_local_mcp/src/server.py"
      app POST "/mcp/tools/add_transcription" "add_transcription" false (CheckSuccess "add_transcription" 400);
    Route "scout_local_mcp/src/server.py"
      app POST "/mcp/tools/fetch_transcriptions" "fetch_transcriptions" false (CheckSuccess "fetch_transcriptions" 400);
    Route "scout_local_mcp/src/server.py"
      app GET "/mcp/tools/analyze_trends" "analyze_trends" false (CheckSuccess "analyze_local_trends" 400);
    Route "scout_local_mcp/src/server.py"
      app POST "/mcp/execute" "execute_tool" false (GuardThenTryRaiseHTTP 400 500);
    Route "scout_local_mcp/src/server.py"
      app GET "/mcp/metadata" "get_metadata" false (Unguarded);
    Route "shared_memory_mcp/src/memory_server.py"
      api_v1 POST "/mcp/tools/store_memory" "store_memory" true (CheckSuccess "store_memory" 400);
    Route "shared_memory_mcp/src/memory_server.py"
      api_v1 POST "/mcp/tools/recall_memories" "recall_memories" true (CheckSuccess "recall_memories" 400);
    Route "shared_memory_mcp/src/memory_server.py"
      api_v1 POST "/mcp/tools/create_relation" "create_relation" true (CheckSuccess "create_relation" 400);
    Route "shared_memory_mcp/src/memory_server.py"
      api_v1 GET "/mcp/tools/get_memory_graph/{memory_id}" "get_memory_graph" true (CheckSuccess "get_memory_graph" 404);
    Route "shared_memory_mcp/src/memory_server.py"
      api_v1 DELETE "/mcp/tools/forget_memory/{memory_id}" "forget_memory" true (TryRaiseHTTP 500);
    Route "shared_memory_mcp/src/memory_server.py"
      api_v1 GET "/mcp/metadata" "get_metadata" true (Unguarded);
    Route "synthetic_data_mcp/src/synthetic_server.py"
      api_v1 POST "/mcp/tools/generate_data" "generate_data" true (CheckSuccess "generate_synthetic_data" 400);
    Route "synthetic_data_mcp/src/synthetic_server.py"
      api_v1 POST "/mcp/tools/validate_quality" "validate_quality" true (CheckSuccess "validate_data_quality" 400);
    Route "synthetic_data_mcp/src/synthetic_server.py"
      api_v1 POST "/mcp/tools/simulate_scenario" "simulate_scenario" true (CheckSuccess "simulate_market_scenario" 400);
    Route "synthetic_data_mcp/src/synthetic_server.py"
      api_v1 GET "/mcp/tools/list_outputs" "list_outputs" true (Unguarded);
    Route "synthetic_data_mcp/src/synthetic_server.py"
      api_v1 GET "/mcp/metadata" "get_metadata" true (Unguarded);
    Route "synthetic_data_mcp/src/synthetic_server_v2.py"
      app POST "/mcp/tools/generate_data" "generate_data" false (PassThrough "generate_synthetic_data");
    Route "synthetic_data_mcp/src/synthetic_server_v2.py"
      app POST "/mcp/tools/validate_quality" "validate_quality" false (PassThrough "validate_data_quality");
    Route "synthetic_data_mcp/src/synthetic_server_v3.py"
      app POST "/mcp/tools/generate_data" "generate_data" false (PassThrough "generate_synthetic_data");
    Route "synthetic_data_mcp/src/synthetic_server_v3.py"
      app POST "/mcp/tools/validate_quality" "validate_quality" false (PassThrough "validate_data_quality");
    Route "unified_mcp/src/unified_server.py"
      api_v1 POST "/mcp/tools/query_unified" "query_unified" true (CheckSuccess "query_unified_data" 400);
    Route "unified_mcp/src/unified_server.py"
      api_v1 POST "/mcp/tools/analyze_cross_agent" "analyze_cross_agent" true (CheckSuccess "analyze_cross_agent" 400);
    Route "unified_mcp/src/unified_server.py"
      api_v1 POST "/mcp/tools/create_model" "create_model" true (CheckSuccess "create_predictive_model" 400);
    Route "unified_mcp/src/unified_server.py"
      api_v1 POST "/mcp/tools/add_source" "add_source" true (TryRaiseHTTP 400);
    Route "unified_mcp/src/unified_server.py"
      api_v1 GET "/mcp/tools/list_sources" "list_sources" true (Unguarded);
    Route "unified_mcp/src/unified_server.py"
      api_v1 GET "/mcp/metadata" "get_metadata" true (Unguarded);
    Route "video_rag_mcp/src/video_server.py"
      api_v1 POST "/mcp/tools/analyze_video" "analyze_video" true (PassThrough "analyze_video");
    Route "video_rag_mcp/src/video_server.py"
      api_v1 POST "/mcp/tools/check_compliance" "check_compliance" true (PassThrough "check_brand_compliance");
    Route "video_rag_mcp/src/video_server.py"
      api_v1 POST "/mcp/tools/search_videos" "search_videos" true (PassThrough "search_videos");
    Route "video_rag_mcp/src/video_server.py"
      api_v1 POST "/mcp/tools/upload_video" "upload_video" true (TryReturnError);
    Route "voice_agent_mcp/src/voice_server.py"
      api_v1 POST "/mcp/tools/start_voice_session" "start_voice_session" true (CheckSuccess "start_voice_session" 400);
    Route "voice_agent_mcp/src/voice_server.py"
      api_v1 POST "/mcp/tools/transcribe_audio" "transcribe_audio" true (CheckSuccess "transcribe_audio" 400);
    Route "voice_agent_mcp/src/voice_server.py"
      api_v1 POST "/mcp/tools/analyze_call" "analyze_call" true (CheckSuccess "analyze_call" 400);
    Route "voice_agent_mcp/src/voice_server.py"
      api_v1 POST "/mcp/tools/crawl_for_contacts" "crawl_for_contacts" true (CheckSuccess "crawl_for_contacts" 400);
    Route "voice_agent_mcp/src/voice_server.py"
      api_v1 POST "/mcp/tools/upload_audio" "upload_audio" true (TryRaiseHTTP 500);
    Route "voice_agent_mcp/src/voice_server.py"
      api_v1 GET "/mcp/metadata" "get_metadata" true (Unguarded) ].

Definition is_tool_endpoint (r : route) : bool :=
  String.prefix "/mcp/tools/" (route_path r).

(** [raise HTTPException(status_code, detail=str(e))] in an
    [except Exception] clause. *)
Definition except_raise_http (status_code : Z) (body : result response)
    : result response :=
  match body with
  | Return r => Return r
  | Raise e =>
      if derives_Exception e then Raise (HTTPException status_code (exn_str e))
      else Raise e
  end.

(** [if not result["success"]: raise HTTPException(...)] *)
Definition check_success (status_code : Z) (result_ : response)
    : result response :=
  match result_ !! "success" with
  | None => Raise (Exception "KeyError" "'success'")
  | Some ok =>
      if truthy ok then Return result_
      else match result_ !! "error" with
           | Some (VStr detail) => Raise (HTTPException status_code detail)
           | Some _ => Raise (HTTPException status_code "")
           | None => Raise (Exception "KeyError" "'error'")
           end
  end.

(** A route function run against the outcome of the tool it calls
    ([tool_run]) or of its own body ([own_body]); [known_tool] is the
    membership test of [GuardThenTryRaiseHTTP]. *)
Definition run_route (sh : route_shape) (known_tool : bool)
    (tool_run own_body : result response) : result response :=
  match sh with
  | PassThrough _ => tool_run
  | CheckSuccess _ status_code => r ← tool_run; check_success status_code r
  | TryReturnError => try_except_Exception own_body
  | TryRaiseHTTP status_code => except_raise_http status_code own_body
  | GuardThenTryRaiseHTTP guard_status status_code =>
      if known_tool then except_raise_http status_code own_body
      else Raise (HTTPException guard_status "Unknown tool")
  | Unguarded => own_body
  end.

(** The status codes the route functions put on an [HTTPException]. *)
Definition handled_status (c : Z) : Prop := c = 400%Z \/ c = 404%Z \/ c = 500%Z.

End Handlers.

(* ===================================================================== *)
(** * The bearer-token dependency shared by ten servers *)
(* ===================================================================== *)

Module Auth.
Import Py Handlers.

Section Gate.
(** [os.environ] when the module is loaded. *)
Variable environ : gmap string string.

Definition getenv (key fallback : string) : string :=
  default fallback (environ !! key).

Definition SECRET_KEY : string :=
  getenv "PULSER_JWT_SECRET" "change-this-in-production".
Definition ALGORITHM : string := "HS256".
Definition ACCESS_TOKEN_EXPIRE_MINUTES : Z := 30.

(** [jose.jwt.decode(token, key, algorithms=...)]: the claims, or [None]
    for a [JWTError]. *)
Variable jwt_decode :
  string -> string -> list string -> option (gmap string pyval).

(** [HTTPBearer()]: the credentials of the [Authorization] header, or the
    library's own refusal. *)
Variable security : option string -> result string.

Definition invalid_credentials : exn :=
  HTTPException 401 "Invalid authentication credentials".

(** [verify_token]: the [HTTPException] raised for a missing subject is
    not a [JWTError], so it passes through the [except] clause. *)
Definition verify_token (credentials : string) : result pyval :=
  match jwt_decode credentials SECRET_KEY [ALGORITHM] with
  | Some payload =>
      match payload !! "sub" with
      | None | Some VNone => Raise invalid_credentials
      | Some username => Return username
      end
  | None => Raise invalid_credentials
  end.

(** FastAPI resolves the dependencies of a route function before calling
    it; a dependency that raises ends the request. *)
Definition dispatch (r : route) (authorization : option string)
    (endpoint : option pyval -> result response) : result response :=
  if depends_verify_token r then
    credentials ← security authorization;
    current_user ← verify_token credentials;
    endpoint (Some current_user)
  else endpoint None.
End Gate.

(** The server files that define [verify_token]. *)
Definition defines_verify_token (server : string) : bool :=
  bool_decide (server ∈
    [ "audio_analysis_mcp/src/audio_server.py";
      "briefvault_rag_mcp/src/briefvault_server.py";
      "creative_rag_mcp/src/rag_server.py";
      "deep_researcher_mcp/src/researcher_server.py";
      "financial_analyst_mcp/src/financial_server.py";
      "shared_memory_mcp/src/memory_server.py";
      "synthetic_data_mcp/src/synthetic_server.py";
      "unified_mcp/src/unified_server.py";
      "video_rag_mcp/src/video_server.py";
      "voice_agent_mcp/src/voice_server.py" ]).

End Auth.

(* ===================================================================== *)
(** * financial_analyst_mcp/src/financial_server.py: code execution *)
(* ===================================================================== *)

Module Financial.
Import Py.

Record CodeExecutionRequest := {
  code : string;
  timeout : option Z;
  sandbox : bool
}.

(** A request that gives only the code: the Pydantic defaults. *)
Definition CodeExecutionRequest_of_code (c : string) : CodeExecutionRequest :=
  {| code := c; timeout := Some 30%Z; sandbox := true |}.

(** What the handler does to the outside world, in order. *)
Inductive event :=
| WriteCode (c : string)
| ContainersRun (image command : string)
| ContainerWait (limit : option Z)
| ContainerRemove
| SubprocessExec (program : string)
| WaitForCommunicate (limit : option Z)
| ProcKill.

(** Computations that log events and may raise. *)
Definition M (A : Type) : Type := list event -> list event * result A.

Definition ret {A} (a : A) : M A := fun tr => (tr, Return a).
Definition bindM {A B} (m : M A) (k : A -> M B) : M B :=
  fun tr => match m tr with
            | (tr', Return a) => k a tr'
            | (tr', Raise e) => (tr', Raise e)
            end.
Definition emit (ev : event) : M unit := fun tr => (tr ++ [ev], Return tt).
Definition lift {A} (r : result A) : M A := fun tr => (tr, r).

(** [try: body  except cls as e: handler(e)], where [catches e] tells
    whether [e] is an instance of [cls]. *)
Definition try_except {A} (catches : exn -> bool) (body : M A)
    (handler : exn -> M A) : M A :=
  fun tr => match body tr with
            | (tr', Raise e) => if catches e then handler e tr' else (tr', Raise e)
            | other => other
            end.

Definition is_TimeoutError (e : exn) : bool := String.eqb (exn_class e) "TimeoutError".

Notation "'do' x <- m ; k" := (bindM m (fun x => k))
  (at level 10, x name, m at level 100, k at level 200).

Definition SANDBOX_IMAGE : string := "python:3.11-slim".

(** [s[-1000:]] *)
Definition last_1000 (s : string) : string :=
  let n := String.length s in
  if (n <=? 1000)%nat then s else String.substring (n - 1000) 1000 s.

(** The handle [docker.from_env()] returns. *)
Inductive DockerClient := docker_from_env.

Section Execute.
(** The module global set by [init_docker]; [None] when Docker is not
    available. *)
Variable docker_client : option DockerClient.

(** The outside world: the outcome of each call.  [make_tmpdir] is
    [tempfile.TemporaryDirectory()] and [cleanup_tmpdir] the removal of the
    directory when the [with] block is left. *)
Variable make_tmpdir : result unit.
Variable cleanup_tmpdir : result unit.
Variable write_text : string -> result unit.
Variable containers_run : string -> result unit.
Variable container_wait : option Z -> result Z.
Variable container_logs : result string.
Variable container_remove : result unit.
Variable create_subprocess_exec : string -> result unit.
(** [asyncio.wait_for(proc.communicate(), timeout)]: stdout, stderr and
    the return code, or a raise; a [TimeoutError] when the time is up. *)
Variable wait_for_communicate : string -> option Z -> result (string * string * Z).
(** [proc.kill()], which raises [ProcessLookupError] when the child is
    gone already. *)
Variable proc_kill : result unit.
Variable collect_outputs : result pyval.
Variable parse_metrics : string -> pyval.

(** [with tempfile.TemporaryDirectory() as tmpdir: body].  The directory
    is removed when the block is left, be it by its end, by a [return] or
    by a raise; what the removal raises takes the place of the outcome of
    the block. *)
Definition with_TemporaryDirectory {A} (body : M A) : M A :=
  fun tr =>
    match make_tmpdir with
    | Raise e => (tr, Raise e)
    | Return _ =>
        match body tr with
        | (tr', out) =>
            match cleanup_tmpdir with
            | Return _ => (tr', out)
            | Raise e => (tr', Raise e)
            end
        end
    end.

Definition _execute_in_docker (c : string) (limit : option Z) : M response :=
  try_except derives_Exception
    (with_TemporaryDirectory
       (do _ <- emit (WriteCode c);
        do _ <- lift (write_text c);
        do _ <- emit (ContainersRun SANDBOX_IMAGE "python /code/analysis.py");
        do _ <- lift (containers_run c);
        do _ <- emit (ContainerWait limit);
        do status <- lift (container_wait limit);
        do logs <- lift container_logs;
        do _ <- emit ContainerRemove;
        do _ <- lift container_remove;
        do outputs <- lift collect_outputs;
        ret (<["success" := VBool true]>
             (<["exit_code" := VInt status]>
              (<["outputs" := outputs]>
               (<["metrics" := parse_metrics logs]>
                (<["logs" := VStr (last_1000 logs)]> ∅)))))))
    (fun e => ret (error_response ("Docker execution failed: " ++ exn_str e))).

Definition _execute_subprocess (c : string) (limit : option Z) : M response :=
  try_except derives_Exception
    (with_TemporaryDirectory
       (do _ <- emit (WriteCode c);
        do _ <- lift (write_text c);
        do _ <- emit (SubprocessExec "python");
        do _ <- lift (create_subprocess_exec c);
        do _ <- emit (WaitForCommunicate limit);
        do finished <-
          try_except is_TimeoutError
            (do out <- lift (wait_for_communicate c limit); ret (Some out))
            (fun _ => do _ <- emit ProcKill; do _ <- lift proc_kill; ret None);
        match finished with
        | None => ret (error_response "Execution timeout")
        | Some (stdout, stderr, returncode) =>
            do outputs <- lift collect_outputs;
            ret (<["success" := VBool (returncode =? 0)%Z]>
                 (<["exit_code" := VInt returncode]>
                  (<["outputs" := outputs]>
                   (<["metrics" := parse_metrics stdout]>
                    (<["stdout" := VStr (last_1000 stdout)]>
                     (<["stderr" := VStr (last_1000 stderr)]> ∅))))))
        end))
    (fun e => ret (error_response ("Subprocess execution failed: " ++ exn_str e))).

Definition execute_code (request : CodeExecutionRequest) : M response :=
  try_except derives_Exception
    (if sandbox request && bool_decide (is_Some docker_client)
     then _execute_in_docker (code request) (timeout request)
     else _execute_subprocess (code request) (timeout request))
    (fun e => ret (error_response (exn_str e))).
End Execute.

(** The events of each path. *)
Definition is_docker_event (ev : event) : bool :=
  match ev with
  | WriteCode _ | ContainersRun _ _ | ContainerWait _ | ContainerRemove => true
  | _ => false
  end.

Definition is_subprocess_event (ev : event) : bool :=
  match ev with
  | WriteCode _ | SubprocessExec _ | WaitForCommunicate _ | ProcKill => true
  | _ => false
  end.

(** A run from the empty trace in a world where the temporary directory is
    made, the file is written and the container and the child start; what
    varies is whether Docker is there, how the two waits end, and whether
    the kill and the removal of the directory succeed. *)
Definition sample_run (docker_client : option DockerClient)
    (container_wait : result Z)
    (wait_for_communicate : result (string * string * Z))
    (proc_kill cleanup_tmpdir : result unit) (request : CodeExecutionRequest)
    : list event * result response :=
  execute_code docker_client (Return tt) cleanup_tmpdir
    (fun _ => Return tt) (fun _ => Return tt) (fun _ => container_wait)
    (Return "{}") (Return tt) (fun _ => Return tt)
    (fun _ _ => wait_for_communicate) proc_kill
    (Return (VDict [])) (fun _ => VDict []) request [].

End Financial.

(* ===================================================================== *)
(** * unified_mcp/src/unified_server.py: cross-agent analysis *)
(* ===================================================================== *)

Module Unified.
Import PyNum Py.

Record CrossAgentAnalysis := {
  analysis_type : string;
  agents : list string;
  metrics : list string;
  parameters : option (list (string * pyval))
}.

Record correlation := {
  correlation_coefficient : dec;
  p_value : dec;
  relationship : string
}.

Record anomaly := {
  anomaly_agent : string;
  anomaly_timestamp : string;
  anomaly_metric : string;
  anomaly_value : Z;
  expected_range : list Z;
  severity : string
}.

Record trend := {
  direction : string;
  change_rate : string;
  forecast_7d : list Z
}.

(** The dict [analysis_results]; the last three keys are present only for
    their analysis type. *)
Record analysis_results := {
  res_analysis_type : string;
  res_agents : list string;
  res_metrics : list string;
  correlations : option (gmap string correlation);
  anomalies : option (list anomaly);
  trends : option (gmap string trend)
}.

(** What the tool returns: the success dict or the error dict. *)
Inductive cross_agent_response :=
| CrossAgentSuccess (analysis : analysis_results) (generated_at : string)
| CrossAgentError (error : string).

Definition mock_correlation : correlation :=
  {| correlation_coefficient := Dec 75 2; p_value := Dec 1 3;
     relationship := "positive" |}.

(** [f"{agent1}_vs_{agent2}"] *)
Definition pair_key (agent1 agent2 : string) : string :=
  agent1 ++ "_vs_" ++ agent2.

(** [for i, agent1 in enumerate(agents): for agent2 in agents[i+1:]:
    correlations[key] = {...}] *)
Fixpoint correlate (agents : list string) (acc : gmap string correlation)
    : gmap string correlation :=
  match agents with
  | [] => acc
  | agent1 :: later =>
      correlate later
        (foldl (fun acc agent2 => <[pair_key agent1 agent2 := mock_correlation]> acc)
               acc later)
  end.

Definition mock_anomaly (agent : string) : anomaly :=
  {| anomaly_agent := agent; anomaly_timestamp := "2024-01-15T14:30:00";
     anomaly_metric := "response_time"; anomaly_value := 2500;
     expected_range := [100; 500]%Z; severity := "high" |}.

Definition mock_trend : trend :=
  {| direction := "increasing"; change_rate := "+15%";
     forecast_7d := [100; 115; 130; 145; 160; 175; 190]%Z |}.

(** [analyze_cross_agent]; [now] is [datetime.now().isoformat()]. *)
Definition analyze_cross_agent (request : CrossAgentAnalysis) (now : string)
    : result cross_agent_response :=
  let body : result cross_agent_response :=
    let base :=
      {| res_analysis_type := analysis_type request;
         res_agents := agents request; res_metrics := metrics request;
         correlations := None; anomalies := None; trends := None |} in
    let analysis :=
      if String.eqb (analysis_type request) "correlation" then
        {| res_analysis_type := res_analysis_type base;
           res_agents := res_agents base; res_metrics := res_metrics base;
           correlations := Some (correlate (agents request) ∅);
           anomalies := None; trends := None |}
      else if String.eqb (analysis_type request) "anomaly" then
        {| res_analysis_type := res_analysis_type base;
           res_agents := res_agents base; res_metrics := res_metrics base;
           correlations := None;
           anomalies := Some (map mock_anomaly (agents request));
           trends := None |}
      else if String.eqb (analysis_type request) "trend" then
        {| res_analysis_type := res_analysis_type base;
           res_agents := res_agents base; res_metrics := res_metrics base;
           correlations := None; anomalies := None;
           trends := Some (foldl (fun acc agent => <[agent := mock_trend]> acc)
                                 ∅ (agents request)) |}
      else base in
    Return (CrossAgentSuccess analysis now) in
  match body with
  | Return r => Return r
  | Raise e =>
      if derives_Exception e then Return (CrossAgentError (exn_str e))
      else Raise e
  end.

End Unified.

(* ===================================================================== *)
(** * src/handlers.py, src/models.py, src/main.py: the demo search *)
(* ===================================================================== *)

Module Demo.
Import PyNum Py.

(** An entry of [MockVectorStore.mock_data]. *)
Record item := {
  item_id : string;
  item_title : string;
  item_content : string;
  item_agent : option string;
  item_timestamp : option Z;
  item_embedding : list dec
}.

Record MockVectorStore := { mock_data : list item }.

(** [MockVectorStore.__init__]; [utcnow] is the clock at construction. *)
Definition MockVectorStore_init (utcnow : Z) : MockVectorStore :=
  {| mock_data :=
       [ {| item_id := "1"; item_title := "MCP Integration Guide";
            item_content := "How to integrate MCP with Pulser agents";
            item_agent := Some "claudia"; item_timestamp := Some utcnow;
            item_embedding := [Dec 1 1; Dec 2 1; Dec 3 1] |};
         {| item_id := "2"; item_title := "Agent Orchestration Patterns";
            item_content := "Best practices for multi-agent coordination";
            item_agent := Some "maya"; item_timestamp := Some utcnow;
            item_embedding := [Dec 4 1; Dec 5 1; Dec 6 1] |} ] |}.

(** The slice [l[:limit]]: a negative bound counts from the end. *)
Definition slice_to {A} (l : list A) (limit : Z) : list A :=
  if (0 <=? limit)%Z then take (Z.to_nat limit) l
  else take (Z.to_nat (Z.of_nat (length l) + limit)) l.

(** The result dict [MockVectorStore.search] builds for an item. *)
Record hit := {
  hit_id : string;
  hit_title : string;
  hit_content : string;
  hit_score : dec;
  hit_agent : option string;
  hit_timestamp : option Z;
  hit_metadata : list (string * pyval)
}.

Definition hit_of_item (it : item) : hit :=
  {| hit_id := item_id it; hit_title := item_title it;
     hit_content := item_content it; hit_score := Dec 85 2;
     hit_agent := item_agent it; hit_timestamp := item_timestamp it;
     hit_metadata := [] |}.

(** [item.get("agent") != v] for a filter value [v]. *)
Definition agent_differs (a : option string) (v : pyval) : bool :=
  match a, v with
  | Some s, VStr s' => negb (String.eqb s s')
  | None, VNone => false
  | _, _ => true
  end.

(** [filters and filters.get("agent") and item.get("agent") !=
    filters["agent"]] *)
Definition skipped (filters : option (gmap string pyval)) (it : item) : bool :=
  match filters with
  | None => false
  | Some f =>
      if (size f =? 0)%nat then false
      else match f !! "agent" with
           | None => false
           | Some v => truthy v && agent_differs (item_agent it) v
           end
  end.

(** [MockVectorStore.search] *)
Definition MockVectorStore_search (store : MockVectorStore) (query : string)
    (filters : option (gmap string pyval)) (limit : Z) : list hit :=
  foldl (fun results it =>
           if skipped filters it then results
           else results ++ [hit_of_item it])
        [] (slice_to (mock_data store) limit).

Record SearchResult := {
  id : string;
  title : string;
  content : string;
  score : dec;
  agent : option string;
  timestamp : option Z;
  metadata : option (list (string * pyval))
}.

Record SearchResponse := {
  results : list SearchResult;
  total : Z;
  query_time_ms : Q
}.

Definition SearchResult_of_hit (r : hit) : SearchResult :=
  {| id := hit_id r; title := hit_title r; content := hit_content r;
     score := hit_score r; agent := hit_agent r;
     timestamp := hit_timestamp r; metadata := Some (hit_metadata r) |}.

(** [SearchHandler.search]; [elapsed_seconds] is the difference of the two
    clock readings. *)
Definition SearchHandler_search (store : MockVectorStore) (query : string)
    (filters : option (gmap string pyval)) (limit : Z) (elapsed_seconds : Q)
    : SearchResponse :=
  let search_results :=
    map SearchResult_of_hit (MockVectorStore_search store query filters limit) in
  {| results := search_results;
     total := Z.of_nat (length search_results);
     query_time_ms := (elapsed_seconds * 1000)%Q |}.

(** The request models of [src/models.py]. *)
Record SearchFilters := {
  filter_agent : option string;
  filter_date_range : option pyval;
  filter_tags : option (list string)
}.

(** The JSON body of [POST /tools/search] before validation. *)
Record SearchRequestBody := {
  body_query : option string;
  body_filters : option SearchFilters;
  body_limit : option Z
}.

Record SearchRequest := {
  query : string;
  filters : option SearchFilters;
  limit : Z
}.

(** Pydantic validation of [SearchRequest]: [query] is required, [limit]
    is [Field(10, ge=1, le=100)]. *)
Definition validate (body : SearchRequestBody) : option SearchRequest :=
  match body_query body with
  | None => None
  | Some q =>
      let l := default 10%Z (body_limit body) in
      if (1 <=? l)%Z && (l <=? 100)%Z
      then Some {| query := q; filters := body_filters body; limit := l |}
      else None
  end.

Definition opt_str (o : option string) : pyval :=
  match o with Some s => VStr s | None => VNone end.

(** [request.filters.dict()] *)
Definition SearchFilters_dict (f : SearchFilters) : gmap string pyval :=
  <["agent" := opt_str (filter_agent f)]>
  (<["date_range" := default VNone (filter_date_range f)]>
   (<["tags" := match filter_tags f with
                | Some l => VList (map VStr l)
                | None => VNone
                end]> ∅)).

(** What the client of the demo app receives. *)
Inductive http_reply :=
| Reply200 (response : SearchResponse)
| ReplyError (status_code : Z).

(** The route function [search] of [src/main.py] behind FastAPI's request
    validation. *)
Definition search_route (store : MockVectorStore) (body : SearchRequestBody)
    (elapsed_seconds : Q) : http_reply :=
  match validate body with
  | None => ReplyError 422
  | Some request =>
      Reply200
        (SearchHandler_search store (query request)
           (SearchFilters_dict <$> filters request) (limit request)
           elapsed_seconds)
  end.

End Demo.

(* ===================================================================== *)
(** * synthetic_server_v3.py: one generated transaction *)
(* ===================================================================== *)

Module SyntheticTxn.
Import PyNum Synthetic.

(** [[0.5] * 6 + [1.5] * 3 + [1.0] * 8 + [1.5] * 3 + [0.8] * 4] *)
Definition hour_weights : list dec :=
  replicate 6 (Dec 5 1) ++ replicate 3 (Dec 15 1) ++ replicate 8 (Dec 10 1)
  ++ replicate 3 (Dec 15 1) ++ replicate 4 (Dec 8 1).

(** [[w/sum(hour_weights) for w in hour_weights]], exactly and as doubles. *)
Definition hour_p_Q : list Q :=
  map (fun w => (dec_Q w / sumQ (map dec_Q hour_weights))%Q) hour_weights.
Definition hour_p : list float :=
  map (fun w => (dec_float w / sum_float (map dec_float hour_weights))%float)
      hour_weights.

(** The quantity multiplier of a transaction date: [day] is the day of the
    month, [weekday] is [date.weekday()] (Monday is 0). *)
Definition quantity_multiplier (day weekday : Z) : dec :=
  if bool_decide (day ∈ [15; 30]%Z) then Dec 14 1
  else if (5 <=? weekday)%Z then Dec 125 2
  else Dec 10 1.

(** The values and the probabilities of the quantity draw of a category. *)
Definition quantity_choices (category : string) : list Z * list dec :=
  if String.eqb category "Tobacco" then ([1; 2]%Z, [Dec 8 1; Dec 2 1])
  else if bool_decide (category ∈ ["Snacks"; "Beverage"; "CSD"])
       then ([1; 2; 3]%Z, [Dec 7 1; Dec 25 2; Dec 5 2])
       else ([1; 2]%Z, [Dec 9 1; Dec 1 1]).

(** [int(base_quantity * quantity_multiplier)] *)
Definition scaled_quantity (base_quantity : Z) (multiplier : dec) : option Z :=
  py_int (float_of_Z base_quantity * dec_float multiplier)%float.

(** The quantity of a row: the scaled quantity, lowered by one (but not
    below 1) in a region of weight under 1.0 when the draw [u] of
    [random.random()] is under 0.3. *)
Definition quantity (base_quantity : Z) (multiplier : dec) (region_name : string)
    (u : float) : option Z :=
  q ← scaled_quantity base_quantity multiplier;
  let region_factor := dec_float (dict_get REGIONAL_WEIGHTS region_name (Dec 10 1)) in
  if (region_factor <? 1)%float && (u <? dec_float (Dec 3 1))%float
  then Some (Z.max 1 (q - 1))
  else Some q.

(** A row of the brands file, with the columns the code reads; [category]
    is the column after the category mapping of [load_master_data]. *)
Record brand := Brand {
  brand_id : Z;
  brand_name : string;
  company : string;
  category : string;
  is_tbwa_client : bool
}.

(** One entry of [BRAND_LOOKUPS]. *)
Record lookup := {
  tbwa : list Z;
  competitor : list Z;
  all : list Z
}.

Section BrandSelection.
Variable BRANDS_DF : list brand.

Definition ids_where (p : brand -> bool) : list Z :=
  map brand_id (List.filter p BRANDS_DF).

(** [build_brand_lookups]: one entry per key of [CATEGORY_WEIGHTS]. *)
Definition BRAND_LOOKUPS : list (string * lookup) :=
  map (fun cat =>
         (cat,
          {| tbwa := ids_where (fun b => String.eqb (category b) cat && is_tbwa_client b);
             competitor := ids_where (fun b => String.eqb (category b) cat
                                               && negb (is_tbwa_client b));
             all := ids_where (fun b => String.eqb (category b) cat) |}))
      (keys CATEGORY_WEIGHTS).

Fixpoint lookups_get (t : list (string * lookup)) (k : string) : option lookup :=
  match t with
  | [] => None
  | (k', v) :: t' => if String.eqb k' k then Some v else lookups_get t' k
  end.

Definition JTI_IDS : list Z :=
  ids_where (fun b => String.eqb (company b) "Japan Tobacco International").

Definition NON_JTI_TOBACCO_IDS : list Z :=
  match lookups_get BRAND_LOOKUPS "Tobacco" with
  | Some l => List.filter (fun bid => negb (bool_decide (bid ∈ JTI_IDS))) (all l)
  | None => []
  end.

(** [random.choice(seq) if seq else fallback]; [r] is the generator's raw
    draw, reduced to an index. *)
Definition choice_or (seq : list Z) (fallback : Z) (r : nat) : Z :=
  match seq with
  | [] => fallback
  | _ => default fallback (seq !! (r mod length seq)%nat)
  end.

(** The brand of a transaction in [category]; [u] is the draw of
    [random.random()], [r] the draw behind [random.choice].  A category
    without an entry in [BRAND_LOOKUPS] is a [KeyError] ([None]). *)
Definition select_brand (cat : string) (u : float) (r : nat) : option Z :=
  let tbwa_share := dec_float (dict_get TBWA_CATEGORY_SHARE cat (Dec 0 0)) in
  if String.eqb cat "Tobacco" then
    if (u <? dec_float (Dec 40 2))%float
    then Some (choice_or JTI_IDS 33 r)
    else Some (choice_or NON_JTI_TOBACCO_IDS 99 r)
  else
    l ← lookups_get BRAND_LOOKUPS cat;
    if (u <? tbwa_share)%float then
      match tbwa l with
      | [] => Some (choice_or (competitor l) 1 r)
      | tbwa_brands => Some (choice_or tbwa_brands 1 r)
      end
    else
      match competitor l with
      | [] => Some (choice_or (all l) 1 r)
      | comp_brands => Some (choice_or comp_brands 1 r)
      end.

(** [BRANDS_DF[BRANDS_DF.brand_id == brand_id].iloc[0]]: the first row with
    the id, an [IndexError] ([None]) when there is none. *)
Definition brand_info (bid : Z) : option brand :=
  head (List.filter (fun b => (brand_id b =? bid)%Z) BRANDS_DF).
End BrandSelection.

(** A small brands table to run the selection on. *)
Definition sample_brands : list brand :=
  [ Brand 1 "Alaska Evaporada" "Alaska Milk Corporation" "Dairy" true;
    Brand 2 "Bear Brand" "Nestle Philippines" "Dairy" false;
    Brand 3 "Coca-Cola" "Coca-Cola Beverages Philippines" "CSD" false;
    Brand 4 "Winston" "Japan Tobacco International" "Tobacco" true ].

End SyntheticTxn.

(* ===================================================================== *)
(** * synthetic_server_v3.py: the size of the first pass *)
(* ===================================================================== *)

Module SyntheticPlan.
Import PyNum Synthetic.

(** The rows the first pass generates when every region has a location:
    the sum of [int(MIN_PER_REGION * weight)] over [REGIONAL_WEIGHTS]. *)
Fixpoint targets_total (regions : table) (MIN : Z) : option Z :=
  match regions with
  | [] => Some 0%Z
  | (_, weight) :: rest =>
      match region_target MIN weight, targets_total rest MIN with
      | Some target, Some total => Some (Z.max 0 target + total)%Z
      | _, _ => None
      end
  end.

Section Numbered.
Context {rng txn date : Type}.
Variable generate_one :
  location -> date -> date -> Z -> rng -> Py.result (txn * rng).

(** The loop invariant on ids: the counter is one past the number of rows,
    and the row at position [k] is what a call with transaction id
    [k + 1] returned. *)
Definition numbered (sd ed : date) (st : @gen_state rng txn) : Prop :=
  txn_counter st = (1 + Z.of_nat (length (rows st)))%Z /\
  forall k t, rows st !! k = Some t ->
    exists loc g g',
      generate_one loc sd ed (Z.of_nat k + 1) g = Py.Return (t, g').
End Numbered.

End SyntheticPlan.

(* ===================================================================== *)
(** * Python text operations *)
(* ===================================================================== *)

Module Text.

(** [str.lower] is a library function over all of Unicode: the functions
    that call it take it as a parameter.  On a text of ASCII characters
    it changes the letters A to Z only, which is what [lower_ascii_text]
    does; the examples, whose texts are ASCII, run with it. *)
Definition lower_ascii (c : Ascii.ascii) : Ascii.ascii :=
  let n := Ascii.nat_of_ascii c in
  if (65 <=? n)%nat && (n <=? 90)%nat then Ascii.ascii_of_nat (n + 32) else c.

Fixpoint lower_ascii_text (s : string) : string :=
  match s with
  | EmptyString => EmptyString
  | String c s' => String (lower_ascii c) (lower_ascii_text s')
  end.

(** [sub in s]: the text [sub] occurs in [s]. *)
Definition occurs (sub s : string) : Prop :=
  exists pre post : string, s = (pre ++ sub ++ post)%string.

(** The scan of [str.count]: occurrences are counted from left to right
    and do not overlap; [skip] characters of the last occurrence are still
    to be passed. *)
Fixpoint count_from (sub : string) (skip : nat) (s : string) : nat :=
  match s with
  | EmptyString => 0
  | String _ s' =>
      match skip with
      | S k => count_from sub k s'
      | O => if String.prefix sub s
             then S (count_from sub (String.length sub - 1) s')
             else count_from sub 0 s'
      end
  end.

(** [s.count(sub)] *)
Definition str_count (s sub : string) : nat :=
  match sub with
  | EmptyString => S (String.length s)
  | _ => count_from sub 0 s
  end.

(** [sum([text.count(word) for word in words])] *)
Definition count_all (text : string) (words : list string) : nat :=
  foldl (fun acc word => (acc + str_count text word)%nat) 0%nat words.

(** The characters [str.split()] splits on. *)
Definition is_space (c : Ascii.ascii) : bool :=
  let n := Ascii.nat_of_ascii c in
  (n =? 32)%nat || ((9 <=? n)%nat && (n <=? 13)%nat)
  || ((28 <=? n)%nat && (n <=? 31)%nat).

(** [len(s.split())]: the number of maximal runs without white space. *)
Fixpoint words_from (in_word : bool) (s : string) : nat :=
  match s with
  | EmptyString => 0
  | String c s' =>
      if is_space c then words_from false s'
      else ((if in_word then 0 else 1) + words_from true s')%nat
  end.

Definition word_count (s : string) : nat := words_from false s.

End Text.

(* ===================================================================== *)
(** * audio_server.py: call quality *)
(* ===================================================================== *)

Module CallQuality.
Import PyNum Py.

Definition Qlt_bool (a b : Q) : bool := negb (Qle_bool b a).

(** [QualityAnalyzer._score_to_grade] *)
Definition _score_to_grade (score : Q) : string :=
  if Qle_bool 90 score then "A"
  else if Qle_bool 80 score then "B"
  else if Qle_bool 70 score then "C"
  else if Qle_bool 60 score then "D"
  else "F".

(** The place of a grade, best first. *)
Definition grade_rank (g : string) : nat :=
  if String.eqb g "A" then 0 else if String.eqb g "B" then 1
  else if String.eqb g "C" then 2 else if String.eqb g "D" then 3 else 4.

(** A JSON number as an exact value; [None] for what arithmetic and
    comparisons with a number refuse. *)
Definition num (v : pyval) : option Q :=
  match v with
  | VInt z => Some (inject_Z z)
  | VDec d => Some (dec_Q d)
  | VBool b => Some (if b then 1 else 0)%Q
  | _ => None
  end.

Fixpoint assoc (l : list (string * pyval)) (k : string) : option pyval :=
  match l with
  | [] => None
  | (k', v) :: l' => if String.eqb k' k then Some v else assoc l' k
  end.

(** [d.get(key, fallback)] on a value that should be a dict. *)
Definition py_get (d : pyval) (key : string) (fallback : pyval) : result pyval :=
  match d with
  | VDict l => Return (default fallback (assoc l key))
  | _ => Raise (Exception "AttributeError" "object has no attribute 'get'")
  end.

Definition as_num (v : pyval) : result Q :=
  match num v with
  | Some q => Return q
  | None => Raise (Exception "TypeError" "unsupported operand type(s)")
  end.

(** What [SpeechProcessor.transcribe_audio] gets from the recogniser. *)
Inductive recognition :=
| Recognised (best_transcript : string) (confidence : pyval)
             (alternatives : list pyval)
| NoSpeech
| NotUnderstood
| ApiError (e : string)
| TranscriptionFailed (e : string).

Definition no_transcript (error : string) : gmap string pyval :=
  <["transcript" := VStr ""]>
  (<["confidence" := VDec (Dec 0 1)]> (<["error" := VStr error]> ∅)).

(** The dict [transcribe_audio] returns. *)
Definition transcribe_audio (outcome : recognition) (language : string)
    : gmap string pyval :=
  match outcome with
  | Recognised best confidence alternatives =>
      <["transcript" := VStr best]>
      (<["confidence" := confidence]>
       (<["alternatives" := VList (take 4 alternatives)]>
        (<["language" := VStr language]>
         (<["word_count" := VInt (Z.of_nat (Text.word_count best))]>
          (<["character_count" := VInt (Z.of_nat (String.length best))]> ∅)))))
  | NoSpeech => no_transcript "No speech detected"
  | NotUnderstood => no_transcript "Speech not understood"
  | ApiError e => no_transcript ("API error: " ++ e)
  | TranscriptionFailed e => no_transcript e
  end.

(** The three measurements [analyze_call_quality] takes from the audio. *)
Record measurements := {
  rms_energy : Q;
  snr_estimate : Q;
  clarity_score : Q
}.

Record audio_quality := {
  aq_rms_energy : Q;
  signal_to_noise_ratio : Q;
  aq_clarity_score : Q;
  volume_level : string
}.

Record speech_quality := {
  filler_word_usage : Q;
  speech_clarity : string;
  interruption_frequency : Q;
  question_engagement : Q
}.

Record quality_report := {
  report_audio_quality : audio_quality;
  report_speech_quality : speech_quality;
  overall_score : Q;
  grade : string;
  recommendations : list string
}.

Definition audio_score (m : measurements) : Q :=
  Qmin 100 (clarity_score m * dec_Q (Dec 4 1)
            + (snr_estimate m / 30) * dec_Q (Dec 3 1)
            + (rms_energy m * 100) * dec_Q (Dec 3 1))%Q.

Definition speech_score (filler_percentage : Q) : Q :=
  Qmax 0 (100 - filler_percentage * 2)%Q.

(** [QualityAnalyzer.analyze_call_quality]; the raise of a value that is
    not a dict or not a number where one is needed ends in the [except]
    clause, which returns the empty dict ([None]). *)
Definition analyze_call_quality (m : measurements)
    (transcript_data : gmap string pyval) : option quality_report :=
  let body : result quality_report :=
    let speech_patterns := default (VDict []) (transcript_data !! "speech_patterns") in
    filler ← (v ← py_get speech_patterns "filler_percentage" (VInt 0); as_num v);
    interruptions ← (v ← py_get speech_patterns "interruption_count" (VInt 0); as_num v);
    questions ← (v ← py_get speech_patterns "question_percentage" (VInt 0); as_num v);
    let overall := (audio_score m * dec_Q (Dec 6 1)
                    + speech_score filler * dec_Q (Dec 4 1))%Q in
    Return
      {| report_audio_quality :=
           {| aq_rms_energy := rms_energy m;
              signal_to_noise_ratio := snr_estimate m;
              aq_clarity_score := clarity_score m;
              volume_level :=
                if Qlt_bool (dec_Q (Dec 1 2)) (rms_energy m)
                   && Qlt_bool (rms_energy m) (dec_Q (Dec 3 1))
                then "good"
                else if Qle_bool (rms_energy m) (dec_Q (Dec 1 2)) then "low"
                else "high" |};
         report_speech_quality :=
           {| filler_word_usage := filler;
              speech_clarity :=
                if Qlt_bool filler 5 then "good"
                else if Qlt_bool filler 10 then "moderate" else "poor";
              interruption_frequency := interruptions;
              question_engagement := questions |};
         overall_score := overall;
         grade := _score_to_grade overall;
         recommendations :=
           (if Qlt_bool (clarity_score m) 60
            then ["Improve microphone quality or positioning"] else [])
           ++ (if Qlt_bool (snr_estimate m) 15
               then ["Reduce background noise"] else [])
           ++ (if Qlt_bool 8 filler
               then ["Practice reducing filler words"] else [])
           ++ (if Qlt_bool 3 interruptions
               then ["Improve conversation flow and listening"] else []) |} in
  match body with
  | Return r => Some r
  | Raise _ => None
  end.

(** In [MCPTools.analyze_audio]: the transcription is stored for three
    analysis types, and the quality analysis is handed
    [analysis_result.get("transcription", {})]. *)
Definition transcribes (analysis_type : string) : bool :=
  bool_decide (analysis_type ∈ ["comprehensive"; "transcription_only"; "sentiment_only"]).

Definition quality_input (analysis_type : string) (outcome : recognition)
    (language : string) : gmap string pyval :=
  if transcribes analysis_type then transcribe_audio outcome language else ∅.

End CallQuality.

(* ===================================================================== *)
(** * audio_server.py: silence detection *)
(* ===================================================================== *)

Module Silence.
Import CallQuality.

Record segment := {
  seg_start : Q;
  seg_end : Q;
  seg_duration : Q
}.

(** The three variables of the loop of [AudioProcessor.detect_silence]. *)
Record scan_state := {
  in_silence : bool;
  start_time : option Q;
  silence_segments : list segment
}.

Section Scan.
(** [times]: what [librosa.frames_to_time] returned, by frame index. *)
Variable times : nat -> Q.

(** One turn of the loop, at frame [i]. *)
Definition scan_step (st : scan_state) (i : nat) (is_silent : bool) : scan_state :=
  if is_silent && negb (in_silence st) then
    {| in_silence := true; start_time := Some (times i);
       silence_segments := silence_segments st |}
  else if negb is_silent && in_silence st then
    {| in_silence := false; start_time := start_time st;
       silence_segments :=
         match start_time st with
         | Some s =>
             silence_segments st
             ++ [ {| seg_start := s; seg_end := times i;
                     seg_duration := (times i - s)%Q |} ]
         | None => silence_segments st
         end |}
  else st.

(** [for i, is_silent in enumerate(silence_mask)], from index [i] on. *)
Fixpoint scan (i : nat) (silence_mask : list bool) (st : scan_state) : scan_state :=
  match silence_mask with
  | [] => st
  | is_silent :: rest => scan (S i) rest (scan_step st i is_silent)
  end.

Definition scan_start : scan_state :=
  {| in_silence := false; start_time := None; silence_segments := [] |}.

(** [energy < threshold], frame by frame. *)
Definition silence_mask (energy : list Q) (threshold : Q) : list bool :=
  map (fun e => Qlt_bool e threshold) energy.

Definition segments_of (energy : list Q) (threshold : Q) : list segment :=
  silence_segments (scan 0 (silence_mask energy threshold) scan_start).

Record silence_analysis := {
  sa_silence_segments : list segment;
  total_silence_duration : Q;
  silence_percentage : Q;
  silence_count : nat
}.

Definition sum_durations (l : list segment) : Q :=
  foldl (fun acc seg => (acc + seg_duration seg)%Q) 0%Q l.

(** [AudioProcessor.detect_silence], from the frame energies on ([energy] is
    [np.sum(frames**2, axis=0)]); [n_samples] is [len(audio_data)].  A zero
    division ends in the [except] clause, which returns the empty dict
    ([None]). *)
Definition detect_silence (energy : list Q) (n_samples sr : Z) (threshold : Q)
    : option silence_analysis :=
  let segments := segments_of energy threshold in
  let total_silence := sum_durations segments in
  if (sr =? 0)%Z || (n_samples =? 0)%Z then None
  else
    Some {| sa_silence_segments := segments;
            total_silence_duration := total_silence;
            silence_percentage :=
              (total_silence / (inject_Z n_samples / inject_Z sr) * 100)%Q;
            silence_count := length segments |}.

(** The loop invariant used below: every segment closed so far runs
    between two frame times [times a < times b] and ends before frame [i];
    an open silence started at a frame before [i] and after every closed
    segment. *)
Definition closed_before (i : nat) (segs : list segment) : Prop :=
  Forall (fun seg => exists a b, (a < b < i)%nat /\
            seg_start seg = times a /\ seg_end seg = times b /\
            seg_duration seg = (times b - times a)%Q) segs.

Definition ordered (segs : list segment) : Prop :=
  forall j k a b, (j < k)%nat -> segs !! j = Some a -> segs !! k = Some b ->
    (seg_end a < seg_start b)%Q.

Definition scan_inv (i : nat) (st : scan_state) : Prop :=
  closed_before i (silence_segments st) /\
  ordered (silence_segments st) /\
  (in_silence st = true ->
   exists j, (j < i)%nat /\ start_time st = Some (times j) /\
     Forall (fun seg => (seg_end seg < times j)%Q) (silence_segments st)).
End Scan.

End Silence.

(* ===================================================================== *)
(** * audio_server.py: assessing a stored analysis *)
(* ===================================================================== *)

Module CallAssessment.
Import PyNum Py CallQuality.

(** [CallQualityRequest]; the default of [quality_metrics] is the list of
    the five metrics. *)
Record CallQualityRequest := {
  audio_id : string;
  quality_metrics : list string;
  agent_guidelines : option (list (string * pyval))
}.

Definition default_quality_metrics : list string :=
  ["clarity"; "volume"; "background_noise"; "interruptions"; "pace"].

(** A value of the [scores] dict: one taken from the stored analysis as it
    is, or one computed. *)
Inductive score :=
| Stored (v : pyval)
| Computed (q : Q).

Definition score_num (s : score) : result Q :=
  match s with
  | Stored v => as_num v
  | Computed q => Return q
  end.

(** [d[k] = v] on a dict in insertion order. *)
Fixpoint dict_set {A} (d : list (string * A)) (k : string) (v : A)
    : list (string * A) :=
  match d with
  | [] => [(k, v)]
  | (k', v') :: d' =>
      if String.eqb k' k then (k', v) :: d' else (k', v') :: dict_set d' k v
  end.

(** [{"good": 85, "low": 40, "high": 60}.get(volume_level, 50)] *)
Definition volume_score (volume_level : pyval) : result Q :=
  match volume_level with
  | VStr s =>
      Return (if String.eqb s "good" then 85
              else if String.eqb s "low" then 40
              else if String.eqb s "high" then 60 else 50)%Q
  | VList _ | VDict _ => Raise (Exception "TypeError" "unhashable type")
  | _ => Return 50%Q
  end.

Definition noise_score (snr : Q) : Q := Qmin 100 (snr / 30 * 100)%Q.

Definition interruption_score (interruption_count : Q) : Q :=
  Qmax 0 (100 - interruption_count * 10)%Q.

Definition pace_score (words_per_minute : Q) : Q :=
  if Qle_bool 120 words_per_minute && Qle_bool words_per_minute 180 then 100%Q
  else Qmax 0 (100 - Qabs (words_per_minute - 150) * 2)%Q.

(** [word_count / (duration_seconds / 60)] *)
Definition words_per_minute (word_count duration_seconds : pyval) : result Q :=
  d ← as_num duration_seconds;
  let minutes := (d / 60)%Q in
  w ← as_num word_count;
  if Qeq_bool minutes 0
  then Raise (Exception "ZeroDivisionError" "float division by zero")
  else Return (w / minutes)%Q.

(** One turn of the loop over [request.quality_metrics]. *)
Definition assess_metric (audio_data quality_analysis : pyval)
    (scores : list (string * score)) (metric : string)
    : result (list (string * score)) :=
  if String.eqb metric "clarity" then
    aq ← py_get quality_analysis "audio_quality" (VDict []);
    v ← py_get aq "clarity_score" (VInt 0);
    Return (dict_set scores "clarity" (Stored v))
  else if String.eqb metric "volume" then
    aq ← py_get quality_analysis "audio_quality" (VDict []);
    volume_level ← py_get aq "volume_level" (VStr "unknown");
    s ← volume_score volume_level;
    Return (dict_set scores "volume" (Computed s))
  else if String.eqb metric "background_noise" then
    aq ← py_get quality_analysis "audio_quality" (VDict []);
    v ← py_get aq "signal_to_noise_ratio" (VInt 20);
    snr ← as_num v;
    Return (dict_set scores "background_noise" (Computed (noise_score snr)))
  else if String.eqb metric "interruptions" then
    sp ← py_get audio_data "speech_patterns" (VDict []);
    v ← py_get sp "interruption_count" (VInt 0);
    interruption_count ← as_num v;
    Return (dict_set scores "interruptions"
              (Computed (interruption_score interruption_count)))
  else if String.eqb metric "pace" then
    tr ← py_get audio_data "transcription" (VDict []);
    word_count ← py_get tr "word_count" (VInt 0);
    duration_seconds ← py_get audio_data "duration_seconds" (VInt 1);
    wpm ← words_per_minute word_count duration_seconds;
    Return (dict_set scores "pace" (Computed (pace_score wpm)))
  else Return scores.

Fixpoint assess_metrics (audio_data quality_analysis : pyval)
    (scores : list (string * score)) (metrics : list string)
    : result (list (string * score)) :=
  match metrics with
  | [] => Return scores
  | metric :: rest =>
      scores' ← assess_metric audio_data quality_analysis scores metric;
      assess_metrics audio_data quality_analysis scores' rest
  end.

(** [sum(scores.values())], from 0. *)
Fixpoint sum_scores (acc : Q) (scores : list (string * score)) : result Q :=
  match scores with
  | [] => Return acc
  | (_, s) :: rest => q ← score_num s; sum_scores (acc + q)%Q rest
  end.

(** A recommendation, before it is rendered as
    ["Improve {metric} - current score: {score:.1f}, target: {threshold}"]. *)
Record recommendation := {
  rec_metric : string;
  rec_score : Q;
  rec_threshold : pyval
}.

Fixpoint recommend (guidelines : list (string * pyval))
    (scores : list (string * score)) : result (list recommendation) :=
  match scores with
  | [] => Return []
  | (metric, s) :: rest =>
      let threshold := default (VInt 70) (assoc guidelines (metric ++ "_threshold")) in
      q ← score_num s;
      t ← as_num threshold;
      recs ← recommend guidelines rest;
      Return (if Qlt_bool q t
              then {| rec_metric := metric; rec_score := q;
                      rec_threshold := threshold |} :: recs
              else recs)
  end.

Record quality_assessment := {
  qa_audio_id : string;
  assessed_at : string;
  metrics_assessed : list string;
  scores : list (string * score);
  qa_overall_score : Q;
  qa_grade : string;
  qa_recommendations : list recommendation
}.

(** The two response dicts: [{"success": True, "audio_id": ...,
    "quality_assessment": ...}] and [{"success": False, "error": ...}]. *)
Inductive reply :=
| Assessed (id : string) (qa : quality_assessment)
| NotAssessed (error : string).

Section Assess.
(** [stored id]: [None] when [PROCESSED_DIR / id / "analysis.json"] does
    not exist, else what [json.load] gives or raises. *)
Variable stored : string -> option (result pyval).
Variable now : string.

(** [MCPTools.assess_call_quality] *)
Definition assess_call_quality (request : CallQualityRequest) : reply :=
  match stored (audio_id request) with
  | None => NotAssessed ("Audio analysis not found for ID: " ++ audio_id request)
  | Some loaded =>
      let body : result quality_assessment :=
        audio_data ← loaded;
        quality_analysis ← py_get audio_data "quality_analysis" (VDict []);
        scores ← assess_metrics audio_data quality_analysis [] (quality_metrics request);
        total ← sum_scores 0 scores;
        avg_score ←
          (if (length scores =? 0)%nat
           then Raise (Exception "ZeroDivisionError" "division by zero")
           else Return (total / inject_Z (Z.of_nat (length scores)))%Q);
        recommendations ←
          match agent_guidelines request with
          | Some (g :: gs) => recommend (g :: gs) scores
          | _ => Return []
          end;
        Return {| qa_audio_id := audio_id request;
                  assessed_at := now;
                  metrics_assessed := quality_metrics request;
                  scores := scores;
                  qa_overall_score := avg_score;
                  qa_grade := _score_to_grade avg_score;
                  qa_recommendations := recommendations |} in
      match body with
      | Return qa => Assessed (audio_id request) qa
      | Raise e => NotAssessed (exn_str e)
      end
  end.
End Assess.

End CallAssessment.

(* ===================================================================== *)
(** * audio_server.py: keyword counts *)
(* ===================================================================== *)

Module Sentiment.
Import PyNum Py CallQuality.

(** [emotion_patterns], in the order of the dict literal. *)
Definition emotion_patterns : list (string * list string) :=
  [ ("joy", ["happy"; "joy"; "excited"; "delighted"; "pleased"; "cheerful"]);
    ("anger", ["angry"; "furious"; "mad"; "irritated"; "annoyed"; "frustrated"]);
    ("sadness", ["sad"; "unhappy"; "disappointed"; "depressed"; "upset"]);
    ("fear", ["afraid"; "scared"; "worried"; "anxious"; "nervous"; "concerned"]);
    ("surprise", ["surprised"; "amazed"; "shocked"; "astonished"; "stunned"]);
    ("trust", ["trust"; "confident"; "reliable"; "depend"; "believe"]) ].

(** [max(d, key=d.get)]: the first key, in iteration order, whose value no
    other exceeds. *)
Fixpoint max_key (best : string) (best_value : Q) (d : list (string * Q)) : string :=
  match d with
  | [] => best
  | (k, v) :: rest =>
      if Qlt_bool best_value v then max_key k v rest else max_key best best_value rest
  end.

Definition sum_values (d : list (string * nat)) : nat :=
  foldr (fun kv acc => (snd kv + acc)%nat) 0%nat d.

(** [sum(d.values())] on the percentages. *)
Definition sum_percentages (d : list (string * Q)) : Q :=
  foldr (fun kv acc => (snd kv + acc)%Q) 0%Q d.

Record emotions := {
  emotion_scores : list (string * nat);
  emotion_percentages : list (string * Q);
  dominant_emotion : string
}.

(** The second half of [_analyze_emotions]: from the scores to the
    percentages and the dominant emotion. *)
Definition normalise (emotion_scores : list (string * nat)) : emotions :=
  let total_score := sum_values emotion_scores in
  if (0 <? total_score)%nat then
    let emotion_percentages :=
      map (fun kv => (fst kv,
             (inject_Z (Z.of_nat (snd kv)) / inject_Z (Z.of_nat total_score) * 100)%Q))
          emotion_scores in
    {| emotion_scores := emotion_scores;
       emotion_percentages := emotion_percentages;
       dominant_emotion :=
         match emotion_percentages with
         | [] => ""
         | (k, v) :: rest => max_key k v rest
         end |}
  else
    {| emotion_scores := emotion_scores;
       emotion_percentages := map (fun kv => (fst kv, 0%Q)) emotion_scores;
       dominant_emotion := "neutral" |}.

(** A keyword of the emotion occurs in the lowered text:
    [any(keyword in text_lower for keyword in emotion_patterns[emotion])]. *)
Definition emotion_keyword_in (emotion text_lower : string) : Prop :=
  exists keywords keyword,
    (emotion, keywords) ∈ emotion_patterns /\ keyword ∈ keywords /\
    Text.occurs keyword text_lower.

Section Lowered.
(** [str.lower] *)
Variable str_lower : string -> string.

(** [SentimentAnalyzer._analyze_emotions] *)
Definition _analyze_emotions (text : string) : emotions :=
  let text_lower := str_lower text in
  normalise
    (map (fun '(emotion, keywords) => (emotion, Text.count_all text_lower keywords))
         emotion_patterns).

End Lowered.

Definition resolution_keywords : list string :=
  ["solved"; "resolved"; "fixed"; "worked"; "helped"; "thank you"].
Definition escalation_keywords : list string :=
  ["manager"; "supervisor"; "escalate"; "complaint"; "unacceptable"].
Definition positive_emotion_keywords : list string :=
  ["happy"; "satisfied"; "pleased"; "great"; "excellent"].
Definition negative_emotion_keywords : list string :=
  ["frustrated"; "angry"; "disappointed"; "upset"; "terrible"].

Record satisfaction := {
  satisfaction_score : Q;
  resolution_indicators : nat;
  escalation_indicators : nat;
  positive_emotions : nat;
  negative_emotions : nat;
  quality_impact : Q;
  satisfaction_level : string
}.

Definition Qnat (n : nat) : Q := inject_Z (Z.of_nat n).

(** [MCPTools._analyze_customer_satisfaction], with [str.lower] as
    [str_lower]; an exception ends in the [except] clause, which returns
    the empty dict ([None]). *)
Definition _analyze_customer_satisfaction (str_lower : string -> string)
    (transcript : string) (audio_data : pyval) : option satisfaction :=
  let text_lower := str_lower transcript in
  let resolution_count := Text.count_all text_lower resolution_keywords in
  let escalation_count := Text.count_all text_lower escalation_keywords in
  let positive_emotion_count := Text.count_all text_lower positive_emotion_keywords in
  let negative_emotion_count := Text.count_all text_lower negative_emotion_keywords in
  let base_score := 50%Q in
  let resolution_bonus := (Qnat resolution_count * 10)%Q in
  let escalation_penalty := (Qnat escalation_count * 15)%Q in
  let emotion_adjustment :=
    ((Qnat positive_emotion_count - Qnat negative_emotion_count) * 5)%Q in
  let body : result satisfaction :=
    qa ← py_get audio_data "quality_analysis" (VDict []);
    v ← py_get qa "overall_score" (VInt 70);
    quality_score ← as_num v;
    let quality_adjustment := ((quality_score - 70) * dec_Q (Dec 2 1))%Q in
    let satisfaction_score :=
      Qmax 0 (Qmin 100 (base_score + resolution_bonus - escalation_penalty
                        + emotion_adjustment + quality_adjustment))%Q in
    Return {| satisfaction_score := satisfaction_score;
              resolution_indicators := resolution_count;
              escalation_indicators := escalation_count;
              positive_emotions := positive_emotion_count;
              negative_emotions := negative_emotion_count;
              quality_impact := quality_adjustment;
              satisfaction_level :=
                if Qle_bool 80 satisfaction_score then "high"
                else if Qle_bool 60 satisfaction_score then "medium" else "low" |} in
  match body with
  | Return r => Some r
  | Raise _ => None
  end.

End Sentiment.

(* ===================================================================== *)
(** * unified_server.py: the data sources and the unified query *)
(* ===================================================================== *)

Module UnifiedSources.
Import Py.

Record DataSourceConfig := {
  name : string;
  type : string;
  connection_params : list (string * pyval);
  sync_interval : option Z
}.

(** [DataSourceManager.sources]: a dict in insertion order. *)
Definition sources_dict := list (string * DataSourceConfig).

Fixpoint dict_lookup {A} (d : list (string * A)) (k : string) : option A :=
  match d with
  | [] => None
  | (k', v) :: d' => if String.eqb k' k then Some v else dict_lookup d' k
  end.

(** [DataSourceManager.add_source]: the config is stored under its name;
    the [_create_*_source] methods called afterwards only log. *)
Definition add_source (sources : sources_dict) (config : DataSourceConfig)
    : sources_dict :=
  CallAssessment.dict_set sources (name config) config.

(** [default_sources], with the default [sync_interval] of the model. *)
Definition default_sources : list DataSourceConfig :=
  [ {| name := "scout_metrics"; type := "database";
       connection_params :=
         [("engine", VStr "postgresql"); ("host", VStr "localhost");
          ("database", VStr "scout_db"); ("table", VStr "predicted_metrics")];
       sync_interval := Some 3600%Z |};
    {| name := "creative_insights"; type := "api";
       connection_params :=
         [("url", VStr "http://localhost:8001/mcp/tools/search_vector");
          ("method", VStr "POST")];
       sync_interval := Some 3600%Z |};
    {| name := "voice_analytics"; type := "supabase";
       connection_params := [("table", VStr "call_analytics"); ("select", VStr "*")];
       sync_interval := Some 3600%Z |};
    {| name := "financial_kpis"; type := "api";
       connection_params :=
         [("url", VStr "http://localhost:8002/mcp/tools/analyze_kpis");
          ("method", VStr "POST")];
       sync_interval := Some 3600%Z |} ].

(** [DataSourceManager.__init__] *)
Definition DataSourceManager_init : sources_dict :=
  foldl add_source [] default_sources.

(** The [list_sources] route. *)
Definition list_sources (sources : sources_dict)
    : list (string * string * option Z) :=
  map (fun '(source_name, config) => (source_name, type config, sync_interval config))
      sources.

Record UnifiedQueryRequest := {
  query : string;
  sources : option (list string);
  timeframe : option string;
  output_format : string
}.

(** The three mock answers of a source, by its type. *)
Inductive source_data :=
| DatabaseData (source : string)
| ApiData (source : string)
| PendingData (source : string).

Definition source_of (d : source_data) : string :=
  match d with
  | DatabaseData s | ApiData s | PendingData s => s
  end.

Record query_response := {
  qr_query : string;
  sources_queried : nat;
  results : list source_data;
  timestamp : string
}.

Inductive reply :=
| Answer (response : query_response)
| Failure (error : string).

(** [','.join(l)] *)
Fixpoint join_comma (l : list string) : string :=
  match l with
  | [] => ""
  | [s] => s
  | s :: rest => s ++ "," ++ join_comma rest
  end.

Definition retrieve (source_name : string) (config : DataSourceConfig) : source_data :=
  if String.eqb (type config) "database" then DatabaseData source_name
  else if String.eqb (type config) "api" then ApiData source_name
  else PendingData source_name.

(** The loop over [sources_to_query]. *)
Fixpoint query_sources (registered : sources_dict) (names : list string)
    : list source_data :=
  match names with
  | [] => []
  | source_name :: rest =>
      match dict_lookup registered source_name with
      | Some config => retrieve source_name config :: query_sources registered rest
      | None => query_sources registered rest
      end
  end.

Section Query.
(** The builtin [hash] on strings and the decimal form of an int. *)
Variable hash : string -> Z.
Variable str_of_int : Z -> string.

Definition cache_key (q : string) (l : list string) : string :=
  "unified_query:" ++ str_of_int (hash q) ++ ":" ++ join_comma l.

(** The Redis cache: under each key the time at which the entry expires
    and the response ([json.loads] is taken to give back what [json.dumps]
    was given). *)
Definition cache := gmap string (Z * query_response).

(** [redis_client.get(key)] at the time [clock], in seconds: an entry is
    there until its time to live has passed. *)
Definition redis_get (redis : cache) (clock : Z) (key : string)
    : option query_response :=
  match redis !! key with
  | Some (expires, cached) => if (clock <? expires)%Z then Some cached else None
  | None => None
  end.

(** [redis_client.setex(key, ttl, value)] at the time [clock]. *)
Definition redis_setex (redis : cache) (clock : Z) (key : string) (ttl : Z)
    (value : query_response) : cache :=
  <[key := ((clock + ttl)%Z, value)]> redis.

(** [MCPTools.query_unified_data]; [registered] is
    [app.state.source_manager.sources], [clock] the time of the cache in
    seconds and [now] is [datetime.now().isoformat()]. *)
Definition query_unified_data (registered : sources_dict)
    (request : UnifiedQueryRequest) (clock : Z) (now : string) (redis : cache)
    : cache * reply :=
  match sources request with
  | None => (redis, Failure "can only join an iterable")
  | Some requested =>
      let key := cache_key (query request) requested in
      match redis_get redis clock key with
      | Some cached => (redis, Answer cached)
      | None =>
          let sources_to_query :=
            match requested with
            | [] => map fst registered
            | _ => requested
            end in
          let results := query_sources registered sources_to_query in
          let response :=
            {| qr_query := query request;
               sources_queried := length results;
               results := results;
               timestamp := now |} in
          (redis_setex redis clock key 300 response, Answer response)
      end
  end.
End Query.

End UnifiedSources.

(* ===================================================================== *)
(** * scout_local_mcp/src/server.py: the query of [fetch_transcriptions] *)
(* ===================================================================== *)

Module ScoutQuery.
Import Py.

(** [if key in query.params: filters.append(clause);
    params.append(query.params[key])] *)
Definition add_filter (query_params : gmap string pyval) (key clause : string)
    (acc : list string * list pyval) : list string * list pyval :=
  match query_params !! key with
  | Some v => (acc.1 ++ [clause], acc.2 ++ [v])
  | None => acc
  end.

(** [" AND ".join(filters)] *)
Fixpoint join_and (filters : list string) : string :=
  match filters with
  | [] => ""
  | [f] => f
  | f :: rest => f ++ " AND " ++ join_and rest
  end.

Definition ORDER_LIMIT : string := " ORDER BY timestamp DESC LIMIT 100".

(** The statement and the values [fetch_transcriptions] hands to
    [cursor.execute]. *)
Definition build_query (query_params : gmap string pyval) : string * list pyval :=
  let acc := ([], []) in
  let acc := add_filter query_params "store_id" "store_id = ?" acc in
  let acc := add_filter query_params "region" "region = ?" acc in
  let acc := add_filter query_params "brand" "brand = ?" acc in
  let acc := add_filter query_params "date_from" "timestamp >= ?" acc in
  let acc := add_filter query_params "date_to" "timestamp <= ?" acc in
  let filters := acc.1 in
  let base_query := "SELECT * FROM bronze_transcriptions" in
  let base_query :=
    match filters with
    | [] => base_query
    | _ => (base_query ++ " WHERE " ++ join_and filters)%string
    end in
  ((base_query ++ ORDER_LIMIT)%string, acc.2).

Definition FILTER_KEYS : list string :=
  ["store_id"; "region"; "brand"; "date_from"; "date_to"].

Section Fetch.
(** [sqlite3.connect], [cursor.execute] followed by [fetchall] (each row as
    [dict(row)] gives it), [json.loads] and [conn.close]. *)
Variable connect : result unit.
Variable execute : string -> list pyval -> result (list (list (string * pyval))).
Variable json_loads : pyval -> result pyval.
Variable close : result unit.

(** [result['metadata'] = json.loads(result['metadata'])
    if result['metadata'] else {}] *)
Definition parse_metadata (row : list (string * pyval))
    : result (list (string * pyval)) :=
  match UnifiedSources.dict_lookup row "metadata" with
  | None => Raise (Exception "KeyError" "'metadata'")
  | Some m =>
      parsed ← (if truthy m then json_loads m else Return (VDict []));
      Return (CallAssessment.dict_set row "metadata" parsed)
  end.

Fixpoint parse_rows (rows : list (list (string * pyval)))
    : result (list (list (string * pyval))) :=
  match rows with
  | [] => Return []
  | row :: rest =>
      r ← parse_metadata row;
      rs ← parse_rows rest;
      Return (r :: rs)
  end.

(** [MCPTools.fetch_transcriptions] *)
Definition fetch_transcriptions (query_params : gmap string pyval) : result response :=
  Handlers.run_tool Handlers.ConnectThenTry connect
    (let '(base_query, params) := build_query query_params in
     rows ← execute base_query params;
     results ← parse_rows rows;
     Return (<["success" := VBool true]>
             (<["count" := VInt (Z.of_nat (length results))]>
              (<["data" := VList (map VDict results)]> ∅))))
    close.
End Fetch.

End ScoutQuery.

(* ===================================================================== *)
(** * src/handlers.py, src/main.py: the demo analysis *)
(* ===================================================================== *)

Module DemoAnalyze.
Import PyNum Py.

Inductive AnalysisType := summary_only | sentiment | entities | keywords | comprehensive.

(** [AnalysisType.value] *)
Definition AnalysisType_value (t : AnalysisType) : string :=
  match t with
  | summary_only => "summary"
  | sentiment => "sentiment"
  | entities => "entities"
  | keywords => "keywords"
  | comprehensive => "comprehensive"
  end.

Record AnalyzeRequest := {
  document_url : option string;
  content : option string;
  analysis_type : AnalysisType
}.

Record SentimentAnalysis := { sentiment_score : dec; label : string }.
Record Entity := { entity_text : string; entity_type : string; confidence : dec }.
Record Keyword := { keyword : string; keyword_score : dec }.
Record AnalyzeMetadata := { word_count : nat; language : string; processing_time_ms : Q }.

Record AnalyzeResponse := {
  summary_words : nat;  (** the [n] of ["Summary of document with {n} words"] *)
  res_sentiment : option SentimentAnalysis;
  res_entities : option (list Entity);
  res_keywords : option (list Keyword);
  res_metadata : option AnalyzeMetadata
}.

(** Truthiness of an [Optional[str]]. *)
Definition truthy_str (s : option string) : bool :=
  match s with
  | Some s => negb (String.eqb s "")
  | None => false
  end.

(** [len(content.split())] on an [Optional[str]]. *)
Definition split_len (content : option string) : result nat :=
  match content with
  | Some c => Return (Text.word_count c)
  | None => Raise (Exception "AttributeError"
                     "'NoneType' object has no attribute 'split'")
  end.

(** [AnalyzeHandler.analyze]; [elapsed] is the measured processing time. *)
Definition AnalyzeHandler_analyze (document_url content : option string)
    (analysis_type : string) (elapsed : Q) : result AnalyzeResponse :=
  let content :=
    if truthy_str document_url && negb (truthy_str content)
    then Some ("Mock content from " ++ default "" document_url)%string
    else content in
  n ← split_len content;
  let sentiment := {| sentiment_score := Dec 7 1; label := "positive" |} in
  let entities :=
    [ {| entity_text := "Pulser"; entity_type := "PRODUCT"; confidence := Dec 95 2 |};
      {| entity_text := "MCP"; entity_type := "PROTOCOL"; confidence := Dec 9 1 |} ] in
  let keywords :=
    [ {| keyword := "integration"; keyword_score := Dec 9 1 |};
      {| keyword := "protocol"; keyword_score := Dec 85 2 |} ] in
  m ← split_len content;
  Return {| summary_words := n;
            res_sentiment :=
              if String.eqb analysis_type "comprehensive" then Some sentiment else None;
            res_entities :=
              if String.eqb analysis_type "comprehensive" then Some entities else None;
            res_keywords :=
              if String.eqb analysis_type "comprehensive" then Some keywords else None;
            res_metadata :=
              Some {| word_count := m; language := "en";
                      processing_time_ms := elapsed |} |}.

(** The [/tools/analyze] route of [main.py]: a raise of the handler becomes
    an [HTTPException] with status 500. *)
Definition analyze_route (request : AnalyzeRequest) (elapsed : Q)
    : result AnalyzeResponse :=
  match AnalyzeHandler_analyze (document_url request) (content request)
          (AnalysisType_value (analysis_type request)) elapsed with
  | Return r => Return r
  | Raise e =>
      if derives_Exception e then Raise (HTTPException 500 (exn_str e))
      else Raise e
  end.

End DemoAnalyze.

(* ===================================================================== *)
(** * Properties: the probability tables *)
(* ===================================================================== *)

Import PyNum.

(** The decimal reading agrees with the literals as the parser rounds
    them. *)
Example dec_float_reads_literals :
  dec_float (Dec 7 2) = 0.07%float /\ dec_float (Dec 95 2) = 0.95%float /\
  dec_float (Dec 35 1) = 3.5%float /\ dec_float (Dec 2211 4) = 0.2211%float /\
  dec_float (Dec 1 10) = 1e-10%float.
Proof. repeat split; vm_compute; reflexivity. Qed.

Example py_int_truncates :
  py_int 2.7%float = Some 2%Z /\ py_int (-2.7)%float = Some (-2)%Z /\
  py_int 35%float = Some 35%Z /\ py_int (0.29 * 100)%float = Some 28%Z /\
  py_int infinity = None /\ py_int nan = None.
Proof. repeat split; vm_compute; reflexivity. Qed.

(** Every category has an entry in both tables, in the same order, so the
    fallback of [TBWA_CATEGORY_SHARE.get(category, 0)] is never used. *)
Lemma tables_share_their_keys :
  Synthetic.keys Synthetic.CATEGORY_WEIGHTS
  = Synthetic.keys Synthetic.TBWA_CATEGORY_SHARE.
Proof. reflexivity. Qed.

(** C1: the expected TBWA client share computed by
    [calculate_total_tbwa_share] over the 17 categories is 0.2211, both on
    the exact values of the table entries and as Python's binary64
    evaluation (the result is the double that the literal [0.2211] denotes);
    this is about 22%: against the validation script's default expectation
    of 0.22 it passes the script's own 10% tolerance test. *)
Theorem expected_tbwa_share_is_0_2211 :
  length Synthetic.CATEGORY_WEIGHTS = 17%nat /\
  (Synthetic.calculate_total_tbwa_share_Q == dec_Q (Dec 2211 4))%Q /\
  Synthetic.calculate_total_tbwa_share = dec_float (Dec 2211 4) /\
  Synthetic.EXPECTED_TBWA_SHARE = 0.2211%float /\
  Synthetic.within_acceptable_range Synthetic.EXPECTED_TBWA_SHARE
    (dec_float Synthetic.default_expected_tbwa_share) = true /\
  Synthetic.within_acceptable_range_Q Synthetic.calculate_total_tbwa_share_Q
    (dec_Q Synthetic.default_expected_tbwa_share).
Proof.
  split; [reflexivity|].
  split; [vm_compute; reflexivity|].
  split; [vm_compute; reflexivity|].
  split; [vm_compute; reflexivity|].
  split; [vm_compute; reflexivity|].
  vm_compute. reflexivity.
Qed.

(** C2: [CATEGORY_WEIGHTS] is a probability distribution: it has 17
    entries, none of them negative, and their exact sum is 1. *)
Theorem category_weights_are_a_distribution :
  length (Synthetic.values Synthetic.CATEGORY_WEIGHTS) = 17%nat /\
  Forall (fun w => (0 <= dec_Q w)%Q) (Synthetic.values Synthetic.CATEGORY_WEIGHTS) /\
  (Synthetic.sumQ (map dec_Q (Synthetic.values Synthetic.CATEGORY_WEIGHTS)) == 1)%Q.
Proof.
  split; [reflexivity|]. split.
  - repeat constructor; vm_compute; discriminate.
  - vm_compute. reflexivity.
Qed.

(** The same weights as the doubles handed to [np.random.choice]: none is
    negative, and their left-to-right sum is one unit in the last place
    above 1, far inside numpy's tolerance of [sqrt(eps) = 2^-26]. *)
Lemma category_weights_as_doubles :
  let p := map dec_float (Synthetic.values Synthetic.CATEGORY_WEIGHTS) in
  forallb (fun w => negb (w <? 0)%float) p = true /\
  Synthetic.sum_float p = 1.0000000000000002%float /\
  (abs (Synthetic.sum_float p - 1) <? 0x1p-26)%float = true.
Proof. repeat split; vm_compute; reflexivity. Qed.

(* ===================================================================== *)
(** * Properties: the audio quality heuristics *)
(* ===================================================================== *)

(** On binary64 values a strict comparison that holds gives the weak
    one. *)
Lemma ltb_leb (x y : float) : (x <? y)%float = true -> (x <=? y)%float = true.
Proof.
  rewrite ltb_spec, leb_spec. unfold SFltb, SFleb.
  destruct (SFcompare (Prim2SF x) (Prim2SF y)) as [[]|]; congruence.
Qed.

(** [max(0, min(50, x))] lands in [[0, 50]] for every double, [nan] and
    the infinities included. *)
Lemma clamp_0_50 (x : float) :
  (0 <=? py_max 0 (py_min 50 x))%float = true /\
  (py_max 0 (py_min 50 x) <=? 50)%float = true.
Proof.
  unfold py_min. destruct (x <? 50)%float eqn:Hhi.
  - unfold py_max. destruct (0 <? x)%float eqn:Hlo.
    + split; apply ltb_leb; assumption.
    + split; reflexivity.
  - split; reflexivity.
Qed.

(** C10: for every audio input the estimate returned by [_estimate_snr]
    lies in [[0, 50]]: the computed value is clamped, whatever the
    logarithm yields, and the two fallbacks are 25.0 (no quiet frame) and
    20.0 (the exception handler). *)
Theorem estimate_snr_within_0_50 (log10 : float -> float)
    (analysis : option Audio.spectral_estimates) :
  (0 <=? Audio._estimate_snr log10 analysis)%float = true /\
  (Audio._estimate_snr log10 analysis <=? 50)%float = true.
Proof.
  destruct analysis as [a|]; simpl.
  - destruct (0 <? Audio.noise_frame_count a)%nat.
    + apply clamp_0_50.
    + split; reflexivity.
  - split; reflexivity.
Qed.

(** The fallbacks are the constants of the source. *)
Lemma estimate_snr_fallbacks (log10 : float -> float) (noise signal : float) :
  Audio._estimate_snr log10 None = 20.0%float /\
  Audio._estimate_snr log10
    (Some {| Audio.noise_frame_count := 0; Audio.noise_estimate := noise;
             Audio.signal_estimate := signal |}) = 25.0%float.
Proof. split; reflexivity. Qed.

(** An estimate that is not a number is reported as 50 dB. *)
Example estimate_snr_of_nan :
  Audio._estimate_snr (fun _ => nan)
    (Some {| Audio.noise_frame_count := 3; Audio.noise_estimate := 1;
             Audio.signal_estimate := 2 |}) = 50%float.
Proof. vm_compute. reflexivity. Qed.

(** [np.clip(x, 0, 1)] stays within its bounds. *)
Lemma clipQ_unit (x : Q) : (0 <= clipQ x 0 1 <= 1)%Q.
Proof.
  unfold clipQ. split.
  - apply Q.min_glb; [apply Q.le_max_r | discriminate].
  - apply Q.le_min_r.
Qed.

(** Below its lower threshold a feature contributes nothing, above its
    upper threshold it contributes its full weight. *)
Lemma clipQ_saturates (x : Q) :
  ((x <= 0 -> clipQ x 0 1 == 0) /\ (1 <= x -> clipQ x 0 1 == 1))%Q.
Proof.
  unfold clipQ. split; intros H.
  - rewrite Q.max_r by assumption. apply Q.min_l. discriminate.
  - rewrite Q.max_l by lra. apply Q.min_r. assumption.
Qed.

(** C4, as stated, fails: the weights are not applied to the spectral means
    themselves.  With a mean centroid of 2500 Hz, a mean bandwidth of
    2000 Hz and a mean rolloff of 5000 Hz the score is 50, where the
    weighted sum of the means is 3100; and an input on which the feature
    extraction raises scores 70 without any feature. *)
Lemma clarity_is_not_a_combination_of_means :
  let m := {| Audio.mean_spectral_centroid := 2500;
              Audio.mean_spectral_bandwidth := 2000;
              Audio.mean_spectral_rolloff := 5000 |} in
  (Audio._calculate_clarity_score (Some m) == 50)%Q /\
  (Audio.spec_clarity_of_means m == 3100)%Q /\
  ~ (Audio._calculate_clarity_score (Some m) == Audio.spec_clarity_of_means m)%Q /\
  (Audio._calculate_clarity_score None == 70)%Q.
Proof.
  repeat split; try (vm_compute; reflexivity).
  vm_compute. discriminate.
Qed.

(** C4, amended: when the features are extracted, the clarity score is
    [centroid_score * 0.4 + bandwidth_score * 0.3 + rolloff_score * 0.3],
    where each score is the mean of its feature normalised, clipped to
    [[0, 1]] and scaled to [[0, 100]]; the result lies in [[0, 100]].
    When the extraction raises, the score is 70. *)
Theorem clarity_score_weights_normalised_scores
    (features : option Audio.spectral_means) :
  match features with
  | Some m =>
      let c := clipQ ((Audio.mean_spectral_centroid m - 1000) / 3000) 0 1 in
      let b := clipQ (Audio.mean_spectral_bandwidth m / 4000) 0 1 in
      let r := clipQ ((Audio.mean_spectral_rolloff m - 2000) / 6000) 0 1 in
      (Audio._calculate_clarity_score features
         == (c * 100) * (4 # 10) + (b * 100) * (3 # 10) + (r * 100) * (3 # 10)
       /\ 0 <= Audio._calculate_clarity_score features <= 100)%Q
  | None => (Audio._calculate_clarity_score features == 70)%Q
  end.
Proof.
  destruct features as [m|]; [|reflexivity].
  cbv zeta. unfold Audio._calculate_clarity_score, Audio.centroid_score,
    Audio.bandwidth_score, Audio.rolloff_score.
  change (dec_Q (Dec 4 1)) with (4 # 10).
  change (dec_Q (Dec 3 1)) with (3 # 10).
  pose proof (clipQ_unit ((Audio.mean_spectral_centroid m - 1000) / 3000)) as Hc.
  pose proof (clipQ_unit (Audio.mean_spectral_bandwidth m / 4000)) as Hb.
  pose proof (clipQ_unit ((Audio.mean_spectral_rolloff m - 2000) / 6000)) as Hr.
  split; [reflexivity|].
  split; lra.
Qed.

(** The score reaches both ends of its range. *)
Example clarity_score_extremes :
  (Audio._calculate_clarity_score
     (Some {| Audio.mean_spectral_centroid := 4000;
              Audio.mean_spectral_bandwidth := 4000;
              Audio.mean_spectral_rolloff := 8000 |}) == 100)%Q /\
  (Audio._calculate_clarity_score
     (Some {| Audio.mean_spectral_centroid := 800;
              Audio.mean_spectral_bandwidth := 0;
              Audio.mean_spectral_rolloff := 1500 |}) == 0)%Q.
Proof. split; vm_compute; reflexivity. Qed.

(* ===================================================================== *)
(** * Properties: the two generation passes *)
(* ===================================================================== *)

Section GenerationFacts.
Import Synthetic.
Context {rng txn date : Type}.
Variable LOCATIONS_DF : list location.
Variable fromisoformat : string -> option date.
Variable date_of_ymd : Z -> Z -> Z -> date.
Variable sample_one : list location -> rng -> location * rng.
Variable np_random_choice : nat -> list float -> rng -> nat * rng.
Variable days_between : date -> date -> Z.
Variable randint : Z -> Z -> rng -> Z * rng.
Variable empty_range_message : Z -> string.
Variable transaction_on :
  location -> date -> Z -> Z -> rng -> Py.result (txn * rng).

Abbreviation generate_one :=
  (_generate_single_transaction days_between randint empty_range_message
     transaction_on).
Abbreviation append_txn :=
  (append_txn days_between randint empty_range_message transaction_on).
Abbreviation first_pass_region :=
  (first_pass_region sample_one days_between randint empty_range_message
     transaction_on).
Abbreviation first_pass :=
  (first_pass LOCATIONS_DF sample_one days_between randint empty_range_message
     transaction_on).
Abbreviation second_pass :=
  (second_pass LOCATIONS_DF np_random_choice days_between randint
     empty_range_message transaction_on).
Abbreviation generate_rows :=
  (generate_rows LOCATIONS_DF fromisoformat date_of_ymd sample_one
     np_random_choice days_between randint empty_range_message transaction_on).

(** A transaction is generated when the start date is not after the end
    date and the rest of the function returns. *)
Lemma generate_one_returns loc sd ed txn_id g :
  (0 <= days_between sd ed)%Z ->
  transactions_return transaction_on sd ->
  exists t g', generate_one loc sd ed txn_id g = Py.Return (t, g').
Proof.
  intros Hd Hret. unfold _generate_single_transaction.
  destruct (days_between sd ed <? 0)%Z eqn:E; [lia|].
  destruct (randint 0 (days_between sd ed) g) as [offset g1]. apply Hret.
Qed.

(** With the start date after the end date it raises, whatever else. *)
Lemma generate_one_reversed_dates loc sd ed txn_id g :
  (days_between sd ed < 0)%Z ->
  generate_one loc sd ed txn_id g
  = Py.Raise (Py.Exception "ValueError"
                (empty_range_message (days_between sd ed))).
Proof.
  intros Hd. unfold _generate_single_transaction.
  destruct (days_between sd ed <? 0)%Z eqn:E; [reflexivity|lia].
Qed.

(** Each generated transaction adds one row. *)
Lemma append_txn_length loc sd ed g (st st' : gen_state) :
  append_txn loc sd ed g st = Py.Return st' ->
  length (rows st') = S (length (rows st)).
Proof.
  unfold Synthetic.append_txn.
  destruct (generate_one loc sd ed (txn_counter st) g) as [[t g']|e];
    [|discriminate].
  intros [= <-]. simpl. rewrite length_app. simpl. lia.
Qed.

Lemma append_txn_returns loc sd ed g (st : gen_state) :
  (0 <= days_between sd ed)%Z ->
  transactions_return transaction_on sd ->
  exists st', append_txn loc sd ed g st = Py.Return st' /\
              length (rows st') = S (length (rows st)).
Proof.
  intros Hd Hret.
  destruct (generate_one_returns loc sd ed (txn_counter st) g Hd Hret)
    as (t & g' & Hgen).
  unfold Synthetic.append_txn. rewrite Hgen. eexists. split; [reflexivity|].
  simpl. rewrite length_app. simpl. lia.
Qed.

Lemma first_pass_region_length locs sd ed n (st : gen_state) :
  (0 <= days_between sd ed)%Z ->
  transactions_return transaction_on sd ->
  exists st', first_pass_region locs sd ed n st = Py.Return st' /\
              length (rows st') = (length (rows st) + n)%nat.
Proof.
  intros Hd Hret. revert st. induction n as [|n IH]; intros st; simpl.
  - exists st. split; [reflexivity|lia].
  - destruct (sample_one locs (gen st)) as [loc g].
    destruct (append_txn_returns loc sd ed g st Hd Hret) as (st1 & -> & Hlen1).
    destruct (IH st1) as (st' & Hrun & Hlen).
    exists st'. split; [exact Hrun|]. rewrite Hlen, Hlen1. lia.
Qed.

(** The first pass returns when every target of a populated region is an
    integer, and then adds their total. *)
Lemma first_pass_length regions MIN sd ed (st : gen_state) total :
  (0 <= days_between sd ed)%Z ->
  transactions_return transaction_on sd ->
  first_pass_total LOCATIONS_DF regions MIN = Some total ->
  exists st',
    first_pass regions MIN sd ed st = Py.Return st' /\
    (0 <= total)%Z /\
    Z.of_nat (length (rows st')) = (Z.of_nat (length (rows st)) + total)%Z.
Proof.
  intros Hd Hret. revert st total.
  induction regions as [|[name w] rest IH]; intros st total; simpl.
  - intros [= <-]. exists st. split; [reflexivity|lia].
  - set (region_locs := List.filter _ LOCATIONS_DF).
    destruct (0 <? length region_locs)%nat.
    + destruct (region_target MIN w) as [target|]; [|discriminate].
      destruct (first_pass_total LOCATIONS_DF rest MIN) as [t|]; [|discriminate].
      intros [= <-].
      destruct (first_pass_region_length region_locs sd ed (Z.to_nat target) st
                  Hd Hret) as (st1 & -> & Hlen1).
      destruct (IH st1 t eq_refl) as (st' & Hrun & Hpos & Hlen).
      exists st'. split; [exact Hrun|]. split; [lia|].
      rewrite Hlen, Hlen1. lia.
    + intros Ht. apply IH. exact Ht.
Qed.

(** The second pass adds one row per iteration, provided there is a
    location to draw (or nothing to draw). *)
Lemma second_pass_length sd ed n (st : gen_state) :
  (0 <= days_between sd ed)%Z ->
  transactions_return transaction_on sd ->
  n = 0%nat \/ (LOCATIONS_DF <> [] /\ draws_in_range np_random_choice) ->
  exists st',
    second_pass sd ed n st = Py.Return st' /\
    length (rows st') = (length (rows st) + n)%nat.
Proof.
  intros Hd Hret. revert st. induction n as [|n IH]; intros st H; simpl.
  - exists st. split; [reflexivity|lia].
  - destruct H as [H|[Hne Hidx]]; [discriminate|].
    assert (Hlen : (0 < length LOCATIONS_DF)%nat)
      by (destruct LOCATIONS_DF; [contradiction|simpl; lia]).
    destruct (length LOCATIONS_DF =? 0)%nat eqn:E;
      [apply Nat.eqb_eq in E; lia|].
    pose proof (Hidx (length LOCATIONS_DF) (location_weights LOCATIONS_DF)
                     (gen st) Hlen) as Hdraw.
    destruct (np_random_choice _ _ _) as [idx g]. simpl in Hdraw.
    destruct (lookup_lt_is_Some_2 LOCATIONS_DF idx Hdraw) as [loc Hloc].
    rewrite Hloc.
    destruct (append_txn_returns loc sd ed g st Hd Hret) as (st1 & -> & Hlen1).
    destruct (IH st1) as (st' & Hrun & Hlen');
      [right; split; assumption|].
    exists st'. split; [exact Hrun|]. rewrite Hlen', Hlen1. lia.
Qed.

(** C9, amended: when the dates parse with the start not after the end and
    every single transaction is generated, the two passes generate
    [max(F, num_records)] rows, where [F] is what the first pass adds:
    nothing when [coverage_first] is off, and otherwise
    [int(max(50, num_records // 68) * weight)] rows for each region that
    has a location.  So the count is at least [num_records]; it equals
    [num_records] when [coverage_first] is off and [num_records] is not
    negative; and it exceeds [num_records] exactly when the first pass
    alone does. *)
Theorem rows_generated (request : GenerationRequest) (g : rng)
    (sd ed : date) (F : Z) :
  date_or_default fromisoformat date_of_ymd (start_date request) 2024 1 1
    = Py.Return sd ->
  date_or_default fromisoformat date_of_ymd (end_date request) 2024 12 31
    = Py.Return ed ->
  (0 <= days_between sd ed)%Z ->
  transactions_return transaction_on sd ->
  LOCATIONS_DF <> [] ->
  draws_in_range np_random_choice ->
  planned_first_pass LOCATIONS_DF request = Some F ->
  exists st,
    generate_rows request g = Py.Return st /\
    Z.of_nat (length (rows st)) = Z.max F (num_records request) /\
    (num_records request <= Z.of_nat (length (rows st)))%Z /\
    (coverage_first request = false -> (0 <= num_records request)%Z ->
     Z.of_nat (length (rows st)) = num_records request) /\
    ((num_records request < Z.of_nat (length (rows st)))%Z
     <-> (num_records request < F)%Z).
Proof.
  intros Hsd Hed Hd Hret Hne Hidx HF.
  unfold Synthetic.generate_rows. rewrite Hsd, Hed.
  unfold mbind, result_bind. cbn [Py.bind].
  set (st0 := {| rows := []; txn_counter := 1; gen := g |}).
  assert (H1 : exists st1,
             (if coverage_first request
              then first_pass REGIONAL_WEIGHTS (MIN_PER_REGION request) sd ed st0
              else Py.Return st0) = Py.Return st1 /\
             (0 <= F)%Z /\ Z.of_nat (length (rows st1)) = F /\
             (coverage_first request = false -> F = 0%Z)).
  { unfold planned_first_pass in HF. destruct (coverage_first request).
    - destruct (first_pass_length _ _ sd ed st0 _ Hd Hret HF)
        as (st1 & Hrun & Hpos & Hlen).
      exists st1. change (length (rows st0)) with 0%nat in Hlen.
      split; [exact Hrun|]. split; [lia|]. split; [lia|discriminate].
    - injection HF as <-. exists st0. split; [reflexivity|].
      split; [lia|]. split; reflexivity. }
  destruct H1 as (st1 & -> & Hpos & Hlen1 & Hoff). cbn [Py.bind].
  destruct (second_pass_length sd ed
              (Z.to_nat (num_records request - Z.of_nat (length (rows st1)))) st1
              Hd Hret)
    as (st & Hrun & Hlen); [right; split; assumption|].
  exists st. split; [exact Hrun|].
  assert (Hn : Z.of_nat (length (rows st)) = Z.max F (num_records request))
    by (rewrite Hlen; lia).
  split; [exact Hn|]. split; [lia|]. split; [|lia].
  intros Hcf Hnn. specialize (Hoff Hcf). lia.
Qed.

(** With the start date after the end date no row is ever generated: as
    soon as one is due, the generation raises the [ValueError] of
    [random.randint]. *)
Lemma second_pass_reversed_dates sd ed n (st : gen_state) :
  (days_between sd ed < 0)%Z ->
  LOCATIONS_DF <> [] ->
  draws_in_range np_random_choice ->
  second_pass sd ed (S n) st
  = Py.Raise (Py.Exception "ValueError"
                (empty_range_message (days_between sd ed))).
Proof.
  intros Hd Hne Hidx. simpl.
  assert (Hlen : (0 < length LOCATIONS_DF)%nat)
    by (destruct LOCATIONS_DF; [contradiction|simpl; lia]).
  destruct (length LOCATIONS_DF =? 0)%nat eqn:E;
    [apply Nat.eqb_eq in E; lia|].
  pose proof (Hidx (length LOCATIONS_DF) (location_weights LOCATIONS_DF)
                   (gen st) Hlen) as Hdraw.
  destruct (np_random_choice _ _ _) as [idx g]. simpl in Hdraw.
  destruct (lookup_lt_is_Some_2 LOCATIONS_DF idx Hdraw) as [loc Hloc].
  rewrite Hloc. unfold Synthetic.append_txn.
  rewrite generate_one_reversed_dates by exact Hd. reflexivity.
Qed.
End GenerationFacts.

(** The first pass in numbers: with a store in every region a request for
    100 rows plans 1170 of them, and the default request for 17000 rows
    plans 5850; with stores in BARMM only, 35. *)
Example planned_first_pass_values :
  Synthetic.MIN_PER_REGION
    {| Synthetic.dataset_type := "transactions"; Synthetic.num_records := 100;
       Synthetic.start_date := None; Synthetic.end_date := None;
       Synthetic.output_format := "csv"; Synthetic.coverage_first := true |} = 50%Z /\
  Synthetic.planned_first_pass Synthetic.one_store_per_region
    {| Synthetic.dataset_type := "transactions"; Synthetic.num_records := 100;
       Synthetic.start_date := None; Synthetic.end_date := None;
       Synthetic.output_format := "csv"; Synthetic.coverage_first := true |}
  = Some 1170%Z /\
  Synthetic.planned_first_pass Synthetic.one_store_per_region
    Synthetic.GenerationRequest_default = Some 5850%Z /\
  Synthetic.planned_first_pass Synthetic.only_barmm
    {| Synthetic.dataset_type := "transactions"; Synthetic.num_records := 100;
       Synthetic.start_date := None; Synthetic.end_date := None;
       Synthetic.output_format := "csv"; Synthetic.coverage_first := true |}
  = Some 35%Z.
Proof. repeat split; vm_compute; reflexivity. Qed.

(** [rows_generated] at a request for 100 rows with a store in every
    region: 1170 rows come out. *)
Lemma rows_generated_witness :
  let request :=
    {| Synthetic.dataset_type := "transactions"; Synthetic.num_records := 100;
       Synthetic.start_date := None; Synthetic.end_date := None;
       Synthetic.output_format := "csv"; Synthetic.coverage_first := true |} in
  exists st,
    Synthetic.run_rows Synthetic.one_store_per_region request = Py.Return st /\
    Z.of_nat (length (Synthetic.rows st)) = Z.max 1170 100 /\
    (100 <= Z.of_nat (length (Synthetic.rows st)))%Z /\
    (true = false -> (0 <= 100)%Z ->
     Z.of_nat (length (Synthetic.rows st)) = 100%Z) /\
    ((100 < Z.of_nat (length (Synthetic.rows st)))%Z <-> (100 < 1170)%Z).
Proof.
  intros request. unfold Synthetic.run_rows.
  apply (rows_generated Synthetic.one_store_per_region
           Synthetic.fromisoformat_sample Synthetic.date_of_ymd_sample
           Synthetic.first_of Synthetic.draw_zero Synthetic.days_sample
           Synthetic.randint_low Synthetic.empty_range_sample
           Synthetic.row_of_id request tt 738886%Z 739251%Z 1170%Z).
  - reflexivity.
  - reflexivity.
  - vm_compute. discriminate.
  - intros loc offset txn_id g. eexists _, _. reflexivity.
  - discriminate.
  - intros k p g Hk. simpl. lia.
  - vm_compute. reflexivity.
Defined.

(** C9, as stated, fails in three ways.  A request for 2000 rows with
    [coverage_first] on and a store in every region gets exactly 2000
    rows: the count equals [num_records] also when [coverage_first] is on.
    A request whose start date is after its end date gets no row at all:
    the first transaction raises the [ValueError] of [random.randint] and
    the handler answers with the error dict.  And for a negative
    [num_records] with [coverage_first] off no row is generated, which is
    not [num_records]. *)
Lemma rows_generated_not_for_every_request :
  (exists st,
     Synthetic.run_rows Synthetic.one_store_per_region
       {| Synthetic.dataset_type := "transactions"; Synthetic.num_records := 2000;
          Synthetic.start_date := None; Synthetic.end_date := None;
          Synthetic.output_format := "csv"; Synthetic.coverage_first := true |}
     = Py.Return st /\
     length (Synthetic.rows st) = 2000%nat) /\
  (let request :=
     {| Synthetic.dataset_type := "transactions"; Synthetic.num_records := 100;
        Synthetic.start_date := Some "2024-12-31";
        Synthetic.end_date := Some "2024-01-01";
        Synthetic.output_format := "csv"; Synthetic.coverage_first := true |} in
   Synthetic.run_rows Synthetic.one_store_per_region request
   = Py.Raise (Py.Exception "ValueError" "empty range for randrange()") /\
   Synthetic.run_handler Synthetic.one_store_per_region request
   = Py.Return (Py.error_response "empty range for randrange()")) /\
  (let request :=
     {| Synthetic.dataset_type := "transactions"; Synthetic.num_records := -1;
        Synthetic.start_date := None; Synthetic.end_date := None;
        Synthetic.output_format := "csv"; Synthetic.coverage_first := false |} in
   exists st,
     Synthetic.run_rows Synthetic.one_store_per_region request = Py.Return st /\
     Synthetic.rows st = [] /\
     Z.of_nat (length (Synthetic.rows st)) <> Synthetic.num_records request).
Proof.
  split; [|split].
  - eexists. split; [vm_compute; reflexivity|]. vm_compute. reflexivity.
  - split; vm_compute; reflexivity.
  - eexists. split; [vm_compute; reflexivity|]. split; [reflexivity|].
    simpl. discriminate.
Qed.

(** With stores in one region only, a request for 100 rows with
    [coverage_first] on gets exactly 100 rows: 35 from the first pass and
    65 from the second. *)
Example rows_generated_single_region :
  exists st,
    Synthetic.run_rows Synthetic.only_barmm
      {| Synthetic.dataset_type := "transactions"; Synthetic.num_records := 100;
         Synthetic.start_date := None; Synthetic.end_date := None;
         Synthetic.output_format := "csv"; Synthetic.coverage_first := true |}
    = Py.Return st /\
    length (Synthetic.rows st) = 100%nat /\
    Synthetic.txn_counter st = 101%Z.
Proof. eexists. split; [vm_compute; reflexivity|]. split; reflexivity. Qed.

(** What [_generate_transactions] reports: the number of rows when there
    is one at least; it raises when there is none. *)
Lemma records_generated_counts_rows {rng txn date : Type}
    (locations : list Synthetic.location) fromisoformat date_of_ymd sample_one
    np_random_choice days_between randint empty_range_message transaction_on
    (summarise : list txn -> Py.pyval)
    (output_path : string) (request : Synthetic.GenerationRequest) (g : rng)
    (st : @Synthetic.gen_state rng txn) :
  Synthetic.generate_rows (date := date) locations fromisoformat date_of_ymd
    sample_one np_random_choice days_between randint empty_range_message
    transaction_on request g = Py.Return st ->
  match Synthetic._generate_transactions locations fromisoformat date_of_ymd
          sample_one np_random_choice days_between randint empty_range_message
          transaction_on summarise output_path request g with
  | Py.Return response =>
      Synthetic.rows st <> [] /\
      response !! "records_generated"
      = Some (Py.VInt (Z.of_nat (length (Synthetic.rows st))))
  | Py.Raise e =>
      Synthetic.rows st = [] /\ Py.exn_class e = "AttributeError"
  end.
Proof.
  intros Hrows. unfold Synthetic._generate_transactions. rewrite Hrows.
  unfold mbind, result_bind. cbn [Py.bind].
  destruct (Synthetic.rows st) as [|t ts]; [split; reflexivity|].
  split; [discriminate|]. reflexivity.
Qed.

(* ===================================================================== *)
(** * Properties: the handler pattern *)
(* ===================================================================== *)

Section HandlerPattern.
Import Py Handlers.

(** A body wrapped in [try]/[except Exception] hands back the error dict
    for every raise that [except Exception] catches. *)
Lemma try_except_catches (e : exn) :
  derives_Exception e = true ->
  try_except_Exception (Raise e) = Return (error_response (exn_str e)).
Proof. intros H. simpl. rewrite H. reflexivity. Qed.

(** What still comes out of it as a raise does not derive from
    [Exception]. *)
Lemma try_except_lets_through (body : result response) (e : exn) :
  try_except_Exception body = Raise e ->
  body = Raise e /\ derives_Exception e = false.
Proof.
  destruct body as [r|e']; simpl; [discriminate|].
  destruct (derives_Exception e') eqn:H; [discriminate|].
  intros [= <-]. split; [reflexivity|exact H].
Qed.

Lemma error_response_fields (msg : string) :
  error_response msg !! "success" = Some (VBool false) /\
  error_response msg !! "error" = Some (VStr msg).
Proof. split; reflexivity. Qed.

(** Every public [MCPTools] method has one of the two shapes, and the
    second shape occurs in [scout_local_mcp] only. *)
Lemma tool_shapes :
  Forall (fun t => shape t = ConnectThenTry <->
                   tool_server t = "scout_local_mcp/src/server.py")
         MCP_TOOLS.
Proof.
  unfold MCP_TOOLS.
  repeat (constructor; [simpl; split; (discriminate || reflexivity)|]).
  constructor.
Qed.

(** C3, amended: a tool handler whose whole body is the [try] block (every
    public [MCPTools] method outside [scout_local_mcp]) returns
    [{"success": False, "error": str(e)}] for every [e] deriving from
    [Exception] that its body raises, and raises nothing that derives
    from [Exception]; the handlers of [scout_local_mcp] do so once their
    connection is open and closes without a raise. *)
Theorem tool_handlers_return_error_dict (t : tool)
    (setup cleanup : result unit) (body : result response) :
  In t MCP_TOOLS ->
  tool_server t <> "scout_local_mcp/src/server.py"
  \/ (setup = Return tt /\ cleanup = Return tt) ->
  (forall e, body = Raise e -> derives_Exception e = true ->
     run_tool (shape t) setup body cleanup
     = Return (error_response (exn_str e)) /\
     error_response (exn_str e) !! "success" = Some (VBool false) /\
     error_response (exn_str e) !! "error" = Some (VStr (exn_str e))) /\
  (forall e, run_tool (shape t) setup body cleanup = Raise e ->
     derives_Exception e = false).
Proof.
  intros Hin Hcase.
  pose proof (proj1 (Forall_forall _ _) tool_shapes t) as Hshape.
  assert (Hrun : run_tool (shape t) setup body cleanup
                 = try_except_Exception body).
  { destruct (shape t) eqn:Hs; [reflexivity|].
    destruct Hcase as [Hsrv|[-> ->]].
    - exfalso. apply Hsrv. apply Hshape; [|exact Hs].
      apply list_elem_of_In. exact Hin.
    - reflexivity. }
  rewrite Hrun. split.
  - intros e -> He. split; [apply try_except_catches; exact He|].
    apply error_response_fields.
  - intros e He. apply try_except_lets_through in He. tauto.
Qed.
End HandlerPattern.

(** [tool_handlers_return_error_dict] at [analyze_audio] with a body that
    raises [FileNotFoundError]. *)
Lemma tool_handlers_return_error_dict_witness :
  let t := Handlers.Tool "audio_analysis_mcp/src/audio_server.py"
             "analyze_audio" Handlers.WholeBodyTry in
  let body : Py.result Py.response :=
    Py.Raise (Py.Exception "FileNotFoundError" "Audio file not found") in
  (forall e, body = Py.Raise e -> Py.derives_Exception e = true ->
     Handlers.run_tool (Handlers.shape t) (Py.Return tt) body (Py.Return tt)
     = Py.Return (Py.error_response (Py.exn_str e)) /\
     Py.error_response (Py.exn_str e) !! "success" = Some (Py.VBool false) /\
     Py.error_response (Py.exn_str e) !! "error" = Some (Py.VStr (Py.exn_str e))) /\
  (forall e,
     Handlers.run_tool (Handlers.shape t) (Py.Return tt) body (Py.Return tt)
     = Py.Raise e -> Py.derives_Exception e = false).
Proof.
  intros t body.
  apply (tool_handlers_return_error_dict t (Py.Return tt) (Py.Return tt) body).
  - simpl. left. reflexivity.
  - left. discriminate.
Defined.

(** C3, as stated, fails for the handlers of [scout_local_mcp]: the
    connection is opened before the [try], so an error raised by
    [sqlite3.connect] leaves [MCPTools.add_transcription] as it is, and
    the route function, which has no handler of its own, passes it on:
    neither an error dict nor an [HTTPException]. *)
Lemma scout_connect_error_propagates :
  let t := Handlers.Tool "scout_local_mcp/src/server.py" "add_transcription"
             Handlers.ConnectThenTry in
  let e := Py.Exception "sqlite3.OperationalError"
             "unable to open database file" in
  let tool_run :=
    Handlers.run_tool (Handlers.shape t) (Py.Raise e) (Py.Return ∅)
      (Py.Return tt) in
  In t Handlers.MCP_TOOLS /\
  Py.derives_Exception e = true /\
  Py.http_status e = None /\
  tool_run = Py.Raise e /\
  In (Handlers.Route "scout_local_mcp/src/server.py" Handlers.app Handlers.POST
        "/mcp/tools/add_transcription" "add_transcription" false
        (Handlers.CheckSuccess "add_transcription" 400)) Handlers.ROUTES /\
  Handlers.run_route (Handlers.CheckSuccess "add_transcription" 400) true
    tool_run tool_run = Py.Raise e.
Proof.
  repeat split; try reflexivity;
    simpl; repeat ((left; reflexivity) || right).
Qed.

Section RoutePattern.
Import Py Handlers.

(** The status codes the route functions raise with are 400, 500 and, for
    one route, 404. *)
Lemma route_status_codes :
  Forall (fun r => match route_shape_of r with
                   | CheckSuccess _ c | TryRaiseHTTP c => handled_status c
                   | GuardThenTryRaiseHTTP c1 c2 =>
                       handled_status c1 /\ handled_status c2
                   | _ => True
                   end) ROUTES.
Proof.
  unfold ROUTES, handled_status.
  repeat (constructor; [simpl; tauto|]). constructor.
Qed.

(** A route function that has a handler, in front of a tool of the
    [WholeBodyTry] shape whose dict carries its two keys, raises nothing
    deriving from [Exception] but an [HTTPException] with one of these
    codes. *)
Lemma guarded_routes_raise_http (r : route) (known_tool : bool)
    (tool_body own_body : result response) (e : exn) :
  In r ROUTES ->
  route_shape_of r <> Unguarded ->
  (forall d, tool_body = Return d ->
     is_Some (d !! "success") /\
     (is_Some (d !! "error") \/ d !! "success" = Some (VBool true))) ->
  run_route (route_shape_of r) known_tool
    (try_except_Exception tool_body) own_body = Raise e ->
  derives_Exception e = true ->
  exists c, http_status e = Some c /\ handled_status c.
Proof.
  intros Hin Hguard Hdict Hrun He.
  pose proof (proj1 (Forall_forall _ _) route_status_codes r
                (proj2 (list_elem_of_In _ _) Hin)) as Hcodes.
  cbv beta in Hcodes.
  destruct (route_shape_of r) as [tl|tl c| |c|c1 c2|]; simpl in Hrun.
  - apply try_except_lets_through in Hrun. destruct Hrun; congruence.
  - unfold mbind, result_bind in Hrun.
    destruct (try_except_Exception tool_body) as [d|e'] eqn:Ht;
      simpl in Hrun.
    + assert (Hd : is_Some (d !! "success") /\
                   (is_Some (d !! "error") \/ d !! "success" = Some (VBool true))).
      { destruct tool_body as [d'|e'']; simpl in Ht.
        - injection Ht as <-. apply Hdict. reflexivity.
        - destruct (derives_Exception e''); [|discriminate].
          injection Ht as <-. split; [eexists; reflexivity|].
          left. eexists. reflexivity. }
      unfold check_success in Hrun.
      destruct Hd as [[ok Hok] Herr]. rewrite Hok in Hrun.
      destruct (truthy ok) eqn:Htr; [discriminate|].
      destruct Herr as [[v Hv]|Hs].
      * rewrite Hv in Hrun.
        destruct v; injection Hrun as <-; exists c; split; auto.
      * rewrite Hs in Hok. injection Hok as <-. discriminate.
    + injection Hrun as <-. apply try_except_lets_through in Ht.
      destruct Ht; congruence.
  - apply try_except_lets_through in Hrun. destruct Hrun; congruence.
  - destruct own_body as [d|e']; simpl in Hrun; [discriminate|].
    destruct (derives_Exception e') eqn:He'.
    + injection Hrun as <-. exists c. split; auto.
    + congruence.
  - destruct known_tool.
    + destruct own_body as [d|e']; simpl in Hrun; [discriminate|].
      destruct (derives_Exception e') eqn:He'.
      * injection Hrun as <-. exists c2. split; [reflexivity|tauto].
      * congruence.
    + injection Hrun as <-. exists c1. split; [reflexivity|tauto].
  - contradiction.
Qed.

(** Three tool routes have no handler at all. *)
Example unguarded_tool_routes :
  map route_function
    (List.filter (fun r => is_tool_endpoint r
                           && match route_shape_of r with
                              | Unguarded => true
                              | _ => false
                              end) ROUTES)
  = ["list_plots"; "list_outputs"; "list_sources"].
Proof. vm_compute. reflexivity. Qed.
End RoutePattern.

(* ===================================================================== *)
(** * Properties: the bearer-token gate *)
(* ===================================================================== *)

(** C5, as stated, fails: the tool endpoints of [scout_local_mcp] (and of
    the v2 and v3 synthetic data servers) have no [verify_token]
    dependency.  A request to [/mcp/tools/add_transcription] without any
    [Authorization] header reaches the route function, even where no
    token at all would verify. *)
Lemma scout_endpoint_needs_no_token :
  let r := Handlers.Route "scout_local_mcp/src/server.py" Handlers.app
             Handlers.POST "/mcp/tools/add_transcription" "add_transcription"
             false (Handlers.CheckSuccess "add_transcription" 400) in
  let accepted : Py.response := <["success" := Py.VBool true]> ∅ in
  In r Handlers.ROUTES /\
  Handlers.is_tool_endpoint r = true /\
  Auth.dispatch ∅ (fun _ _ _ => None)
    (fun _ => Py.Raise (Py.HTTPException 403 "Not authenticated"))
    r None (fun _ => Py.Return accepted)
  = Py.Return accepted.
Proof.
  repeat split; try reflexivity.
  simpl. repeat ((left; reflexivity) || right).
Qed.

Section BearerGate.
Import Py Handlers Auth.
Variable environ : gmap string string.
Variable jwt_decode :
  string -> string -> list string -> option (gmap string pyval).
Variable security : option string -> result string.

Abbreviation verify_token := (verify_token environ jwt_decode).
Abbreviation dispatch := (dispatch environ jwt_decode security).

(** The key is the value of [PULSER_JWT_SECRET] when it is set. *)
Lemma secret_from_environment (secret : string) :
  environ !! "PULSER_JWT_SECRET" = Some secret -> SECRET_KEY environ = secret.
Proof. unfold SECRET_KEY, getenv. intros ->. reflexivity. Qed.

(** [verify_token] returns for the tokens that decode under HS256 with
    the key to claims with a subject, and answers 401 for all others. *)
Lemma verify_token_spec (token : string) :
  match verify_token token with
  | Return username =>
      exists payload,
        jwt_decode token (SECRET_KEY environ) ["HS256"] = Some payload /\
        payload !! "sub" = Some username /\ username <> VNone
  | Raise e =>
      e = HTTPException 401 "Invalid authentication credentials" /\
      (jwt_decode token (SECRET_KEY environ) ["HS256"] = None \/
       exists payload,
         jwt_decode token (SECRET_KEY environ) ["HS256"] = Some payload /\
         (payload !! "sub" = None \/ payload !! "sub" = Some VNone))
  end.
Proof.
  unfold Auth.verify_token, ALGORITHM.
  destruct (jwt_decode token (SECRET_KEY environ) ["HS256"]) as [payload|];
    [|split; [reflexivity|left; reflexivity]].
  destruct (payload !! "sub") as [sub|] eqn:Hsub.
  - destruct sub; try (exists payload; repeat split; [exact Hsub|discriminate]).
    split; [reflexivity|]. right. exists payload. split; [reflexivity|].
    right. exact Hsub.
  - split; [reflexivity|]. right. exists payload. split; [reflexivity|].
    left. exact Hsub.
Qed.

(** Which routes carry the dependency. *)
Lemma tool_endpoints_gated_where_defined :
  Forall (fun r => is_tool_endpoint r = true ->
                   depends_verify_token r = defines_verify_token (route_server r))
         ROUTES.
Proof.
  unfold ROUTES.
  repeat (constructor; [intros _; vm_compute; reflexivity|]). constructor.
Qed.

(** C5, amended: in the ten servers that define [verify_token] every
    [/mcp/tools/] endpoint depends on it, and a request reaches such an
    endpoint only with credentials that decode, as an HS256 token under
    [SECRET_KEY], to claims with a subject; credentials that do not are
    answered with 401.  The endpoints of the servers that do not define
    [verify_token] are reached by every request. *)
Theorem tool_endpoints_bearer_gate (r : route) (authorization : option string)
    (endpoint : option pyval -> result response) :
  In r ROUTES ->
  is_tool_endpoint r = true ->
  if defines_verify_token (route_server r) then
    depends_verify_token r = true /\
    (forall response_,
       dispatch r authorization endpoint = Return response_ ->
       exists token payload sub,
         security authorization = Return token /\
         jwt_decode token (SECRET_KEY environ) ["HS256"] = Some payload /\
         payload !! "sub" = Some sub /\ sub <> VNone /\
         endpoint (Some sub) = Return response_) /\
    (forall token,
       security authorization = Return token ->
       (jwt_decode token (SECRET_KEY environ) ["HS256"] = None \/
        exists payload,
          jwt_decode token (SECRET_KEY environ) ["HS256"] = Some payload /\
          (payload !! "sub" = None \/ payload !! "sub" = Some VNone)) ->
       dispatch r authorization endpoint
       = Raise (HTTPException 401 "Invalid authentication credentials")) /\
    (forall e, security authorization = Raise e ->
       dispatch r authorization endpoint = Raise e)
  else
    depends_verify_token r = false /\
    dispatch r authorization endpoint = endpoint None.
Proof.
  intros Hin Htool.
  pose proof (proj1 (Forall_forall _ _) tool_endpoints_gated_where_defined r
                (proj2 (list_elem_of_In _ _) Hin) Htool) as Hdep.
  unfold Auth.dispatch. rewrite Hdep.
  destruct (defines_verify_token (route_server r)).
  - split; [reflexivity|]. unfold mbind, result_bind.
    destruct (security authorization) as [token|e]; cbn [bind].
    + pose proof (verify_token_spec token) as Hv.
      destruct (verify_token token) as [username|e]; cbn [bind].
      * destruct Hv as (payload & Hdec & Hsub & Hnn).
        repeat split.
        -- intros resp Hresp. exists token, payload, username. auto.
        -- intros token' [= <-] [Hnone|(payload' & Hdec' & Hbad)].
           ++ congruence.
           ++ rewrite Hdec in Hdec'. injection Hdec' as <-.
              destruct Hbad as [Hbad|Hbad]; rewrite Hsub in Hbad;
                [discriminate|congruence].
        -- discriminate.
      * destruct Hv as [-> _]. repeat split.
        -- discriminate.
        -- discriminate.
    + repeat split; try discriminate. intros e' [= <-]. reflexivity.
  - split; reflexivity.
Qed.
End BearerGate.

(** [tool_endpoints_bearer_gate] at the [analyze_audio] route of the audio
    server, where the decoder accepts the single token ["signed"]: a
    forged token is answered with 401, and the endpoint is reached only
    as the subject of the signed token. *)
Lemma tool_endpoints_bearer_gate_witness :
  let r := Handlers.Route "audio_analysis_mcp/src/audio_server.py"
             Handlers.api_v1 Handlers.POST "/mcp/tools/analyze_audio"
             "analyze_audio" true (Handlers.PassThrough "analyze_audio") in
  let decode (token key : string) (algorithms : list string)
      : option (gmap string Py.pyval) :=
    if String.eqb token "signed" then Some (<["sub" := Py.VStr "admin"]> ∅)
    else None in
  let bearer (h : option string) : Py.result string :=
    match h with
    | Some token => Py.Return token
    | None => Py.Raise (Py.HTTPException 403 "Not authenticated")
    end in
  let endpoint (user : option Py.pyval) : Py.result Py.response :=
    Py.Return (<["success" := Py.VBool true]> ∅) in
  Handlers.depends_verify_token r = true /\
  Auth.dispatch ∅ decode bearer r (Some "forged") endpoint
  = Py.Raise (Py.HTTPException 401 "Invalid authentication credentials") /\
  Auth.dispatch ∅ decode bearer r None endpoint
  = Py.Raise (Py.HTTPException 403 "Not authenticated").
Proof.
  intros r decode bearer endpoint.
  assert (Hin : In r Handlers.ROUTES) by (simpl; left; reflexivity).
  pose proof (tool_endpoints_bearer_gate ∅ decode bearer r (Some "forged")
                endpoint Hin eq_refl) as Hforged.
  pose proof (tool_endpoints_bearer_gate ∅ decode bearer r None
                endpoint Hin eq_refl) as Hnone.
  change (Auth.defines_verify_token (Handlers.route_server r)) with true
    in Hforged, Hnone.
  cbv iota in Hforged, Hnone.
  destruct Hforged as (Hdep & _ & H401 & _).
  destruct Hnone as (_ & _ & _ & H403).
  split; [exact Hdep|]. split.
  - apply (H401 "forged"); [reflexivity|left; reflexivity].
  - apply H403. reflexivity.
Defined.

(* ===================================================================== *)
(** * Properties: sandboxed code execution *)
(* ===================================================================== *)

Section ExecuteFacts.
Import Py Financial.
Variable docker_client : option DockerClient.
Variable make_tmpdir : result unit.
Variable cleanup_tmpdir : result unit.
Variable write_text : string -> result unit.
Variable containers_run : string -> result unit.
Variable container_wait : option Z -> result Z.
Variable container_logs : result string.
Variable container_remove : result unit.
Variable create_subprocess_exec : string -> result unit.
Variable wait_for_communicate :
  string -> option Z -> result (string * string * Z).
Variable proc_kill : result unit.
Variable collect_outputs : result pyval.
Variable parse_metrics : string -> pyval.

Abbreviation _execute_in_docker :=
  (_execute_in_docker make_tmpdir cleanup_tmpdir write_text containers_run
     container_wait container_logs container_remove collect_outputs
     parse_metrics).
Abbreviation _execute_subprocess :=
  (_execute_subprocess make_tmpdir cleanup_tmpdir write_text
     create_subprocess_exec wait_for_communicate proc_kill collect_outputs
     parse_metrics).
Abbreviation execute_code :=
  (execute_code docker_client make_tmpdir cleanup_tmpdir write_text
     containers_run container_wait container_logs container_remove
     create_subprocess_exec wait_for_communicate proc_kill collect_outputs
     parse_metrics).

(** A second [try]/[except Exception] around a body that already has one
    whose handler returns changes nothing. *)
Lemma try_except_twice {A} (body : M A) (inner outer : exn -> M A) tr :
  (forall e tr', exists tr'' a, inner e tr' = (tr'', Return a)) ->
  try_except derives_Exception (try_except derives_Exception body inner) outer tr
  = try_except derives_Exception body inner tr.
Proof.
  intros Hret. unfold try_except.
  destruct (body tr) as [tr' [a|e]]; [reflexivity|].
  destruct (derives_Exception e) eqn:He.
  - destruct (Hret e tr') as (tr'' & a & ->). reflexivity.
  - rewrite He. reflexivity.
Qed.

Lemma run_code_in_docker (request : CodeExecutionRequest) tr :
  sandbox request = true -> is_Some docker_client ->
  execute_code request tr = _execute_in_docker (code request) (timeout request) tr.
Proof.
  intros Hs Hd. unfold Financial.execute_code.
  rewrite Hs, (bool_decide_eq_true_2 _ Hd). cbn [andb].
  apply try_except_twice. intros e tr'. eexists _, _. reflexivity.
Qed.

Lemma run_code_in_subprocess (request : CodeExecutionRequest) tr :
  sandbox request && bool_decide (is_Some docker_client) = false ->
  execute_code request tr = _execute_subprocess (code request) (timeout request) tr.
Proof.
  intros Hcase. unfold Financial.execute_code. rewrite Hcase.
  apply try_except_twice. intros e tr'. eexists _, _. reflexivity.
Qed.

Lemma not_docker_case (request : CodeExecutionRequest) :
  sandbox request = false \/ docker_client = None ->
  sandbox request && bool_decide (is_Some docker_client) = false.
Proof.
  intros [->| ->]; [reflexivity|].
  rewrite bool_decide_eq_false_2 by (intros [? ?]; discriminate).
  apply andb_false_r.
Qed.

(** Once the directory is made and the file written, the Docker path
    starts a container of the sandbox image on the file, and whatever
    follows is a wait for the container or its removal. *)
Lemma docker_run_events c limit tr :
  make_tmpdir = Return tt ->
  write_text c = Return tt ->
  exists rest out,
    _execute_in_docker c limit tr
    = (tr ++ WriteCode c
          :: ContainersRun SANDBOX_IMAGE "python /code/analysis.py" :: rest,
       out) /\
    forallb is_docker_event rest = true.
Proof.
  intros Hmk Hw.
  unfold Financial._execute_in_docker, with_TemporaryDirectory, try_except,
    bindM, emit, lift, ret.
  rewrite Hmk, Hw. cbn.
  repeat match goal with
         | |- context [match ?x with Return _ => _ | Raise _ => _ end] =>
             destruct x; cbn
         | |- context [if derives_Exception ?e then _ else _] =>
             destruct (derives_Exception e); cbn
         end;
    eexists _, _; (split; [rewrite <- ?app_assoc; reflexivity|reflexivity]).
Qed.

(** The subprocess path starts [python] on the file, and whatever follows
    is the wait for the child or its kill. *)
Lemma subprocess_run_events c limit tr :
  make_tmpdir = Return tt ->
  write_text c = Return tt ->
  exists rest out,
    _execute_subprocess c limit tr
    = (tr ++ WriteCode c :: SubprocessExec "python" :: rest, out) /\
    forallb is_subprocess_event rest = true.
Proof.
  intros Hmk Hw.
  unfold Financial._execute_subprocess, with_TemporaryDirectory, try_except,
    bindM, emit, lift, ret.
  rewrite Hmk, Hw. cbn.
  destruct (create_subprocess_exec c); cbn.
  2:{ destruct cleanup_tmpdir; cbn;
      repeat match goal with
             | |- context [if derives_Exception ?e then _ else _] =>
                 destruct (derives_Exception e); cbn
             end;
      eexists _, _; (split; [rewrite <- ?app_assoc; reflexivity|reflexivity]). }
  destruct (wait_for_communicate c limit) as [[[stdout stderr] returncode]|e];
    cbn.
  - destruct collect_outputs; cbn; destruct cleanup_tmpdir; cbn;
      repeat match goal with
             | |- context [if derives_Exception ?e then _ else _] =>
                 destruct (derives_Exception e); cbn
             end;
      eexists _, _; (split; [rewrite <- ?app_assoc; reflexivity|reflexivity]).
  - destruct (is_TimeoutError e); cbn;
      [destruct proc_kill; cbn|]; destruct cleanup_tmpdir; cbn;
      repeat match goal with
             | |- context [if derives_Exception ?e then _ else _] =>
                 destruct (derives_Exception e); cbn
             end;
      eexists _, _; (split; [rewrite <- ?app_assoc; reflexivity|reflexivity]).
Qed.

(** When the wait for the child ends in a timeout, the child is killed;
    the answer is the timeout dict when the kill and the removal of the
    directory succeed, and the failure of the one that raises otherwise. *)
Lemma subprocess_timeout c limit tr e :
  make_tmpdir = Return tt ->
  write_text c = Return tt ->
  create_subprocess_exec c = Return tt ->
  wait_for_communicate c limit = Raise e ->
  is_TimeoutError e = true ->
  fst (_execute_subprocess c limit tr)
  = tr ++ [WriteCode c; SubprocessExec "python"; WaitForCommunicate limit;
           ProcKill] /\
  (proc_kill = Return tt -> cleanup_tmpdir = Return tt ->
   snd (_execute_subprocess c limit tr)
   = Return (error_response "Execution timeout")) /\
  (forall e',
     (proc_kill = Raise e' /\ cleanup_tmpdir = Return tt)
     \/ cleanup_tmpdir = Raise e' ->
     derives_Exception e' = true ->
     snd (_execute_subprocess c limit tr)
     = Return (error_response ("Subprocess execution failed: " ++ exn_str e'))).
Proof.
  intros Hmk Hw Hs Hwait Ht.
  unfold Financial._execute_subprocess, with_TemporaryDirectory, try_except,
    bindM, emit, lift, ret.
  rewrite Hmk, Hw, Hs, Hwait, Ht. cbn.
  destruct proc_kill as [[]|ek]; cbn; destruct cleanup_tmpdir as [[]|ec]; cbn;
    repeat match goal with
           | |- context [if derives_Exception ?e then _ else _] =>
               destruct (derives_Exception e) eqn:?; cbn
           end;
    (split; [rewrite <- ?app_assoc; reflexivity|]);
    (split; [intros; (reflexivity || discriminate)|]);
    intros e' [[Hk Hc]|Hc] He'; try discriminate;
    try (injection Hk as ->); try (injection Hc as ->);
    (reflexivity || congruence).
Qed.

(** C6, amended: [execute_code] runs the code in a container of the
    sandbox image when the request asks for the sandbox and a Docker client
    is there, and in a [python] subprocess otherwise; each path does
    nothing of the other.  On the subprocess path, when the wait for the
    child ends in a timeout the child is killed, and the answer is
    [{"success": False, "error": "Execution timeout"}] when the kill and
    the removal of the temporary directory succeed, and
    ["Subprocess execution failed: ..."] when one of them raises.  A
    request that sets no timeout has 30 seconds. *)
Theorem execute_code_dispatch_and_timeout (request : CodeExecutionRequest)
    (tr : list event) :
  make_tmpdir = Return tt ->
  write_text (code request) = Return tt ->
  (sandbox request = true -> is_Some docker_client ->
   execute_code request tr
   = _execute_in_docker (code request) (timeout request) tr /\
   exists rest out,
     execute_code request tr
     = (tr ++ WriteCode (code request)
           :: ContainersRun SANDBOX_IMAGE "python /code/analysis.py" :: rest,
        out) /\
     forallb is_docker_event rest = true) /\
  (sandbox request = false \/ docker_client = None ->
   execute_code request tr
   = _execute_subprocess (code request) (timeout request) tr /\
   exists rest out,
     execute_code request tr
     = (tr ++ WriteCode (code request) :: SubprocessExec "python" :: rest,
        out) /\
     forallb is_subprocess_event rest = true) /\
  (sandbox request = false \/ docker_client = None ->
   forall e,
     create_subprocess_exec (code request) = Return tt ->
     wait_for_communicate (code request) (timeout request) = Raise e ->
     is_TimeoutError e = true ->
     fst (execute_code request tr)
     = tr ++ [WriteCode (code request); SubprocessExec "python";
              WaitForCommunicate (timeout request); ProcKill] /\
     (proc_kill = Return tt -> cleanup_tmpdir = Return tt ->
      snd (execute_code request tr)
      = Return (error_response "Execution timeout")) /\
     (forall e',
        (proc_kill = Raise e' /\ cleanup_tmpdir = Return tt)
        \/ cleanup_tmpdir = Raise e' ->
        derives_Exception e' = true ->
        snd (execute_code request tr)
        = Return (error_response
                    ("Subprocess execution failed: " ++ exn_str e')))) /\
  (forall c, timeout (CodeExecutionRequest_of_code c) = Some 30%Z /\
             sandbox (CodeExecutionRequest_of_code c) = true).
Proof.
  intros Hmk Hw. split; [|split; [|split]].
  - intros Hs Hd. rewrite run_code_in_docker by assumption.
    split; [reflexivity|]. apply docker_run_events; assumption.
  - intros Hcase. rewrite run_code_in_subprocess by (apply not_docker_case, Hcase).
    split; [reflexivity|]. apply subprocess_run_events; assumption.
  - intros Hcase e Hs Hwait Ht.
    rewrite run_code_in_subprocess by (apply not_docker_case, Hcase).
    apply (subprocess_timeout _ _ _ e); assumption.
  - intros c. split; reflexivity.
Qed.
End ExecuteFacts.

(** With a Docker client at hand the default request goes to a container
    and no subprocess is started. *)
Example execute_code_in_docker :
  Financial.sample_run (Some Financial.docker_from_env) (Py.Return 0%Z)
    (Py.Raise (Py.Exception "TimeoutError" "")) (Py.Return tt) (Py.Return tt)
    (Financial.CodeExecutionRequest_of_code "print(1)")
  = ([Financial.WriteCode "print(1)";
      Financial.ContainersRun "python:3.11-slim" "python /code/analysis.py";
      Financial.ContainerWait (Some 30%Z); Financial.ContainerRemove],
     Py.Return (<["success" := Py.VBool true]>
                (<["exit_code" := Py.VInt 0]>
                 (<["outputs" := Py.VDict []]>
                  (<["metrics" := Py.VDict []]>
                   (<["logs" := Py.VStr "{}"]> ∅)))))).
Proof. reflexivity. Qed.

(** [execute_code_dispatch_and_timeout] in a world with Docker, where the
    default request starts a container and no subprocess, and in a world
    without Docker in which the child never finishes, where it is killed
    and the answer is the timeout dict. *)
Lemma execute_code_dispatch_and_timeout_witness :
  let request := Financial.CodeExecutionRequest_of_code "while True: pass" in
  let timed_out := Py.Raise (Py.Exception "TimeoutError" "") in
  (exists rest out,
     Financial.sample_run (Some Financial.docker_from_env) (Py.Return 0%Z)
       timed_out (Py.Return tt) (Py.Return tt) request
     = ([] ++ Financial.WriteCode "while True: pass"
           :: Financial.ContainersRun "python:3.11-slim" "python /code/analysis.py"
           :: rest, out) /\
     forallb Financial.is_docker_event rest = true) /\
  fst (Financial.sample_run None (Py.Return 0%Z) timed_out (Py.Return tt)
         (Py.Return tt) request)
  = [Financial.WriteCode "while True: pass"; Financial.SubprocessExec "python";
     Financial.WaitForCommunicate (Some 30%Z); Financial.ProcKill] /\
  snd (Financial.sample_run None (Py.Return 0%Z) timed_out (Py.Return tt)
         (Py.Return tt) request)
  = Py.Return (Py.error_response "Execution timeout").
Proof.
  intros request timed_out. unfold Financial.sample_run. split.
  - destruct (execute_code_dispatch_and_timeout
                (Some Financial.docker_from_env) (Py.Return tt) (Py.Return tt)
                (fun _ => Py.Return tt) (fun _ => Py.Return tt)
                (fun _ => Py.Return 0%Z) (Py.Return "{}") (Py.Return tt)
                (fun _ => Py.Return tt) (fun _ _ => timed_out) (Py.Return tt)
                (Py.Return (Py.VDict [])) (fun _ => Py.VDict []) request []
                eq_refl eq_refl) as (Hdocker & _).
    apply Hdocker; [reflexivity|eexists; reflexivity].
  - destruct (execute_code_dispatch_and_timeout
                None (Py.Return tt) (Py.Return tt)
                (fun _ => Py.Return tt) (fun _ => Py.Return tt)
                (fun _ => Py.Return 0%Z) (Py.Return "{}") (Py.Return tt)
                (fun _ => Py.Return tt) (fun _ _ => timed_out) (Py.Return tt)
                (Py.Return (Py.VDict [])) (fun _ => Py.VDict []) request []
                eq_refl eq_refl) as (_ & _ & Htimeout & _).
    destruct (Htimeout (or_intror eq_refl) (Py.Exception "TimeoutError" "")
                eq_refl eq_refl eq_refl) as (Htrace & Hanswer & _).
    split; [exact Htrace|]. apply Hanswer; reflexivity.
Defined.

(** C6, as stated, fails when the child is killed but the answer is lost:
    submitted code that leaves a writer behind makes the removal of the
    temporary directory raise after the kill, and a child that ends just
    as the time is up makes the kill itself raise.  Both times the answer
    is "Subprocess execution failed: ..." and not "Execution timeout". *)
Lemma timeout_answer_lost_when_cleanup_fails :
  let request := Financial.CodeExecutionRequest_of_code "while True: pass" in
  let timed_out := Py.Raise (Py.Exception "TimeoutError" "") in
  Financial.sample_run None (Py.Return 0%Z) timed_out (Py.Return tt)
    (Py.Raise (Py.Exception "OSError" "[Errno 39] Directory not empty")) request
  = ([Financial.WriteCode "while True: pass"; Financial.SubprocessExec "python";
      Financial.WaitForCommunicate (Some 30%Z); Financial.ProcKill],
     Py.Return (Py.error_response
                  "Subprocess execution failed: [Errno 39] Directory not empty")) /\
  Financial.sample_run None (Py.Return 0%Z) timed_out
    (Py.Raise (Py.Exception "ProcessLookupError" "")) (Py.Return tt) request
  = ([Financial.WriteCode "while True: pass"; Financial.SubprocessExec "python";
      Financial.WaitForCommunicate (Some 30%Z); Financial.ProcKill],
     Py.Return (Py.error_response "Subprocess execution failed: ")).
Proof. split; reflexivity. Qed.

(* ===================================================================== *)
(** * Properties: the cross-agent analysis *)
(* ===================================================================== *)

Section CrossAgent.
Import Py Unified.
Implicit Types (acc : gmap string correlation) (k a b : string).

Abbreviation insert_pairs a :=
  (foldl (fun acc b => <[pair_key a b := mock_correlation]> acc)).

(** An entry that holds the mock record keeps it. *)
Lemma insert_pairs_keep a later acc k :
  acc !! k = Some mock_correlation ->
  insert_pairs a acc later !! k = Some mock_correlation.
Proof.
  revert acc. induction later as [|b later IH]; intros acc H; simpl; [exact H|].
  apply IH. destruct (decide (pair_key a b = k)) as [->|Hne].
  - apply lookup_insert_eq.
  - rewrite lookup_insert_ne by exact Hne. exact H.
Qed.

Lemma insert_pairs_hit a later acc b :
  b ∈ later -> insert_pairs a acc later !! pair_key a b = Some mock_correlation.
Proof.
  revert acc. induction later as [|b' later IH]; intros acc H; simpl.
  - inversion H.
  - apply elem_of_cons in H as [->|H].
    + apply insert_pairs_keep. apply lookup_insert_eq.
    + apply IH. exact H.
Qed.

Lemma insert_pairs_values a later acc k v :
  insert_pairs a acc later !! k = Some v ->
  acc !! k = Some v \/
  (v = mock_correlation /\ exists b, b ∈ later /\ k = pair_key a b).
Proof.
  revert acc. induction later as [|b later IH]; intros acc H; simpl in H.
  - left. exact H.
  - apply IH in H as [H|(-> & b' & Hb' & ->)].
    + destruct (decide (pair_key a b = k)) as [<-|Hne].
      * rewrite lookup_insert_eq in H. injection H as <-.
        right. split; [reflexivity|]. exists b. split; [left|reflexivity].
      * rewrite lookup_insert_ne in H by exact Hne. left. exact H.
    + right. split; [reflexivity|]. exists b'. split; [right; exact Hb'|reflexivity].
Qed.

Lemma correlate_keep agents_ acc k :
  acc !! k = Some mock_correlation ->
  correlate agents_ acc !! k = Some mock_correlation.
Proof.
  revert acc. induction agents_ as [|a later IH]; intros acc H; simpl; [exact H|].
  apply IH, insert_pairs_keep, H.
Qed.

(** Every pair of positions [i < j] has its entry. *)
Lemma correlate_hit agents_ acc i j a b :
  (i < j)%nat -> agents_ !! i = Some a -> agents_ !! j = Some b ->
  correlate agents_ acc !! pair_key a b = Some mock_correlation.
Proof.
  revert acc i j. induction agents_ as [|x later IH]; intros acc i j Hij Hi Hj.
  - discriminate.
  - simpl. destruct j as [|j]; [lia|]. destruct i as [|i].
    + injection Hi as ->. apply correlate_keep, insert_pairs_hit.
      apply list_elem_of_lookup. exists j. exact Hj.
    + apply (IH _ i j); [lia|exact Hi|exact Hj].
Qed.

(** Every entry is the mock record under the key of a pair of positions
    [i < j], unless it was there before. *)
Lemma correlate_values agents_ acc k v :
  correlate agents_ acc !! k = Some v ->
  acc !! k = Some v \/
  (v = mock_correlation /\
   exists i j a b, (i < j)%nat /\ agents_ !! i = Some a /\
                   agents_ !! j = Some b /\ k = pair_key a b).
Proof.
  revert acc. induction agents_ as [|x later IH]; intros acc H; simpl in H.
  - left. exact H.
  - apply IH in H as [H|(-> & i & j & a & b & Hij & Hi & Hj & ->)].
    + apply insert_pairs_values in H as [H|(-> & b & Hb & ->)]; [left; exact H|].
      right. split; [reflexivity|].
      apply list_elem_of_lookup in Hb as [j Hj].
      exists 0%nat, (S j), x, b. repeat split; [lia|exact Hj].
    + right. split; [reflexivity|].
      exists (S i), (S j), a, b. repeat split; [lia|exact Hi|exact Hj].
Qed.

(** C7: for a correlation request [analyze_cross_agent] succeeds with a
    [correlations] dict computed from the agent names alone: every two
    distinct agents of the request have an entry (under the key of the
    one listed first), and every entry is the constant record
    [0.75 / 0.001 / "positive"] under the key of two positions of the
    list. *)
Theorem cross_agent_correlations_are_mock (request : CrossAgentAnalysis)
    (now : string) :
  analysis_type request = "correlation" ->
  exists cs,
    analyze_cross_agent request now
    = Return (CrossAgentSuccess
                {| res_analysis_type := "correlation";
                   res_agents := agents request;
                   res_metrics := metrics request;
                   correlations := Some cs;
                   anomalies := None; trends := None |} now) /\
    cs = correlate (agents request) ∅ /\
    (forall a b, a ∈ agents request -> b ∈ agents request -> a <> b ->
       cs !! pair_key a b = Some mock_correlation \/
       cs !! pair_key b a = Some mock_correlation) /\
    (forall k v, cs !! k = Some v ->
       correlation_coefficient v = PyNum.Dec 75 2 /\
       p_value v = PyNum.Dec 1 3 /\
       relationship v = "positive" /\
       exists i j a b, (i < j)%nat /\ agents request !! i = Some a /\
                       agents request !! j = Some b /\ k = pair_key a b).
Proof.
  intros Htype. exists (correlate (agents request) ∅).
  split; [|split; [reflexivity|split]].
  - unfold analyze_cross_agent. rewrite Htype. reflexivity.
  - intros a b Ha Hb Hab.
    apply list_elem_of_lookup in Ha as [i Hi].
    apply list_elem_of_lookup in Hb as [j Hj].
    destruct (Nat.lt_trichotomy i j) as [Hlt|[->|Hgt]].
    + left. apply (correlate_hit _ _ i j); assumption.
    + congruence.
    + right. apply (correlate_hit _ _ j i); assumption.
  - intros k v Hk.
    apply correlate_values in Hk as [Hk|(-> & Hpos)].
    + rewrite lookup_empty in Hk. discriminate.
    + repeat split; try reflexivity. exact Hpos.
Qed.
End CrossAgent.

(** [cross_agent_correlations_are_mock] at a request naming three agents. *)
Lemma cross_agent_correlations_are_mock_witness :
  let request :=
    {| Unified.analysis_type := "correlation";
       Unified.agents := ["claudia"; "maya"; "kalaw"];
       Unified.metrics := ["latency"]; Unified.parameters := None |} in
  exists cs,
    Unified.analyze_cross_agent request "2024-01-15T14:30:00"
    = Py.Return
        (Unified.CrossAgentSuccess
           {| Unified.res_analysis_type := "correlation";
              Unified.res_agents := ["claudia"; "maya"; "kalaw"];
              Unified.res_metrics := ["latency"];
              Unified.correlations := Some cs;
              Unified.anomalies := None; Unified.trends := None |}
           "2024-01-15T14:30:00") /\
    cs !! "claudia_vs_kalaw" = Some Unified.mock_correlation /\
    cs !! "kalaw_vs_claudia" = None.
Proof.
  intros request.
  destruct (cross_agent_correlations_are_mock request "2024-01-15T14:30:00"
              eq_refl) as (cs & Hrun & Hcs & _ & _).
  exists cs. split; [exact Hrun|]. rewrite Hcs. split; vm_compute; reflexivity.
Defined.

(* ===================================================================== *)
(** * Properties: the demo search *)
(* ===================================================================== *)

Section DemoSearch.
Import Py Demo.

(** The loop of [MockVectorStore.search] keeps, in order, the items of
    the slice that the filter does not skip. *)
Lemma search_loop_is_filter fs (items : list item) (acc : list hit) :
  foldl (fun results it =>
           if skipped fs it then results else results ++ [hit_of_item it])
        acc items
  = acc ++ map hit_of_item (List.filter (fun it => negb (skipped fs it)) items).
Proof.
  revert acc. induction items as [|it items IH]; intros acc; simpl.
  - rewrite app_nil_r. reflexivity.
  - rewrite IH. destruct (skipped fs it); simpl; [reflexivity|].
    rewrite <- app_assoc. reflexivity.
Qed.

Lemma MockVectorStore_search_is_filter store q fs l :
  MockVectorStore_search store q fs l
  = map hit_of_item
      (List.filter (fun it => negb (skipped fs it)) (slice_to (mock_data store) l)).
Proof. unfold MockVectorStore_search. apply search_loop_is_filter. Qed.

(** A slice with a bound that is not negative has at most that many
    elements. *)
Lemma slice_to_length {A} (l : list A) (n : Z) :
  (0 <= n)%Z -> (Z.of_nat (length (slice_to l n)) <= n)%Z.
Proof.
  intros Hn. unfold slice_to.
  destruct (0 <=? n)%Z eqn:E; [|apply Z.leb_gt in E; lia].
  rewrite length_take. lia.
Qed.

(** With a negative bound the slice drops elements from the end, so it
    may well hold more than [limit] elements. *)
Example slice_to_negative :
  slice_to [1; 2; 3]%nat (-1) = [1; 2]%nat /\ slice_to [1; 2; 3]%nat (-5) = [].
Proof. split; reflexivity. Qed.

Lemma filter_length_le {A} (f : A -> bool) (l : list A) :
  (length (List.filter f l) <= length l)%nat.
Proof.
  induction l as [|x l IH]; simpl; [lia|].
  destruct (f x); simpl; lia.
Qed.

(** An item that passes a filter with a non-empty agent has that agent. *)
Lemma not_skipped_agent (f : gmap string pyval) (a : string) (it : item) :
  f !! "agent" = Some (VStr a) -> a <> "" ->
  skipped (Some f) it = false -> item_agent it = Some a.
Proof.
  intros Hf Ha. unfold skipped.
  destruct (size f =? 0)%nat eqn:Hsz.
  - apply Nat.eqb_eq, map_size_empty_iff in Hsz. subst f.
    rewrite lookup_empty in Hf. discriminate.
  - rewrite Hf. simpl.
    destruct (String.eqb a "") eqn:Hempty;
      [apply String.eqb_eq in Hempty; contradiction|].
    simpl. destruct (item_agent it) as [s|]; simpl; [|discriminate].
    intros H. apply negb_false_iff, String.eqb_eq in H. congruence.
Qed.

(** The handler itself, for every bound that is not negative. *)
Lemma SearchHandler_search_bounded store q fs l elapsed :
  (0 <= l)%Z ->
  let response_ := SearchHandler_search store q fs l elapsed in
  (Z.of_nat (length (results response_)) <= l)%Z /\
  total response_ = Z.of_nat (length (results response_)) /\
  (forall f a, fs = Some f -> f !! "agent" = Some (VStr a) -> a <> "" ->
     Forall (fun r => agent r = Some a) (results response_)).
Proof.
  intros Hl. cbv zeta. unfold SearchHandler_search. cbn [results total].
  rewrite MockVectorStore_search_is_filter. split; [|split; [reflexivity|]].
  - rewrite !length_map.
    pose proof (filter_length_le (fun it => negb (skipped fs it))
                  (slice_to (mock_data store) l)).
    pose proof (slice_to_length (mock_data store) l Hl). lia.
  - intros f a -> Hf Ha. rewrite Forall_forall. intros r Hr.
    apply list_elem_of_fmap in Hr as (h & -> & Hh).
    apply list_elem_of_fmap in Hh as (it & -> & Hit).
    apply list_elem_of_In, filter_In in Hit as [_ Hkeep].
    apply negb_true_iff in Hkeep. simpl.
    apply (not_skipped_agent f a it Hf Ha Hkeep).
Qed.

(** C8: whatever body is posted to the demo app's [/tools/search], the
    reply is either a validation error (no query, or a limit outside
    1..100), or a response with at most [limit] results, whose [total] is
    the number of results, and in which every result has the agent of a
    non-empty agent filter. *)
Theorem search_results_bounded_and_filtered (store : MockVectorStore)
    (body : SearchRequestBody) (elapsed : Q) :
  let l := default 10%Z (body_limit body) in
  match search_route store body elapsed with
  | Reply200 response_ =>
      is_Some (body_query body) /\ (1 <= l <= 100)%Z /\
      (Z.of_nat (length (results response_)) <= l)%Z /\
      total response_ = Z.of_nat (length (results response_)) /\
      (forall f a, body_filters body = Some f -> filter_agent f = Some a ->
         a <> "" -> Forall (fun r => agent r = Some a) (results response_))
  | ReplyError status_code =>
      status_code = 422%Z /\
      (body_query body = None \/ ~ (1 <= l <= 100)%Z)
  end.
Proof.
  cbv zeta. unfold search_route, validate.
  destruct (body_query body) as [q|]; [|split; [reflexivity|left; reflexivity]].
  destruct (1 <=? default 10%Z (body_limit body))%Z eqn:Hlo; cbn [andb].
  - destruct (default 10%Z (body_limit body) <=? 100)%Z eqn:Hhi.
    + apply Z.leb_le in Hlo, Hhi. cbn [query filters limit].
      destruct (SearchHandler_search_bounded store q
                  (SearchFilters_dict <$> body_filters body)
                  (default 10%Z (body_limit body)) elapsed ltac:(lia))
        as (Hlen & Htot & Hag).
      split; [eexists; reflexivity|]. split; [lia|].
      split; [exact Hlen|]. split; [exact Htot|].
      intros f a Hf Hfa Ha. apply (Hag (SearchFilters_dict f) a).
      * rewrite Hf. reflexivity.
      * unfold SearchFilters_dict. rewrite lookup_insert_eq, Hfa. reflexivity.
      * exact Ha.
    + apply Z.leb_gt in Hhi. split; [reflexivity|]. right. lia.
  - apply Z.leb_gt in Hlo. split; [reflexivity|]. right. lia.
Qed.

(** The two runs of [tests/test_endpoints.py]: a filter on ["claudia"]
    with limit 5 gives the one matching entry; an empty body is refused. *)
Example test_search_with_filters :
  match search_route (MockVectorStore_init 0)
          {| body_query := Some "vector search";
             body_filters := Some {| filter_agent := Some "claudia";
                                     filter_date_range := None;
                                     filter_tags := None |};
             body_limit := Some 5%Z |} 0 with
  | Reply200 response_ =>
      map id (results response_) = ["1"] /\ total response_ = 1%Z
  | ReplyError _ => False
  end /\
  search_route (MockVectorStore_init 0)
    {| body_query := None; body_filters := None; body_limit := None |} 0
  = ReplyError 422.
Proof. split; vm_compute; [split|]; reflexivity. Qed.

(** Called directly with a negative limit, the handler returns more than
    [limit] results; the request model keeps such limits out. *)
Example handler_with_negative_limit :
  length (results (SearchHandler_search (MockVectorStore_init 0) "q" None (-1) 0))
  = 1%nat.
Proof. vm_compute. reflexivity. Qed.
End DemoSearch.

(* ===================================================================== *)
(** * Further properties: one generated transaction *)
(* ===================================================================== *)

Section TransactionFacts.
Import Synthetic SyntheticTxn.

(** X1: Every probability vector that [_generate_single_transaction] hands to
    [np.random.choice] fits its population and is a distribution: 24 hour
    weights that normalise to exact sum 1, and for every category as many
    quantity probabilities as quantities, none negative, with exact
    sum 1.  The quantity probabilities are [0.8, 0.2] for Tobacco,
    [0.7, 0.25, 0.05] for Snacks, Beverage and CSD, and [0.9, 0.1] for
    every other category. *)
Theorem transaction_draws_are_distributions (cat : string) :
  length hour_p_Q = 24%nat /\
  Forall (fun p => (0 <= p)%Q) hour_p_Q /\
  (sumQ hour_p_Q == 1)%Q /\
  length (snd (quantity_choices cat)) = length (fst (quantity_choices cat)) /\
  Forall (fun p => (0 <= dec_Q p)%Q) (snd (quantity_choices cat)) /\
  (sumQ (map dec_Q (snd (quantity_choices cat))) == 1)%Q /\
  (cat = "Tobacco" /\ quantity_choices cat = ([1; 2]%Z, [Dec 8 1; Dec 2 1])
   \/ cat ∈ ["Snacks"; "Beverage"; "CSD"] /\
      quantity_choices cat = ([1; 2; 3]%Z, [Dec 7 1; Dec 25 2; Dec 5 2])
   \/ cat <> "Tobacco" /\ (cat ∉ ["Snacks"; "Beverage"; "CSD"]) /\
      quantity_choices cat = ([1; 2]%Z, [Dec 9 1; Dec 1 1])).
Proof.
  split; [reflexivity|]. split; [repeat constructor; vm_compute; discriminate|].
  split; [vm_compute; reflexivity|].
  unfold quantity_choices.
  destruct (String.eqb cat "Tobacco") eqn:Et;
    [|destruct (bool_decide (cat ∈ ["Snacks"; "Beverage"; "CSD"])) eqn:Es];
    (split; [reflexivity|]);
    (split; [repeat constructor; vm_compute; discriminate|]);
    (split; [vm_compute; reflexivity|]).
  - left. split; [apply String.eqb_eq, Et|reflexivity].
  - right. left. split; [apply bool_decide_eq_true in Es; exact Es|reflexivity].
  - right. right. split; [apply String.eqb_neq, Et|].
    split; [apply bool_decide_eq_false in Es; exact Es|reflexivity].
Qed.

(** As doubles the hour probabilities are not negative and sum to 1 within
    numpy's tolerance. *)
Lemma hour_p_as_doubles :
  length hour_p = 24%nat /\
  forallb (fun w => negb (w <? 0)%float) hour_p = true /\
  (abs (sum_float hour_p - 1) <? 0x1p-26)%float = true.
Proof. repeat split; vm_compute; reflexivity. Qed.

(** The multipliers are the three constants of the source. *)
Lemma quantity_multiplier_cases (day weekday : Z) :
  quantity_multiplier day weekday = Dec 14 1 /\ (day = 15 \/ day = 30)%Z
  \/ quantity_multiplier day weekday = Dec 125 2 /\ day <> 15%Z /\ day <> 30%Z
  \/ quantity_multiplier day weekday = Dec 10 1 /\ day <> 15%Z /\ day <> 30%Z.
Proof.
  unfold quantity_multiplier. case_bool_decide as Hd.
  - left. split; [reflexivity|].
    apply elem_of_cons in Hd as [->|Hd]; [left; reflexivity|].
    apply elem_of_cons in Hd as [->|Hd]; [right; reflexivity|]. inversion Hd.
  - assert (day <> 15%Z /\ day <> 30%Z) as [H15 H30].
    { split; intros ->; apply Hd; [left|right; left]. }
    destruct (5 <=? weekday)%Z; [right; left|right; right]; auto.
Qed.

(** X2: The quantity of a generated row is between 1 and 4 for every category,
    date, region and draw.  The weekend multiplier 1.25 never changes a
    quantity, and the payday multiplier 1.4 changes only a base quantity
    of 3, to 4: so 4 occurs only for Snacks, Beverage and CSD on the 15th
    or 30th. *)
Theorem quantity_between_1_and_4 (cat region_name : string) (base day weekday : Z)
    (u : float) :
  base ∈ fst (quantity_choices cat) ->
  exists scaled q,
    scaled_quantity base (quantity_multiplier day weekday) = Some scaled /\
    quantity base (quantity_multiplier day weekday) region_name u = Some q /\
    (1 <= q <= scaled)%Z /\ (scaled <= 4)%Z /\
    ((day <> 15 /\ day <> 30)%Z -> scaled = base) /\
    (scaled <> base ->
     base = 3%Z /\ scaled = 4%Z /\ (day = 15 \/ day = 30)%Z /\
     cat ∈ ["Snacks"; "Beverage"; "CSD"]).
Proof.
  intros Hbase.
  assert (Hb : (base = 1 \/ base = 2 \/
                (base = 3 /\ cat ∈ ["Snacks"; "Beverage"; "CSD"]))%Z).
  { unfold quantity_choices in Hbase.
    destruct (String.eqb cat "Tobacco"); [|case_bool_decide as Hc];
      simpl in Hbase;
      repeat (apply elem_of_cons in Hbase as [->|Hbase]; [tauto|]);
      inversion Hbase. }
  unfold quantity. cbv zeta.
  set (lowered :=
         (dec_float (dict_get REGIONAL_WEIGHTS region_name (Dec 10 1)) <? 1)%float
         && (u <? dec_float (Dec 3 1))%float).
  destruct (quantity_multiplier_cases day weekday)
    as [[-> Hd]|[[-> [H15 H30]]|[-> [H15 H30]]]];
    destruct Hb as [->|[->|[-> Hc]]];
    match goal with
    | |- context [scaled_quantity ?b ?m] =>
        let v := eval vm_compute in (scaled_quantity b m) in
        change (scaled_quantity b m) with v
    end; cbn [mbind option_bind];
    destruct lowered;
    (eexists _, _; split; [reflexivity|]; split; [reflexivity|]);
    repeat split; try lia; try tauto; try (intros; lia).
Qed.
End TransactionFacts.

(** [quantity_between_1_and_4] at a payday purchase of snacks. *)
Lemma quantity_between_1_and_4_witness :
  exists scaled q,
    SyntheticTxn.scaled_quantity 3 (SyntheticTxn.quantity_multiplier 15 2)
    = Some scaled /\
    SyntheticTxn.quantity 3 (SyntheticTxn.quantity_multiplier 15 2) "BARMM"
      0.1%float = Some q /\
    (1 <= q <= scaled)%Z /\ (scaled <= 4)%Z /\
    ((15 <> 15 /\ 15 <> 30)%Z -> scaled = 3%Z) /\
    (scaled <> 3%Z ->
     3%Z = 3%Z /\ scaled = 4%Z /\ (15 = 15 \/ 15 = 30)%Z /\
     "Snacks" ∈ ["Snacks"; "Beverage"; "CSD"]).
Proof.
  apply (quantity_between_1_and_4 "Snacks" "BARMM" 3 15 2 0.1%float).
  vm_compute. right. right. left.
Defined.

Section BrandFacts.
Import Synthetic SyntheticTxn.
Variable BRANDS_DF : list brand.
Hypothesis unique_ids : NoDup (map brand_id BRANDS_DF).

Abbreviation ids_where := (ids_where BRANDS_DF).
Abbreviation BRAND_LOOKUPS := (BRAND_LOOKUPS BRANDS_DF).
Abbreviation select_brand := (select_brand BRANDS_DF).
Abbreviation brand_info := (brand_info BRANDS_DF).

(** A drawn element of a non-empty list is one of its elements. *)
Lemma choice_or_elem (seq : list Z) (fallback : Z) (r : nat) :
  seq <> [] -> choice_or seq fallback r ∈ seq.
Proof.
  intros Hne. unfold choice_or. destruct seq as [|x seq]; [contradiction|].
  assert (Hlt : (r mod length (x :: seq) < length (x :: seq))%nat)
    by (apply Nat.mod_upper_bound; simpl; lia).
  destruct (lookup_lt_is_Some_2 _ _ Hlt) as [y Hy]. rewrite Hy. simpl.
  apply list_elem_of_lookup. eexists. exact Hy.
Qed.

Lemma ids_where_elem (p : brand -> bool) (bid : Z) :
  bid ∈ ids_where p <-> exists b, b ∈ BRANDS_DF /\ brand_id b = bid /\ p b = true.
Proof.
  unfold SyntheticTxn.ids_where. rewrite list_elem_of_fmap. split.
  - intros (b & -> & Hb). apply list_elem_of_In, filter_In in Hb as [Hin Hp].
    exists b. split; [apply list_elem_of_In; exact Hin|]. split; [reflexivity|exact Hp].
  - intros (b & Hin & <- & Hp). exists b. split; [reflexivity|].
    apply list_elem_of_In, filter_In. split; [apply list_elem_of_In; exact Hin|exact Hp].
Qed.

(** With unique ids the row looked up by id is the row itself. *)
Lemma brand_info_of_member (b : brand) :
  b ∈ BRANDS_DF -> brand_info (brand_id b) = Some b.
Proof.
  unfold SyntheticTxn.brand_info. revert unique_ids.
  induction BRANDS_DF as [|x l IH]; intros Hnd Hin; [inversion Hin|].
  simpl in Hnd. apply NoDup_cons in Hnd as [Hx Hnd]. simpl.
  apply elem_of_cons in Hin as [->|Hin].
  - rewrite Z.eqb_refl. reflexivity.
  - destruct (brand_id x =? brand_id b)%Z eqn:E.
    + apply Z.eqb_eq in E. exfalso. apply Hx. rewrite E.
      apply list_elem_of_fmap. exists b. split; [reflexivity|exact Hin].
    + apply IH; assumption.
Qed.

Lemma lookups_get_key (cat : string) (ks : list string) (f : string -> lookup) :
  cat ∈ ks -> lookups_get (map (fun k => (k, f k)) ks) cat = Some (f cat).
Proof.
  induction ks as [|k ks IH]; intros Hin; [inversion Hin|]. simpl.
  destruct (String.eqb k cat) eqn:E.
  - apply String.eqb_eq in E. subst. reflexivity.
  - apply elem_of_cons in Hin as [->|Hin]; [rewrite String.eqb_refl in E; discriminate|].
    apply IH. exact Hin.
Qed.

(** X3: Outside Tobacco, a transaction of a category that has a brand gets a
    brand of that category: the draw returns an id, the id is found in the
    brands table, and the row found (whose category becomes the category
    of the generated row) is of the category drawn. *)
Theorem brand_stays_in_category (cat : string) (u : float) (r : nat) :
  cat <> "Tobacco" ->
  cat ∈ keys CATEGORY_WEIGHTS ->
  (exists b0, b0 ∈ BRANDS_DF /\ category b0 = cat) ->
  exists bid b,
    select_brand cat u r = Some bid /\
    brand_info bid = Some b /\
    brand_id b = bid /\ category b = cat.
Proof.
  intros Hnt Hkey (b0 & Hb0 & Hcat0).
  unfold SyntheticTxn.select_brand.
  destruct (String.eqb cat "Tobacco") eqn:E;
    [apply String.eqb_eq in E; contradiction|].
  unfold SyntheticTxn.BRAND_LOOKUPS.
  rewrite (lookups_get_key cat _ _ Hkey). cbn [mbind option_bind tbwa competitor all].
  set (T := ids_where (fun b => String.eqb (category b) cat && is_tbwa_client b)).
  set (C := ids_where (fun b => String.eqb (category b) cat && negb (is_tbwa_client b))).
  set (A := ids_where (fun b => String.eqb (category b) cat)).
  assert (HT : forall x, x ∈ T -> x ∈ A).
  { intros x Hx. apply ids_where_elem in Hx as (b & Hb & Hid & Hp).
    apply ids_where_elem. exists b. apply andb_true_iff in Hp. tauto. }
  assert (HC : forall x, x ∈ C -> x ∈ A).
  { intros x Hx. apply ids_where_elem in Hx as (b & Hb & Hid & Hp).
    apply ids_where_elem. exists b. apply andb_true_iff in Hp. tauto. }
  assert (HA : A <> []).
  { intros HA. assert (brand_id b0 ∈ A) as Hin.
    { apply ids_where_elem. exists b0. rewrite Hcat0, String.eqb_refl. auto. }
    rewrite HA in Hin. inversion Hin. }
  assert (Hpart : T = [] -> C = [] -> False).
  { intros HTe HCe.
    destruct (is_tbwa_client b0) eqn:Hc.
    - assert (brand_id b0 ∈ T) as Hin.
      { apply ids_where_elem. exists b0. rewrite Hcat0, String.eqb_refl, Hc. auto. }
      rewrite HTe in Hin. inversion Hin.
    - assert (brand_id b0 ∈ C) as Hin.
      { apply ids_where_elem. exists b0. rewrite Hcat0, String.eqb_refl, Hc. auto. }
      rewrite HCe in Hin. inversion Hin. }
  assert (Hfound : forall bid, bid ∈ A ->
            exists b, brand_info bid = Some b /\ brand_id b = bid /\ category b = cat).
  { intros bid Hbid. apply ids_where_elem in Hbid as (b & Hb & Hid & Hp).
    exists b. split; [rewrite <- Hid; apply brand_info_of_member; exact Hb|].
    split; [exact Hid|]. apply String.eqb_eq. exact Hp. }
  assert (Hgoal : forall bid, bid ∈ A ->
            exists bid' b, Some bid = Some bid' /\ brand_info bid' = Some b /\
                           brand_id b = bid' /\ category b = cat).
  { intros bid Hbid. destruct (Hfound bid Hbid) as (b & H1 & H2 & H3).
    exists bid, b. auto. }
  destruct (u <? _)%float.
  - destruct T as [|t T'] eqn:HTeq.
    + apply Hgoal, HC, choice_or_elem. intros HCe. apply Hpart; [reflexivity|exact HCe].
    + apply Hgoal, HT. rewrite <- HTeq. apply choice_or_elem. rewrite HTeq. discriminate.
  - destruct C as [|c C'] eqn:HCeq.
    + apply Hgoal, choice_or_elem, HA.
    + apply Hgoal, HC. rewrite <- HCeq. apply choice_or_elem. rewrite HCeq. discriminate.
Qed.

(** A draw of [random.random()] is never below a share of 0.0. *)
Lemma never_below_zero (u : float) : (0 <=? u)%float = true -> (u <? 0)%float = false.
Proof.
  rewrite ltb_spec, leb_spec. change (Prim2SF 0) with (S754_zero false).
  destruct (Prim2SF u) as [s|s| |s m e]; simpl; try destruct s;
    (discriminate || reflexivity).
Qed.

(** X4: In the seven categories whose TBWA share is 0.0 a TBWA client's brand
    is never drawn while the category has a competitor brand. *)
Theorem zero_share_categories_draw_competitors (cat : string) (u : float) (r : nat) :
  cat ∈ ["CSD"; "Noodles"; "Rice"; "Coffee"; "Confectionery"; "Alcohol"; "Other"] ->
  (0 <=? u)%float = true ->
  (exists b0, b0 ∈ BRANDS_DF /\ category b0 = cat /\ is_tbwa_client b0 = false) ->
  exists bid b,
    select_brand cat u r = Some bid /\
    brand_info bid = Some b /\
    category b = cat /\ is_tbwa_client b = false.
Proof.
  intros Hcat Hu (b0 & Hb0 & Hcat0 & Hcomp0).
  assert (Hkey : cat ∈ keys CATEGORY_WEIGHTS).
  { repeat (apply elem_of_cons in Hcat as [->|Hcat]; [vm_compute; set_solver|]).
    inversion Hcat. }
  assert (Hshare : dec_float (dict_get TBWA_CATEGORY_SHARE cat (Dec 0 0)) = 0%float).
  { repeat (apply elem_of_cons in Hcat as [->|Hcat]; [vm_compute; reflexivity|]).
    inversion Hcat. }
  assert (Hnt : String.eqb cat "Tobacco" = false).
  { repeat (apply elem_of_cons in Hcat as [->|Hcat]; [reflexivity|]).
    inversion Hcat. }
  unfold SyntheticTxn.select_brand. rewrite Hnt, Hshare.
  unfold SyntheticTxn.BRAND_LOOKUPS.
  rewrite (lookups_get_key cat _ _ Hkey). cbn [mbind option_bind tbwa competitor all].
  rewrite (never_below_zero u Hu).
  set (C := ids_where (fun b => String.eqb (category b) cat && negb (is_tbwa_client b))).
  assert (Hin0 : brand_id b0 ∈ C).
  { apply ids_where_elem. exists b0. rewrite Hcat0, String.eqb_refl, Hcomp0. auto. }
  destruct C as [|c C'] eqn:HC; [inversion Hin0|].
  assert (Hpick : choice_or (c :: C') 1 r ∈ C)
    by (rewrite HC; apply choice_or_elem; discriminate).
  apply ids_where_elem in Hpick as (b & Hb & Hid & Hp).
  apply andb_true_iff in Hp as [Hc Ht].
  exists (choice_or (c :: C') 1 r), b. split; [reflexivity|].
  split; [rewrite <- Hid; apply brand_info_of_member; exact Hb|].
  split; [apply String.eqb_eq; exact Hc|]. apply negb_true_iff. exact Ht.
Qed.
End BrandFacts.


Section GenerationInvariants.
Import Synthetic SyntheticPlan.
Context {rng txn date : Type}.
Variable LOCATIONS_DF : list location.
Variable fromisoformat : string -> option date.
Variable date_of_ymd : Z -> Z -> Z -> date.
Variable sample_one : list location -> rng -> location * rng.
Variable np_random_choice : nat -> list float -> rng -> nat * rng.
Variable days_between : date -> date -> Z.
Variable randint : Z -> Z -> rng -> Z * rng.
Variable empty_range_message : Z -> string.
Variable transaction_on :
  location -> date -> Z -> Z -> rng -> Py.result (txn * rng).
Variable summarise : list txn -> Py.pyval.
Variable output_path : string.

Abbreviation single :=
  (_generate_single_transaction days_between randint empty_range_message
     transaction_on).
Abbreviation gen_rows :=
  (generate_rows LOCATIONS_DF fromisoformat date_of_ymd sample_one
     np_random_choice days_between randint empty_range_message transaction_on).

(** The first pass never plans more rows than it would with a location in
    every region. *)
Lemma first_pass_total_bounded regions MIN all_regions :
  targets_total regions MIN = Some all_regions ->
  exists total,
    first_pass_total LOCATIONS_DF regions MIN = Some total /\
    (0 <= total <= all_regions)%Z.
Proof.
  revert all_regions. induction regions as [|[name w] rest IH]; simpl.
  - intros ? [= <-]. exists 0%Z. split; [reflexivity|lia].
  - intros all_regions.
    destruct (region_target MIN w) as [target|]; [|discriminate].
    destruct (targets_total rest MIN) as [t|]; [|discriminate].
    intros [= <-]. destruct (IH t eq_refl) as (total & -> & Hb).
    destruct (0 <? length _)%nat.
    + eexists. split; [reflexivity|lia].
    + exists total. split; [reflexivity|lia].
Qed.

(** X5: When the start date is not after the end date and every single
    transaction is generated: whenever the first pass, taken over all 17
    regions, fits within [num_records], the generator returns exactly
    [num_records] rows, whatever the location table holds and whatever is
    drawn. *)
Theorem rows_exact_when_first_pass_fits (request : GenerationRequest) (g : rng)
    (sd ed : date) (all_regions : Z) :
  date_or_default fromisoformat date_of_ymd (start_date request) 2024 1 1
    = Py.Return sd ->
  date_or_default fromisoformat date_of_ymd (end_date request) 2024 12 31
    = Py.Return ed ->
  (0 <= days_between sd ed)%Z ->
  transactions_return transaction_on sd ->
  LOCATIONS_DF <> [] ->
  draws_in_range np_random_choice ->
  targets_total REGIONAL_WEIGHTS (MIN_PER_REGION request) = Some all_regions ->
  (all_regions <= num_records request)%Z ->
  exists st,
    gen_rows request g = Py.Return st /\
    Z.of_nat (length (rows st)) = num_records request.
Proof.
  intros Hsd Hed Hd Hret Hne Hidx Hall Hfit.
  unfold Synthetic.generate_rows. rewrite Hsd, Hed.
  unfold mbind, result_bind. cbn [Py.bind].
  set (st0 := {| rows := []; txn_counter := 1; gen := g |}).
  assert (H1 : exists st1 F,
             (if coverage_first request
              then first_pass LOCATIONS_DF sample_one days_between randint
                     empty_range_message transaction_on
                     REGIONAL_WEIGHTS (MIN_PER_REGION request) sd ed st0
              else Py.Return st0) = Py.Return st1 /\
             (0 <= F <= all_regions)%Z /\ Z.of_nat (length (rows st1)) = F).
  { destruct (first_pass_total_bounded _ _ _ Hall) as (F & HF & Hb).
    destruct (coverage_first request).
    - destruct (first_pass_length LOCATIONS_DF sample_one days_between randint
                  empty_range_message transaction_on _ _ sd ed st0 _ Hd Hret HF)
        as (st1 & Hrun & _ & Hlen).
      exists st1, F. change (length (rows st0)) with 0%nat in Hlen.
      split; [exact Hrun|]. split; [exact Hb|lia].
    - exists st0, 0%Z. split; [reflexivity|]. split; [lia|reflexivity]. }
  destruct H1 as (st1 & F & -> & Hb & Hlen1). cbn [Py.bind].
  destruct (second_pass_length LOCATIONS_DF np_random_choice days_between randint
              empty_range_message transaction_on sd ed
              (Z.to_nat (num_records request - Z.of_nat (length (rows st1)))) st1
              Hd Hret)
    as (st & Hrun & Hlen); [right; split; assumption|].
  exists st. split; [exact Hrun|]. rewrite Hlen. lia.
Qed.

Lemma append_txn_numbered loc sd ed g (st st' : gen_state) :
  numbered single sd ed st ->
  append_txn days_between randint empty_range_message transaction_on
    loc sd ed g st = Py.Return st' ->
  numbered single sd ed st'.
Proof.
  intros [Hc Hrows]. unfold append_txn.
  destruct (single loc sd ed (txn_counter st) g) as [[t g']|e] eqn:Hgen;
    [|discriminate].
  intros [= <-]. split; cbn [rows txn_counter].
  - rewrite length_app. simpl. lia.
  - intros k t' Hk. apply lookup_app_Some in Hk as [Hk|[Hge Hk]].
    + apply Hrows. exact Hk.
    + destruct (k - length (rows st))%nat as [|n] eqn:Hd; [|discriminate].
      injection Hk as <-. exists loc, g, g'.
      replace (Z.of_nat k + 1)%Z with (txn_counter st) by lia.
      exact Hgen.
Qed.

Lemma first_pass_region_numbered locs sd ed n (st st' : gen_state) :
  numbered single sd ed st ->
  first_pass_region sample_one days_between randint empty_range_message
    transaction_on locs sd ed n st = Py.Return st' ->
  numbered single sd ed st'.
Proof.
  revert st. induction n as [|n IH]; intros st H; simpl.
  - intros [= <-]. exact H.
  - destruct (sample_one locs (gen st)) as [loc g].
    destruct (append_txn _ _ _ _ loc sd ed g st) as [st1|e] eqn:Happ;
      [|discriminate].
    apply IH. eapply append_txn_numbered; [exact H|exact Happ].
Qed.

Lemma first_pass_numbered regions MIN sd ed (st st' : gen_state) :
  numbered single sd ed st ->
  first_pass LOCATIONS_DF sample_one days_between randint empty_range_message
    transaction_on regions MIN sd ed st = Py.Return st' ->
  numbered single sd ed st'.
Proof.
  revert st. induction regions as [|[name w] rest IH]; intros st H; simpl.
  - intros [= <-]. exact H.
  - destruct (0 <? length _)%nat; [|apply IH; exact H].
    destruct (region_target MIN w); [|discriminate].
    destruct (first_pass_region _ _ _ _ _ _ sd ed _ st) as [st1|e] eqn:Hreg;
      [|discriminate].
    apply IH. eapply first_pass_region_numbered; [exact H|exact Hreg].
Qed.

Lemma second_pass_numbered sd ed n (st st' : gen_state) :
  numbered single sd ed st ->
  second_pass LOCATIONS_DF np_random_choice days_between randint
    empty_range_message transaction_on sd ed n st = Py.Return st' ->
  numbered single sd ed st'.
Proof.
  revert st. induction n as [|n IH]; intros st H; simpl.
  - intros [= <-]. exact H.
  - destruct (length LOCATIONS_DF =? 0)%nat; [discriminate|].
    destruct (np_random_choice _ _ _) as [idx g].
    destruct (LOCATIONS_DF !! idx) as [loc|]; [|discriminate].
    destruct (append_txn _ _ _ _ loc sd ed g st) as [st1|e] eqn:Happ;
      [|discriminate].
    apply IH. eapply append_txn_numbered; [exact H|exact Happ].
Qed.

(** X6: Transaction ids are consecutive from 1 in row order: when the
    generator returns, the row at position [k] is what the call with id
    [k + 1] returned, and the counter stands one past the last id. *)
Theorem transaction_ids_are_consecutive (request : GenerationRequest) (g : rng)
    (st : gen_state) :
  gen_rows request g = Py.Return st ->
  txn_counter st = (1 + Z.of_nat (length (rows st)))%Z /\
  forall k t, rows st !! k = Some t ->
    exists loc sd ed g' g'',
      single loc sd ed (Z.of_nat k + 1) g' = Py.Return (t, g'').
Proof.
  unfold Synthetic.generate_rows, mbind, result_bind.
  destruct (date_or_default _ _ (start_date request) _ _ _) as [sd|]; [|discriminate].
  destruct (date_or_default _ _ (end_date request) _ _ _) as [ed|]; [|discriminate].
  cbn [Py.bind].
  set (st0 := {| rows := []; txn_counter := 1; gen := g |}).
  assert (H0 : numbered single sd ed st0).
  { split; [reflexivity|]. intros k t Hk. inversion Hk. }
  intros Hrun.
  assert (Hnum : numbered single sd ed st).
  { destruct (coverage_first request).
    - destruct (first_pass _ _ _ _ _ _ _ _ _ _ st0) as [st1|] eqn:H1; [|discriminate].
      cbn [Py.bind] in Hrun.
      eapply second_pass_numbered; [|exact Hrun].
      eapply first_pass_numbered; [exact H0|exact H1].
    - cbn [Py.bind] in Hrun. eapply second_pass_numbered; [exact H0|exact Hrun]. }
  destruct Hnum as [Hc Hrows]. split; [exact Hc|].
  intros k t Hk. destruct (Hrows k t Hk) as (loc & g' & g'' & Hgen).
  exists loc, sd, ed, g', g''. exact Hgen.
Qed.

(** X7: A request for no rows (or fewer) with [coverage_first] off generates
    nothing, and the handler answers with the error dict of the failed
    summary instead of an empty dataset. *)
Theorem empty_generation_is_an_error (request : GenerationRequest) (g : rng)
    (sd ed : date) :
  dataset_type request = "transactions" ->
  coverage_first request = false ->
  (num_records request <= 0)%Z ->
  date_or_default fromisoformat date_of_ymd (start_date request) 2024 1 1
    = Py.Return sd ->
  date_or_default fromisoformat date_of_ymd (end_date request) 2024 12 31
    = Py.Return ed ->
  generate_synthetic_data LOCATIONS_DF fromisoformat date_of_ymd sample_one
    np_random_choice days_between randint empty_range_message transaction_on
    summarise output_path request g
  = Py.Return (Py.error_response
                 "'DataFrame' object has no attribute 'is_tbwa_client'").
Proof.
  intros Htype Hcf Hn Hsd Hed.
  unfold generate_synthetic_data. rewrite Htype, String.eqb_refl.
  unfold _generate_transactions, Synthetic.generate_rows.
  rewrite Hsd, Hed, Hcf. unfold mbind, result_bind. cbn [Py.bind rows length].
  assert (Z.to_nat (num_records request - Z.of_nat 0) = 0%nat) as -> by lia.
  reflexivity.
Qed.
End GenerationInvariants.

(** [brand_stays_in_category] on the sample table: a Dairy draw above the
    TBWA share takes the competitor's brand. *)
Lemma brand_stays_in_category_witness :
  exists bid b,
    SyntheticTxn.select_brand SyntheticTxn.sample_brands "Dairy" 0.75%float 5
    = Some bid /\
    SyntheticTxn.brand_info SyntheticTxn.sample_brands bid = Some b /\
    SyntheticTxn.brand_id b = bid /\ SyntheticTxn.category b = "Dairy".
Proof.
  apply (brand_stays_in_category SyntheticTxn.sample_brands).
  - apply (bool_decide_unpack _). vm_compute. exact I.
  - discriminate.
  - vm_compute. set_solver.
  - eexists. split; [left|reflexivity].
Defined.

(** [zero_share_categories_draw_competitors] on the sample table. *)
Lemma zero_share_categories_draw_competitors_witness :
  exists bid b,
    SyntheticTxn.select_brand SyntheticTxn.sample_brands "CSD" 0%float 0
    = Some bid /\
    SyntheticTxn.brand_info SyntheticTxn.sample_brands bid = Some b /\
    SyntheticTxn.category b = "CSD" /\ SyntheticTxn.is_tbwa_client b = false.
Proof.
  apply (zero_share_categories_draw_competitors SyntheticTxn.sample_brands).
  - apply (bool_decide_unpack _). vm_compute. exact I.
  - left.
  - reflexivity.
  - eexists. split; [right; right; left|]. split; reflexivity.
Defined.

(** [rows_exact_when_first_pass_fits] at the default request (17000 rows,
    [coverage_first] on), where the first pass takes at most 5850 rows. *)
Lemma rows_exact_when_first_pass_fits_witness :
  exists st,
    Synthetic.run_rows Synthetic.only_barmm Synthetic.GenerationRequest_default
    = Py.Return st /\
    Z.of_nat (length (Synthetic.rows st)) = 17000%Z.
Proof.
  unfold Synthetic.run_rows.
  apply (rows_exact_when_first_pass_fits Synthetic.only_barmm
           Synthetic.fromisoformat_sample Synthetic.date_of_ymd_sample
           Synthetic.first_of Synthetic.draw_zero Synthetic.days_sample
           Synthetic.randint_low Synthetic.empty_range_sample
           Synthetic.row_of_id Synthetic.GenerationRequest_default tt
           738886%Z 739251%Z 5850%Z).
  - reflexivity.
  - reflexivity.
  - vm_compute. discriminate.
  - intros loc offset txn_id g. eexists _, _. reflexivity.
  - discriminate.
  - intros k p g Hk. simpl. lia.
  - vm_compute. reflexivity.
  - vm_compute. discriminate.
Defined.

(** [transaction_ids_are_consecutive] at a request for three rows. *)
Lemma transaction_ids_are_consecutive_witness :
  let request :=
    {| Synthetic.dataset_type := "transactions"; Synthetic.num_records := 3;
       Synthetic.start_date := None; Synthetic.end_date := None;
       Synthetic.output_format := "csv"; Synthetic.coverage_first := false |} in
  exists st,
    Synthetic.run_rows Synthetic.only_barmm request = Py.Return st /\
    Synthetic.rows st = [(1, "BARMM"); (2, "BARMM"); (3, "BARMM")]%Z /\
    Synthetic.txn_counter st = (1 + Z.of_nat (length (Synthetic.rows st)))%Z.
Proof.
  intros request. eexists. split; [vm_compute; reflexivity|].
  split; [reflexivity|].
  refine (proj1 (transaction_ids_are_consecutive Synthetic.only_barmm
                   Synthetic.fromisoformat_sample Synthetic.date_of_ymd_sample
                   Synthetic.first_of Synthetic.draw_zero Synthetic.days_sample
                   Synthetic.randint_low Synthetic.empty_range_sample
                   Synthetic.row_of_id request tt _ _)).
  vm_compute. reflexivity.
Defined.

(** [empty_generation_is_an_error] at a request for zero rows. *)
Lemma empty_generation_is_an_error_witness :
  Synthetic.run_handler Synthetic.only_barmm
    {| Synthetic.dataset_type := "transactions"; Synthetic.num_records := 0;
       Synthetic.start_date := None; Synthetic.end_date := None;
       Synthetic.output_format := "csv"; Synthetic.coverage_first := false |}
  = Py.Return (Py.error_response
                 "'DataFrame' object has no attribute 'is_tbwa_client'").
Proof.
  unfold Synthetic.run_handler.
  apply (empty_generation_is_an_error Synthetic.only_barmm
           Synthetic.fromisoformat_sample Synthetic.date_of_ymd_sample
           Synthetic.first_of Synthetic.draw_zero Synthetic.days_sample
           Synthetic.randint_low Synthetic.empty_range_sample
           Synthetic.row_of_id (fun _ => Py.VNone) "output/transactions.csv"
           _ tt 738886%Z 739251%Z); (reflexivity || (simpl; lia)).
Defined.


(* ===================================================================== *)
(** * Further properties: call quality *)
(* ===================================================================== *)

Section CallQualityFacts.
Import Py CallQuality.

Lemma Qlt_bool_iff (a b : Q) : Qlt_bool a b = true <-> (a < b)%Q.
Proof.
  unfold Qlt_bool. rewrite negb_true_iff. split.
  - intros H. apply Qnot_le_lt. intros Hle. apply Qle_bool_iff in Hle. congruence.
  - intros H. destruct (Qle_bool b a) eqn:E; [|reflexivity].
    apply Qle_bool_iff in E. exfalso. apply (Qlt_not_le _ _ H E).
Qed.

Lemma Qle_bool_false (a b : Q) : Qle_bool a b = false <-> (b < a)%Q.
Proof.
  rewrite <- Qlt_bool_iff. unfold Qlt_bool. rewrite negb_true_iff. reflexivity.
Qed.

(** The grade follows the score through the thresholds 90, 80, 70 and 60. *)
Lemma grade_thresholds (s : Q) :
  (_score_to_grade s = "A" /\ 90 <= s)%Q
  \/ (_score_to_grade s = "B" /\ 80 <= s < 90)%Q
  \/ (_score_to_grade s = "C" /\ 70 <= s < 80)%Q
  \/ (_score_to_grade s = "D" /\ 60 <= s < 70)%Q
  \/ (_score_to_grade s = "F" /\ s < 60)%Q.
Proof.
  unfold _score_to_grade.
  destruct (Qle_bool 90 s) eqn:E90; [left; split; [reflexivity|apply Qle_bool_iff, E90]|].
  apply Qle_bool_false in E90.
  destruct (Qle_bool 80 s) eqn:E80;
    [right; left; split; [reflexivity|split; [apply Qle_bool_iff, E80|exact E90]]|].
  apply Qle_bool_false in E80.
  destruct (Qle_bool 70 s) eqn:E70;
    [right; right; left; split; [reflexivity|split; [apply Qle_bool_iff, E70|exact E80]]|].
  apply Qle_bool_false in E70.
  destruct (Qle_bool 60 s) eqn:E60;
    [right; right; right; left; split;
       [reflexivity|split; [apply Qle_bool_iff, E60|exact E70]]|].
  apply Qle_bool_false in E60. right; right; right; right. split; [reflexivity|exact E60].
Qed.

(** X8: A higher score never gets a worse grade, and the grade is "A" exactly
    from 90 up and "F" exactly below 60. *)
Theorem grade_is_monotone (s1 s2 : Q) :
  (s1 <= s2)%Q ->
  (grade_rank (_score_to_grade s2) <= grade_rank (_score_to_grade s1))%nat /\
  (_score_to_grade s1 = "A" <-> (90 <= s1)%Q) /\
  (_score_to_grade s1 = "F" <-> (s1 < 60)%Q).
Proof.
  intros Hle.
  destruct (grade_thresholds s1) as [[-> H1]|[[-> H1]|[[-> H1]|[[-> H1]|[-> H1]]]]];
    destruct (grade_thresholds s2) as [[-> H2]|[[-> H2]|[[-> H2]|[[-> H2]|[-> H2]]]]];
    (split; [vm_compute; try lia; exfalso; lra|]);
    (split; (split; [intros H; (discriminate || lra)|intros H; (reflexivity || (exfalso; lra))])).
Qed.

(** The transcription dict never carries speech patterns. *)
Lemma transcription_has_no_speech_patterns analysis_type outcome language :
  quality_input analysis_type outcome language !! "speech_patterns" = None.
Proof.
  unfold quality_input. destruct (transcribes analysis_type); [|reflexivity].
  destruct outcome; reflexivity.
Qed.

(** X9: Inside [analyze_audio] the quality analysis receives the transcription
    dict, in which the speech patterns are not stored: whatever was said,
    its speech metrics are the defaults (no filler words, "good" clarity,
    no interruptions), the speech score is 100, the overall score is
    [0.6 * audio_score + 40], and neither of the two speech recommendations
    is ever given. *)
Theorem quality_analysis_sees_no_speech_patterns (m : measurements)
    (analysis_type language : string) (outcome : recognition) :
  exists report,
    analyze_call_quality m (quality_input analysis_type outcome language)
    = Some report /\
    report_speech_quality report
    = {| filler_word_usage := inject_Z 0; speech_clarity := "good";
         interruption_frequency := inject_Z 0;
         question_engagement := inject_Z 0 |} /\
    (overall_score report == audio_score m * (6 # 10) + 40)%Q /\
    ("Practice reducing filler words" ∉ recommendations report) /\
    ("Improve conversation flow and listening" ∉ recommendations report).
Proof.
  unfold analyze_call_quality.
  rewrite transcription_has_no_speech_patterns.
  cbn [default py_get assoc mbind result_bind Py.bind as_num num].
  eexists. split; [reflexivity|]. cbn [report_speech_quality overall_score recommendations].
  split; [reflexivity|].
  assert (Hs : (speech_score (inject_Z 0) == 100)%Q) by (vm_compute; reflexivity).
  assert (Ha : (audio_score m * (6 # 10) + speech_score (inject_Z 0) * (4 # 10)
                == audio_score m * (6 # 10) + 40)%Q) by (rewrite Hs; lra).
  split; [exact Ha|].
  change (Qlt_bool 8 (inject_Z 0)) with false.
  change (Qlt_bool 3 (inject_Z 0)) with false.
  rewrite !app_nil_r.
  split; intros Hin;
    destruct (Qlt_bool (clarity_score m) 60), (Qlt_bool (snr_estimate m) 15);
    simpl in Hin;
    repeat (apply elem_of_cons in Hin as [Hin|Hin]; [discriminate|]);
    inversion Hin.
Qed.

(** X10: With samples in [[-1, 1]] (so an RMS energy of at most 1), an SNR
    estimate within [[0, 50]] and a clarity score within [[0, 100]], the
    overall score of a report is at most 82.3: the audio score cannot
    exceed 70.5, and no call is graded "A". *)
Theorem call_quality_never_grades_A (m : measurements)
    (transcript_data : gmap string pyval) (report : quality_report) :
  analyze_call_quality m transcript_data = Some report ->
  (0 <= rms_energy m <= 1)%Q ->
  (0 <= snr_estimate m <= 50)%Q ->
  (0 <= clarity_score m <= 100)%Q ->
  (0 <= filler_word_usage (report_speech_quality report))%Q ->
  (0 <= overall_score report <= 823 # 10)%Q /\
  grade report <> "A".
Proof.
  unfold analyze_call_quality. intros Hrun Hrms Hsnr Hcl.
  destruct (_ ← _; _) as [r|] eqn:Hbody in Hrun; [|discriminate].
  injection Hrun as ->.
  unfold mbind, result_bind in Hbody.
  repeat match type of Hbody with
         | Py.bind ?x _ = _ =>
             let E := fresh "E" in
             destruct x as [?q|] eqn:E; cbn [Py.bind] in Hbody; [|discriminate]
         end.
  injection Hbody as <-.
  cbn [report_speech_quality filler_word_usage overall_score grade].
  intros Hf.
  set (a := audio_score m). set (s := speech_score q).
  assert (Ha : (0 <= a <= 705 # 10)%Q).
  { unfold a, audio_score.
    change (PyNum.dec_Q (PyNum.Dec 4 1)) with (4 # 10).
    change (PyNum.dec_Q (PyNum.Dec 3 1)) with (3 # 10).
    set (x := (clarity_score m * (4 # 10) + snr_estimate m / 30 * (3 # 10)
               + rms_energy m * 100 * (3 # 10))%Q).
    assert (Hx : (0 <= x <= 705 # 10)%Q).
    { unfold x, Qdiv. change (/ 30)%Q with (1 # 30). split; lra. }
    split.
    - apply Q.min_glb; [discriminate|tauto].
    - apply Qle_trans with x; [apply Q.le_min_r|tauto]. }
  assert (Hs : (0 <= s <= 100)%Q).
  { unfold s, speech_score. split; [apply Q.le_max_l|].
    apply Q.max_lub; [discriminate|lra]. }
  change (PyNum.dec_Q (PyNum.Dec 6 1)) with (6 # 10).
  change (PyNum.dec_Q (PyNum.Dec 4 1)) with (4 # 10).
  assert (Ho : (0 <= a * (6 # 10) + s * (4 # 10) <= 823 # 10)%Q) by lra.
  split; [exact Ho|].
  destruct (grade_thresholds (a * (6 # 10) + s * (4 # 10)))
    as [[_ H]|[[-> _]|[[-> _]|[[-> _]|[-> _]]]]]; try discriminate.
  exfalso. lra.
Qed.
End CallQualityFacts.

Lemma grade_is_monotone_witness :
  (72 <= 95)%Q /\
  (CallQuality.grade_rank (CallQuality._score_to_grade 95)
   <= CallQuality.grade_rank (CallQuality._score_to_grade 72))%nat.
Proof.
  split; [discriminate|].
  apply (grade_is_monotone 72 95). discriminate.
Defined.

Lemma call_quality_never_grades_A_witness :
  let m := {| CallQuality.rms_energy := 1; CallQuality.snr_estimate := 50;
              CallQuality.clarity_score := 100 |} in
  exists report,
    CallQuality.analyze_call_quality m ∅ = Some report /\
    (0 <= CallQuality.overall_score report <= 823 # 10)%Q /\
    CallQuality.grade report <> "A".
Proof.
  intros m. eexists. split; [reflexivity|].
  refine (call_quality_never_grades_A m ∅ _ eq_refl _ _ _ _);
    vm_compute; first [split; intro; discriminate | intro; discriminate].
Defined.

(* ===================================================================== *)
(** * Further properties: silence detection *)
(* ===================================================================== *)

Section SilenceFacts.
Import CallQuality Silence.
Variable times : nat -> Q.

Lemma scan_app i m1 m2 st :
  scan times i (m1 ++ m2) st = scan times (i + length m1) m2 (scan times i m1 st).
Proof.
  revert i st. induction m1 as [|b m1 IH]; intros i st; simpl.
  - rewrite Nat.add_0_r. reflexivity.
  - rewrite IH. f_equal. lia.
Qed.

(** Silent frames never close a segment. *)
Lemma scan_silent_frames i m st :
  Forall (fun b => b = true) m ->
  silence_segments (scan times i m st) = silence_segments st.
Proof.
  intros H. revert i st. induction H as [|b m -> _ IH]; intros i st; simpl;
    [reflexivity|].
  rewrite IH. unfold scan_step. simpl. destruct (in_silence st); reflexivity.
Qed.

Lemma silence_mask_quiet quiet threshold :
  Forall (fun e => (e < threshold)%Q) quiet ->
  Forall (fun b => b = true) (silence_mask quiet threshold).
Proof.
  intros H. unfold silence_mask. apply Forall_map.
  eapply Forall_impl; [exact H|]. intros e He. simpl.
  apply Qlt_bool_iff, He.
Qed.

(** X11: A silence that lasts to the end of the recording is never reported:
    frames below the threshold at the end change no segment, and a
    recording that is below the threshold throughout is reported with no
    silence segment and 0 percent of silence. *)
Theorem trailing_silence_is_not_reported (energy quiet : list Q)
    (n_samples sr : Z) (threshold : Q) :
  Forall (fun e => (e < threshold)%Q) quiet ->
  sr <> 0%Z -> n_samples <> 0%Z ->
  segments_of times (energy ++ quiet) threshold = segments_of times energy threshold /\
  exists r,
    detect_silence times quiet n_samples sr threshold = Some r /\
    sa_silence_segments r = [] /\ silence_count r = 0%nat /\
    (total_silence_duration r == 0)%Q /\ (silence_percentage r == 0)%Q.
Proof.
  intros Hq Hsr Hn. apply silence_mask_quiet in Hq.
  assert (Hsegs : forall e, segments_of times (e ++ quiet) threshold
                            = segments_of times e threshold).
  { intros e. unfold segments_of, silence_mask. rewrite map_app, scan_app.
    apply scan_silent_frames, Hq. }
  split; [apply Hsegs|].
  unfold detect_silence.
  destruct (sr =? 0)%Z eqn:E1; [lia|]. destruct (n_samples =? 0)%Z eqn:E2; [lia|].
  simpl. eexists. split; [reflexivity|]. simpl.
  specialize (Hsegs []). simpl in Hsegs. rewrite Hsegs.
  change (segments_of times [] threshold) with (@nil segment). simpl.
  repeat split; reflexivity.
Qed.

End SilenceFacts.

Lemma trailing_silence_is_not_reported_witness :
  let times := fun i : nat => (inject_Z (Z.of_nat i) / 100)%Q in
  Silence.segments_of times ([1%Q; 0%Q; 1%Q] ++ [0%Q; 0%Q]) (1 # 100)
  = Silence.segments_of times [1; 0; 1]%Q (1 # 100).
Proof.
  intros times.
  refine (proj1 (trailing_silence_is_not_reported times [1%Q; 0%Q; 1%Q] [0%Q; 0%Q]
                   16000 16000 (1 # 100) _ _ _)).
  - repeat constructor.
  - discriminate.
  - discriminate.
Defined.

Section SilenceOrder.
Import CallQuality Silence.
Variable times : nat -> Q.
Hypothesis times_increase : forall a b, (a < b)%nat -> (times a < times b)%Q.

Lemma closed_before_mono i j segs :
  (i <= j)%nat -> closed_before times i segs -> closed_before times j segs.
Proof.
  intros Hij H. eapply Forall_impl; [exact H|].
  intros seg (a & b & Hab & Hs). exists a, b. split; [lia|exact Hs].
Qed.

Lemma scan_step_inv i st b :
  scan_inv times i st -> scan_inv times (S i) (scan_step times st i b).
Proof.
  intros (Hclosed & Hord & Hopen). unfold scan_step.
  destruct b, (in_silence st) eqn:Hin; simpl.
  - (* still silent *)
    split; [eapply closed_before_mono; [|exact Hclosed]; lia|].
    split; [exact Hord|]. intros _.
    destruct (Hopen eq_refl) as (j & Hj & Hst & Hall).
    exists j. split; [lia|]. split; assumption.
  - (* a silence opens *)
    split; [eapply closed_before_mono; [|exact Hclosed]; lia|].
    split; [exact Hord|]. intros _. exists i. split; [lia|]. split; [reflexivity|].
    eapply Forall_impl; [exact Hclosed|].
    intros seg (a & c & Hac & _ & -> & _). simpl. apply times_increase. lia.
  - (* a silence closes *)
    destruct (Hopen eq_refl) as (j & Hj & -> & Hall).
    split; [|split; [|discriminate]].
    + apply Forall_app. split; [eapply closed_before_mono; [|exact Hclosed]; lia|].
      constructor; [|constructor]. exists j, i. simpl. split; [lia|]. repeat split.
    + intros p q x y Hpq Hx Hy.
      apply lookup_app_Some in Hy as [Hy|[Hge Hy]].
      * apply lookup_app_Some in Hx as [Hx|[Hgx _]].
        -- eapply Hord; eassumption.
        -- apply lookup_lt_Some in Hy. lia.
      * destruct (q - length (silence_segments st))%nat as [|n] eqn:Hq; [|discriminate].
        injection Hy as <-. simpl.
        apply lookup_app_Some in Hx as [Hx|[Hgx _]]; [|lia].
        rewrite Forall_forall in Hall. apply Hall.
        eapply list_elem_of_lookup_2, Hx.
  - (* still speech *)
    split; [eapply closed_before_mono; [|exact Hclosed]; lia|].
    split; [exact Hord|]. intros Hyes. congruence.
Qed.

Lemma scan_keeps_inv m i st :
  scan_inv times i st -> scan_inv times (i + length m) (scan times i m st).
Proof.
  revert i st. induction m as [|b m IH]; intros i st H; simpl.
  - rewrite Nat.add_0_r. exact H.
  - replace (i + S (length m))%nat with (S i + length m)%nat by lia.
    apply IH, scan_step_inv, H.
Qed.

(** X12: When the frame times increase, the reported silence segments are in
    time order and apart from each other, each runs from the time of a
    silent frame to the time of a later frame, and its duration is positive
    and is the difference of its ends. *)
Theorem silence_segments_in_order (energy : list Q) (threshold : Q) :
  let segs := segments_of times energy threshold in
  Forall (fun seg =>
            (seg_start seg < seg_end seg)%Q /\
            seg_duration seg = (seg_end seg - seg_start seg)%Q /\
            exists a b, (a < b < length energy)%nat /\
              seg_start seg = times a /\ seg_end seg = times b) segs /\
  forall j k x y, (j < k)%nat -> segs !! j = Some x -> segs !! k = Some y ->
    (seg_end x < seg_start y)%Q.
Proof.
  intros segs.
  assert (H : scan_inv times (0 + length (silence_mask energy threshold))
                (scan times 0 (silence_mask energy threshold) scan_start)).
  { apply scan_keeps_inv. split; [constructor|]. split; [|discriminate].
    intros j k x y _ Hx. inversion Hx. }
  destruct H as (Hclosed & Hord & _). split; [|exact Hord].
  eapply Forall_impl; [exact Hclosed|].
  intros seg (a & b & Hab & Hs & He & Hd).
  unfold silence_mask in Hab. rewrite length_map in Hab. simpl in Hab.
  rewrite Hs, He, Hd. split; [apply times_increase; lia|].
  split; [reflexivity|]. exists a, b. split; [lia|]. split; reflexivity.
Qed.
End SilenceOrder.

Lemma hundredths_increase (a b : nat) :
  (a < b)%nat -> (inject_Z (Z.of_nat a) / 100 < inject_Z (Z.of_nat b) / 100)%Q.
Proof.
  intros H. unfold Qdiv. apply Qmult_lt_compat_r; [reflexivity|].
  rewrite <- Zlt_Qlt. lia.
Qed.

Lemma silence_segments_in_order_witness :
  let times := fun i : nat => (inject_Z (Z.of_nat i) / 100)%Q in
  let segs := Silence.segments_of times [1%Q; 0%Q; 0%Q; 1%Q; 0%Q; 1%Q] (1 # 100) in
  length segs = 2%nat /\
  forall j k x y, (j < k)%nat -> segs !! j = Some x -> segs !! k = Some y ->
    (Silence.seg_end x < Silence.seg_start y)%Q.
Proof.
  intros times segs. split; [reflexivity|].
  exact (proj2 (silence_segments_in_order times hundredths_increase
                  [1%Q; 0%Q; 0%Q; 1%Q; 0%Q; 1%Q] (1 # 100))).
Defined.

(* ===================================================================== *)
(** * Further properties: assessing a stored analysis *)
(* ===================================================================== *)

Section AssessmentFacts.
Import Py CallQuality CallAssessment.
Variable stored : string -> option (result pyval).
Variable now : string.

Lemma assess_metric_unknown audio_data quality_analysis scores metric :
  metric ∉ default_quality_metrics ->
  assess_metric audio_data quality_analysis scores metric = Return scores.
Proof.
  intros Hnot. unfold assess_metric.
  repeat match goal with
         | |- context [String.eqb metric ?s] =>
             let E := fresh "E" in
             destruct (String.eqb metric s) eqn:E;
             [apply String.eqb_eq in E; subst metric; exfalso; apply Hnot;
              unfold default_quality_metrics; set_solver|]
         end.
  reflexivity.
Qed.

Lemma assess_metrics_unknown audio_data quality_analysis scores metrics :
  Forall (fun metric => metric ∉ default_quality_metrics) metrics ->
  assess_metrics audio_data quality_analysis scores metrics = Return scores.
Proof.
  induction 1 as [|metric metrics Hm _ IH]; simpl; [reflexivity|].
  rewrite assess_metric_unknown by exact Hm. exact IH.
Qed.

(** X13: A request that names no known metric (an empty list, or names other
    than the five) on a stored analysis is answered with the failure
    "division by zero": the average is taken over no score. *)
Theorem unknown_metrics_divide_by_zero (request : CallQualityRequest)
    (analysis : list (string * pyval)) :
  stored (audio_id request) = Some (Return (VDict analysis)) ->
  Forall (fun metric => metric ∉ default_quality_metrics) (quality_metrics request) ->
  assess_call_quality stored now request = NotAssessed "division by zero".
Proof.
  intros Hstored Hm. unfold assess_call_quality. rewrite Hstored.
  unfold mbind, result_bind. cbn [Py.bind py_get].
  rewrite assess_metrics_unknown by exact Hm. reflexivity.
Qed.

Lemma pace_score_gap (wpm : Q) :
  (pace_score wpm == 100)%Q \/ (0 <= pace_score wpm < 40)%Q.
Proof.
  unfold pace_score.
  destruct (Qle_bool 120 wpm) eqn:E1; cbn [andb].
  - destruct (Qle_bool wpm 180) eqn:E2; [left; reflexivity|].
    right. apply Qle_bool_false in E2. split; [apply Q.le_max_l|].
    apply Q.max_lub_lt; [reflexivity|].
    pose proof (Qle_Qabs (wpm - 150)). lra.
  - right. apply Qle_bool_false in E1. split; [apply Q.le_max_l|].
    apply Q.max_lub_lt; [reflexivity|].
    pose proof (Qle_Qabs (- (wpm - 150))). rewrite Qabs_opp in H. lra.
Qed.

(** X14: An assessment of the pace alone scores 100 (grade "A") when the pace is
    within 120 to 180 words a minute, and below 40 (grade "F") otherwise:
    no pace gives a grade in between. *)
Theorem pace_alone_grades_A_or_F (request : CallQualityRequest)
    (id : string) (qa : quality_assessment) :
  quality_metrics request = ["pace"] ->
  assess_call_quality stored now request = Assessed id qa ->
  ((qa_overall_score qa == 100)%Q /\ qa_grade qa = "A") \/
  ((0 <= qa_overall_score qa < 40)%Q /\ qa_grade qa = "F").
Proof.
  intros Hm. unfold assess_call_quality. rewrite Hm.
  destruct (stored (audio_id request)) as [[audio_data|e]|]; try discriminate.
  unfold mbind, result_bind. cbn [Py.bind].
  destruct (py_get audio_data "quality_analysis" _) as [quality_analysis|];
    cbn [Py.bind]; [|discriminate].
  cbn [assess_metrics]. unfold mbind, result_bind.
  change (assess_metric audio_data quality_analysis [] "pace")
    with (Py.bind (py_get audio_data "transcription" (VDict []))
            (fun tr => Py.bind (py_get tr "word_count" (VInt 0))
            (fun word_count =>
               Py.bind (py_get audio_data "duration_seconds" (VInt 1))
            (fun duration_seconds =>
               Py.bind (words_per_minute word_count duration_seconds)
            (fun wpm => Return (dict_set [] "pace" (Computed (pace_score wpm)))))))).
  destruct (py_get audio_data "transcription" _) as [tr|]; cbn [Py.bind]; [|discriminate].
  destruct (py_get tr "word_count" _) as [wc|]; cbn [Py.bind]; [|discriminate].
  destruct (py_get audio_data "duration_seconds" _) as [d|]; cbn [Py.bind]; [|discriminate].
  destruct (words_per_minute wc d) as [wpm|]; cbn [Py.bind]; [|discriminate].
  cbn [dict_set sum_scores score_num length Nat.eqb].
  unfold mbind, result_bind. cbn [Py.bind].
  destruct (match agent_guidelines request with
            | Some (g :: gs) => _ | _ => _ end) as [recs|]; cbn [Py.bind];
    [|discriminate].
  intros [= _ <-]. cbn [qa_overall_score qa_grade].
  set (avg := ((0 + pace_score wpm) / inject_Z (Z.of_nat 1))%Q).
  assert (Havg : (avg == pace_score wpm)%Q) by (unfold avg; simpl; field).
  destruct (pace_score_gap wpm) as [H|H].
  - left. split; [rewrite Havg; exact H|].
    destruct (grade_thresholds avg) as [[-> _]|[[_ G]|[[_ G]|[[_ G]|[_ G]]]]];
      [reflexivity|exfalso; lra..].
  - right. split; [rewrite Havg; exact H|].
    destruct (grade_thresholds avg) as [[_ G]|[[_ G]|[[_ G]|[[_ G]|[-> _]]]]];
      [exfalso; lra..|reflexivity].
Qed.
End AssessmentFacts.

Lemma unknown_metrics_divide_by_zero_witness :
  CallAssessment.assess_call_quality
    (fun _ => Some (Py.Return (Py.VDict [("duration_seconds", Py.VInt 60)])))
    "2024-01-01T00:00:00"
    {| CallAssessment.audio_id := "a1";
       CallAssessment.quality_metrics := ["tone"];
       CallAssessment.agent_guidelines := None |}
  = CallAssessment.NotAssessed "division by zero".
Proof.
  apply (unknown_metrics_divide_by_zero _ _ _ [("duration_seconds", Py.VInt 60)]).
  - reflexivity.
  - constructor; [|constructor]. apply (bool_decide_unpack _). vm_compute. exact I.
Defined.

Lemma pace_alone_grades_A_or_F_witness :
  exists qa,
    let request := {| CallAssessment.audio_id := "a1";
                      CallAssessment.quality_metrics := ["pace"];
                      CallAssessment.agent_guidelines := None |} in
    let stored := fun _ : string =>
      Some (Py.Return (Py.VDict
        [("duration_seconds", Py.VInt 60);
         ("transcription", Py.VDict [("word_count", Py.VInt 110)])])) in
    CallAssessment.assess_call_quality stored "2024-01-01T00:00:00" request
    = CallAssessment.Assessed "a1" qa /\
    (((CallAssessment.qa_overall_score qa == 100)%Q /\ CallAssessment.qa_grade qa = "A") \/
     ((0 <= CallAssessment.qa_overall_score qa < 40)%Q /\ CallAssessment.qa_grade qa = "F")).
Proof.
  eexists. intros request stored. split; [reflexivity|].
  apply (pace_alone_grades_A_or_F stored "2024-01-01T00:00:00" request "a1");
    reflexivity.
Defined.

(* ===================================================================== *)
(** * Further properties: keyword counts *)
(* ===================================================================== *)

Section SentimentFacts.
Import Py CallQuality Sentiment.

Lemma max_key_spec (rest : list (string * Q)) (best : string) (best_value : Q) :
  exists p,
    ((max_key best best_value rest, p) = (best, best_value)
     \/ (max_key best best_value rest, p) ∈ rest) /\
    (best_value <= p)%Q /\
    Forall (fun kv => (snd kv <= p)%Q) rest.
Proof.
  revert best best_value. induction rest as [|[k v] rest IH]; intros best bv; simpl.
  - exists bv. split; [left; reflexivity|]. split; [apply Qle_refl|constructor].
  - destruct (Qlt_bool bv v) eqn:E.
    + apply Qlt_bool_iff in E. destruct (IH k v) as (p & Hin & Hle & Hall).
      exists p. split; [|split].
      * right. destruct Hin as [->|Hin]; [left|right; exact Hin].
      * apply Qlt_le_weak. eapply Qlt_le_trans; eassumption.
      * constructor; assumption.
    + assert (Hv : (v <= bv)%Q).
      { unfold Qlt_bool in E. apply negb_false_iff in E. apply Qle_bool_iff, E. }
      destruct (IH best bv) as (p & Hin & Hle & Hall).
      exists p. split; [|split].
      * destruct Hin as [Hin|Hin]; [left; exact Hin|right; right; exact Hin].
      * exact Hle.
      * constructor; [simpl; eapply Qle_trans; eassumption|exact Hall].
Qed.

End SentimentFacts.

Section OccurrenceFacts.
Import Text.

Lemma prefix_app (sub post : string) : String.prefix sub (sub ++ post) = true.
Proof.
  induction sub as [|a sub IH]; [destruct post; reflexivity|].
  simpl. destruct (Ascii.ascii_dec a a); [exact IH|contradiction].
Qed.

Lemma prefix_true (sub t : string) :
  String.prefix sub t = true -> exists post : string, t = (sub ++ post)%string.
Proof.
  revert t. induction sub as [|a sub IH]; intros t.
  - intros _. exists t. reflexivity.
  - destruct t as [|b t]; [discriminate|]. simpl.
    destruct (Ascii.ascii_dec a b) as [->|]; [|discriminate].
    intros H. destruct (IH t H) as [post ->]. exists post. reflexivity.
Qed.

Lemma occurs_later (sub : string) c (s : string) :
  occurs sub s -> occurs sub (String c s).
Proof. intros (pre & post & ->). exists (String c pre), post. reflexivity. Qed.

Lemma occurs_cons_inv (sub : string) c (s : string) :
  occurs sub (String c s) ->
  String.prefix sub (String c s) = true \/ occurs sub s.
Proof.
  intros (pre & post & H). destruct pre as [|p pre].
  - left. change (String c s = (sub ++ post)%string) in H. rewrite H.
    apply prefix_app.
  - right. change (String c s = String p (pre ++ sub ++ post)%string) in H.
    injection H as _ ->. exists pre, post. reflexivity.
Qed.

Lemma not_occurs_in_empty (sub : string) : sub <> "" -> ~ occurs sub "".
Proof.
  intros Hne (pre & post & H). destruct pre; [|discriminate].
  destruct sub; [contradiction|discriminate].
Qed.

(** The scan counts at least one occurrence exactly when there is one. *)
Lemma count_from_pos (sub s : string) :
  sub <> "" -> ((0 < count_from sub 0 s)%nat <-> occurs sub s).
Proof.
  intros Hne. induction s as [|c s IH].
  - simpl. split; [lia|]. intros H. destruct (not_occurs_in_empty sub Hne H).
  - cbn [count_from]. destruct (String.prefix sub (String c s)) eqn:E.
    + split; [|lia]. intros _. destruct (prefix_true _ _ E) as [post ->].
      exists "", post. reflexivity.
    + split.
      * intros H. apply occurs_later, IH, H.
      * intros H. apply occurs_cons_inv in H as [H|H]; [congruence|].
        apply IH, H.
Qed.

(** [s.count(sub) > 0] exactly when [sub in s]. *)
Lemma str_count_pos (s sub : string) :
  (0 < str_count s sub)%nat <-> occurs sub s.
Proof.
  destruct sub as [|a sub].
  - simpl. split; [|lia]. intros _. exists "", s. reflexivity.
  - apply (count_from_pos (String a sub) s). discriminate.
Qed.

Lemma count_all_from (text : string) (words : list string) (acc : nat) :
  (0 < foldl (fun acc word => (acc + str_count text word)%nat) acc words)%nat
  <-> (0 < acc)%nat \/ exists word, word ∈ words /\ occurs word text.
Proof.
  revert acc. induction words as [|w words IH]; intros acc; simpl.
  - split; [intros H; left; exact H|]. intros [H|(w & Hw & _)]; [exact H|].
    inversion Hw.
  - rewrite IH. split.
    + intros [H|(w' & Hw' & Ho)].
      * destruct (Nat.eq_dec acc 0) as [->|]; [|left; lia].
        right. exists w. split; [left|]. apply str_count_pos. lia.
      * right. exists w'. split; [right; exact Hw'|exact Ho].
    + intros [H|(w' & Hw' & Ho)]; [left; lia|].
      apply elem_of_cons in Hw' as [->|Hw'].
      * left. apply str_count_pos in Ho. lia.
      * right. exists w'. split; assumption.
Qed.

(** The summed counts of a keyword list are positive exactly when one of
    the keywords occurs in the text. *)
Lemma count_all_pos (text : string) (words : list string) :
  (0 < count_all text words)%nat
  <-> exists word, word ∈ words /\ occurs word text.
Proof.
  unfold count_all. rewrite count_all_from. split; [|intros H; right; exact H].
  intros [H|H]; [lia|exact H].
Qed.
End OccurrenceFacts.

Section EmotionFacts.
Import Py CallQuality Sentiment.
Variable str_lower : string -> string.

Lemma sum_percentages_scaled (scores : list (string * nat)) (T : Q) :
  (sum_percentages
     (map (fun kv => (fst kv, (inject_Z (Z.of_nat (snd kv)) / T * 100)%Q)) scores)
   == inject_Z (Z.of_nat (sum_values scores)) / T * 100)%Q.
Proof.
  induction scores as [|[k n] scores IH]; simpl.
  - unfold Qdiv. ring.
  - rewrite IH, Nat2Z.inj_add, inject_Z_plus. unfold Qdiv. ring.
Qed.

Lemma sum_values_pos (scores : list (string * nat)) :
  (0 < sum_values scores)%nat <-> exists kv, kv ∈ scores /\ (0 < snd kv)%nat.
Proof.
  induction scores as [|[k n] scores IH]; simpl.
  - split; [lia|]. intros (kv & Hkv & _). inversion Hkv.
  - split.
    + intros H. destruct (Nat.eq_dec n 0) as [->|].
      * destruct (proj1 IH) as (kv & Hkv & Hpos); [lia|].
        exists kv. split; [right; exact Hkv|exact Hpos].
      * exists (k, n). split; [left|simpl; lia].
    + intros (kv & Hkv & Hpos). apply elem_of_cons in Hkv as [->|Hkv].
      * simpl in Hpos. lia.
      * assert (0 < sum_values scores)%nat by (apply IH; exists kv; auto). lia.
Qed.

Lemma share_pos (n T : nat) :
  (0 < n)%nat -> (0 < T)%nat ->
  (0 < inject_Z (Z.of_nat n) / inject_Z (Z.of_nat T) * 100)%Q.
Proof.
  intros Hn HT. unfold Qdiv.
  apply Qmult_lt_0_compat; [|reflexivity].
  apply Qmult_lt_0_compat.
  - change 0%Q with (inject_Z 0). rewrite <- Zlt_Qlt. lia.
  - apply Qinv_lt_0_compat. change 0%Q with (inject_Z 0). rewrite <- Zlt_Qlt. lia.
Qed.

Lemma share_of_zero (T : nat) :
  (inject_Z (Z.of_nat 0) / inject_Z (Z.of_nat T) * 100 == 0)%Q.
Proof. unfold Qdiv. change (inject_Z (Z.of_nat 0)) with 0%Q. ring. Qed.

Lemma normalise_spec (k0 : string) (n0 : nat) (rest : list (string * nat)) :
  let r := normalise ((k0, n0) :: rest) in
  emotion_scores r = (k0, n0) :: rest /\
  map fst (emotion_percentages r) = map fst ((k0, n0) :: rest) /\
  ((sum_values ((k0, n0) :: rest) = 0%nat /\ dominant_emotion r = "neutral" /\
    Forall (fun kv => snd kv = 0%Q) (emotion_percentages r))
   \/
   ((0 < sum_values ((k0, n0) :: rest))%nat /\
    (sum_percentages (emotion_percentages r) == 100)%Q /\
    exists n p,
      (dominant_emotion r, n) ∈ (k0, n0) :: rest /\ (0 < n)%nat /\
      (dominant_emotion r, p) ∈ emotion_percentages r /\
      Forall (fun kv => (snd kv <= p)%Q) (emotion_percentages r))).
Proof.
  intros r. unfold r, normalise.
  set (scores := (k0, n0) :: rest).
  destruct (0 <? sum_values scores)%nat eqn:E;
    cbn [emotion_scores emotion_percentages dominant_emotion].
  - apply Nat.ltb_lt in E. split; [reflexivity|].
    split; [rewrite map_map; reflexivity|]. right.
    split; [exact E|]. split.
    + rewrite sum_percentages_scaled. field.
      intros H. unfold Qeq in H. cbn [Qnum Qden inject_Z] in H. lia.
    + set (T := sum_values scores) in *.
      set (pct := fun kv : string * nat =>
                    (fst kv,
                     (inject_Z (Z.of_nat (snd kv)) / inject_Z (Z.of_nat T) * 100)%Q)).
      change (map pct scores) with (pct (k0, n0) :: map pct rest).
      change (pct (k0, n0)) with (k0, snd (pct (k0, n0))).
      set (v0 := snd (pct (k0, n0))).
      destruct (max_key_spec (map pct rest) k0 v0) as (p & Hin & Hle & Hall).
      set (dom := max_key k0 v0 (map pct rest)) in *.
      assert (Hmax : Forall (fun kv => (snd kv <= p)%Q) ((k0, v0) :: map pct rest))
        by (constructor; assumption).
      assert (Hp : (0 < p)%Q).
      { apply sum_values_pos in E as ([k n] & Hkv & Hpos). simpl in Hpos.
        assert (Hk : pct (k, n) ∈ (k0, v0) :: map pct rest).
        { change ((k0, v0) :: map pct rest) with (map pct scores).
          apply list_elem_of_fmap_2. exact Hkv. }
        rewrite Forall_forall in Hmax. specialize (Hmax _ Hk). simpl in Hmax.
        eapply Qlt_le_trans; [|exact Hmax]. apply share_pos; [exact Hpos|].
        unfold T. apply sum_values_pos. exists (k, n). split; [exact Hkv|exact Hpos]. }
      assert (Hdom : (dom, p) ∈ (k0, v0) :: map pct rest).
      { destruct Hin as [Hin|Hin]; [rewrite Hin; left|right; exact Hin]. }
      assert (Hsrc : exists n, (dom, n) ∈ scores /\ p = snd (pct (dom, n))).
      { change ((k0, v0) :: map pct rest) with (map pct scores) in Hdom.
        apply list_elem_of_fmap_1 in Hdom as ([k n] & Heq & Hkv).
        injection Heq as -> ->. exists n. split; [exact Hkv|reflexivity]. }
      destruct Hsrc as (n & Hn & Hpn).
      exists n, p. split; [exact Hn|]. split; [|split; [exact Hdom|exact Hmax]].
      destruct n as [|n]; [|lia]. exfalso.
      rewrite Hpn in Hp. simpl in Hp. rewrite share_of_zero in Hp.
      exact (Qlt_irrefl 0 Hp).
  - apply Nat.ltb_ge in E. split; [reflexivity|].
    split; [rewrite map_map; reflexivity|]. left.
    split; [lia|]. split; [reflexivity|].
    apply Forall_map. apply Forall_true. reflexivity.
Qed.

(** X15: Whatever the text, with [text.lower()] as [str_lower text]: the
    scores are the keyword counts and the percentages are given for the
    six emotions in their order.  When no keyword of any emotion occurs in
    the lowered text, the percentages are all 0 and the dominant emotion
    is "neutral".  When one occurs, the percentages add up to 100 and the
    dominant emotion is one of the six, a keyword of which occurs in the
    lowered text, and whose percentage none exceeds. *)
Theorem dominant_emotion_has_the_top_share (text : string) :
  let r := _analyze_emotions str_lower text in
  emotion_scores r
  = map (fun '(emotion, keywords) =>
           (emotion, Text.count_all (str_lower text) keywords)) emotion_patterns /\
  map fst (emotion_percentages r)
  = ["joy"; "anger"; "sadness"; "fear"; "surprise"; "trust"] /\
  (((forall emotion, ~ emotion_keyword_in emotion (str_lower text)) /\
    dominant_emotion r = "neutral" /\
    Forall (fun kv => snd kv = 0%Q) (emotion_percentages r))
   \/
   ((exists emotion, emotion_keyword_in emotion (str_lower text)) /\
    (sum_percentages (emotion_percentages r) == 100)%Q /\
    emotion_keyword_in (dominant_emotion r) (str_lower text) /\
    exists p, (dominant_emotion r, p) ∈ emotion_percentages r /\
      Forall (fun kv => (snd kv <= p)%Q) (emotion_percentages r))).
Proof.
  intros r.
  set (scores := map (fun '(emotion, keywords) =>
                        (emotion, Text.count_all (str_lower text) keywords))
                     emotion_patterns).
  assert (Hlink : forall emotion n, (emotion, n) ∈ scores -> (0 < n)%nat ->
                    emotion_keyword_in emotion (str_lower text)).
  { intros emotion n Hin Hpos. unfold scores in Hin.
    apply list_elem_of_fmap_1 in Hin as ([e kws] & Heq & Hpat).
    injection Heq as -> ->. apply count_all_pos in Hpos as (kw & Hkw & Ho).
    exists kws, kw. split; [exact Hpat|]. split; assumption. }
  assert (Hback : forall emotion, emotion_keyword_in emotion (str_lower text) ->
                    (0 < sum_values scores)%nat).
  { intros emotion (kws & kw & Hpat & Hkw & Ho). apply sum_values_pos.
    exists (emotion, Text.count_all (str_lower text) kws). split.
    - unfold scores.
      apply (list_elem_of_fmap_2
               (fun '(emotion, keywords) =>
                  (emotion, Text.count_all (str_lower text) keywords))
               emotion_patterns (emotion, kws)). exact Hpat.
    - simpl. apply count_all_pos. exists kw. split; assumption. }
  assert (Hspec : r = normalise scores) by reflexivity.
  unfold scores, emotion_patterns in Hspec. cbn [map] in Hspec.
  match type of Hspec with
  | r = normalise ((?k, ?n) :: ?rest) =>
      destruct (normalise_spec k n rest) as (Hscores & Hkeys & Hcases);
      rewrite <- Hspec in Hscores, Hkeys, Hcases;
      change ((k, n) :: rest) with scores in Hscores, Hcases
  end.
  split; [exact Hscores|]. split; [exact Hkeys|].
  destruct Hcases as [(Hzero & Hneutral & Hall)|(Hpos & Hsum & n & p & Hn & Hnpos & Hp & Hmax)].
  - left. split; [|split; assumption].
    intros emotion Hocc. apply Hback in Hocc. lia.
  - right. split.
    + apply sum_values_pos in Hpos as ([e m] & Hin & Hm).
      exists e. exact (Hlink e m Hin Hm).
    + split; [exact Hsum|]. split; [exact (Hlink _ n Hn Hnpos)|].
      exists p. split; assumption.
Qed.

(** X16: A transcript with none of the resolution, escalation and emotion
    keywords is rated "low", with a score of at most 56, whenever the
    stored overall quality score is at most 100 (a quality impact of at
    most 6). *)
Theorem call_without_keywords_is_rated_low (transcript : string)
    (audio_data : pyval) (r : satisfaction) :
  _analyze_customer_satisfaction str_lower transcript audio_data = Some r ->
  resolution_indicators r = 0%nat ->
  escalation_indicators r = 0%nat ->
  positive_emotions r = 0%nat ->
  negative_emotions r = 0%nat ->
  (quality_impact r <= 6)%Q ->
  satisfaction_level r = "low" /\ (satisfaction_score r <= 56)%Q.
Proof.
  unfold _analyze_customer_satisfaction. intros Hrun.
  destruct (_ ← _; _) as [r'|] eqn:Hbody in Hrun; [|discriminate].
  injection Hrun as ->.
  unfold mbind, result_bind in Hbody.
  repeat match type of Hbody with
         | Py.bind ?x _ = _ =>
             let E := fresh "E" in
             destruct x as [?q|] eqn:E; cbn [Py.bind] in Hbody; [|discriminate]
         end.
  injection Hbody as <-.
  cbn [resolution_indicators escalation_indicators positive_emotions
       negative_emotions quality_impact satisfaction_level satisfaction_score].
  intros -> -> -> -> Hq.
  change (PyNum.dec_Q (PyNum.Dec 2 1)) with (2 # 10) in *.
  set (adj := ((q1 - 70) * (2 # 10))%Q) in *.
  set (s := Qmax 0 (Qmin 100 (50 + Qnat 0 * 10 - Qnat 0 * 15
                              + (Qnat 0 - Qnat 0) * 5 + adj))%Q).
  assert (Hs : (s <= 56)%Q).
  { unfold s. apply Q.max_lub; [discriminate|].
    eapply Qle_trans; [apply Q.le_min_r|]. unfold Qnat.
    change (inject_Z (Z.of_nat 0)) with 0%Q. lra. }
  split; [|exact Hs].
  destruct (Qle_bool 80 s) eqn:E80; [apply Qle_bool_iff in E80; exfalso; lra|].
  destruct (Qle_bool 60 s) eqn:E60; [apply Qle_bool_iff in E60; exfalso; lra|].
  reflexivity.
Qed.
End EmotionFacts.

(** [dominant_emotion_has_the_top_share] on a short call: "angry" and
    "upset" make anger and sadness share the first place, and anger, the
    earlier of the two, is the dominant emotion. *)
Example emotions_of_a_short_call :
  Sentiment.dominant_emotion
    (Sentiment._analyze_emotions Text.lower_ascii_text
       "I am ANGRY and upset about this")
  = "anger".
Proof. vm_compute. reflexivity. Qed.

Lemma call_without_keywords_is_rated_low_witness :
  exists r,
    Sentiment._analyze_customer_satisfaction Text.lower_ascii_text
      "Hello, I am calling about my bill"
      (Py.VDict [("quality_analysis", Py.VDict [("overall_score", Py.VInt 82)])])
    = Some r /\
    Sentiment.satisfaction_level r = "low" /\ (Sentiment.satisfaction_score r <= 56)%Q.
Proof.
  eexists. split; [reflexivity|].
  refine (call_without_keywords_is_rated_low Text.lower_ascii_text
            "Hello, I am calling about my bill"
            (Py.VDict [("quality_analysis", Py.VDict [("overall_score", Py.VInt 82)])])
            _ eq_refl _ _ _ _ _);
    [reflexivity|reflexivity|reflexivity|reflexivity|].
  vm_compute. intro; discriminate.
Defined.

(* ===================================================================== *)
(** * Further properties: code execution *)
(* ===================================================================== *)

Section TruncatedLogs.
Import Financial.

Lemma string_length_app (s1 s2 : string) :
  String.length (s1 ++ s2)%string = (String.length s1 + String.length s2)%nat.
Proof. induction s1 as [|c s1 IH]; simpl; [reflexivity|]. rewrite IH. reflexivity. Qed.

Lemma substring_all (s : string) : String.substring 0 (String.length s) s = s.
Proof. induction s as [|c s IH]; simpl; [reflexivity|]. rewrite IH. reflexivity. Qed.

Lemma substring_tail (s : string) (n : nat) :
  (n <= String.length s)%nat ->
  exists pre : string,
    s = (pre ++ String.substring n (String.length s - n) s)%string /\
    String.length pre = n.
Proof.
  revert n. induction s as [|c s IH]; intros n Hn.
  - simpl in Hn. assert (n = 0%nat) as -> by lia. exists "". split; reflexivity.
  - destruct n as [|n].
    + exists "". rewrite Nat.sub_0_r, substring_all. split; reflexivity.
    + simpl in Hn. destruct (IH n) as (pre & Hpre & Hlen); [lia|].
      exists (String c pre). simpl. split.
      { change (String c s
                = String c (pre ++ String.substring n (String.length s - n) s)%string).
        f_equal. exact Hpre. }
      rewrite Hlen. reflexivity.
Qed.

(** X17: [s[-1000:]] keeps the end of the text: the text is a prefix followed
    by what is kept, and what is kept has the length of the text when that
    is at most 1000 and 1000 otherwise. *)
Theorem last_1000_keeps_the_end (s : string) :
  exists pre : string,
    s = (pre ++ last_1000 s)%string /\
    String.length (last_1000 s) = Nat.min (String.length s) 1000.
Proof.
  unfold last_1000. destruct (String.length s <=? 1000)%nat eqn:E.
  - apply Nat.leb_le in E. exists "". split; [reflexivity|lia].
  - apply Nat.leb_gt in E.
    destruct (substring_tail s (String.length s - 1000)) as (pre & Hpre & Hlen); [lia|].
    replace (String.length s - (String.length s - 1000))%nat with 1000%nat in Hpre by lia.
    exists pre. split; [exact Hpre|].
    apply (f_equal String.length) in Hpre. rewrite string_length_app, Hlen in Hpre. lia.
Qed.
End TruncatedLogs.

Section ExecutionTraces.
Import Py Financial.
Variable docker_client : option DockerClient.
Variable make_tmpdir : result unit.
Variable cleanup_tmpdir : result unit.
Variable write_text : string -> result unit.
Variable containers_run : string -> result unit.
Variable container_wait : option Z -> result Z.
Variable container_logs : result string.
Variable container_remove : result unit.
Variable create_subprocess_exec : string -> result unit.
Variable wait_for_communicate :
  string -> option Z -> result (string * string * Z).
Variable proc_kill : result unit.
Variable collect_outputs : result pyval.
Variable parse_metrics : string -> pyval.

Abbreviation run_in_docker :=
  (_execute_in_docker make_tmpdir cleanup_tmpdir write_text containers_run
     container_wait container_logs container_remove collect_outputs
     parse_metrics).
Abbreviation run_subprocess :=
  (_execute_subprocess make_tmpdir cleanup_tmpdir write_text
     create_subprocess_exec wait_for_communicate proc_kill collect_outputs
     parse_metrics).
Abbreviation run_code :=
  (execute_code docker_client make_tmpdir cleanup_tmpdir write_text
     containers_run container_wait container_logs container_remove
     create_subprocess_exec wait_for_communicate proc_kill collect_outputs
     parse_metrics).

(** X18: In a container the answer says [success: True] whatever the exit
    status of the code: the status is only passed on as [exit_code]. *)
Theorem docker_success_whatever_the_exit_code (request : CodeExecutionRequest)
    (tr : list event) (status : Z) (logs : string) (outputs : pyval) :
  sandbox request = true -> is_Some docker_client ->
  make_tmpdir = Return tt ->
  write_text (code request) = Return tt ->
  containers_run (code request) = Return tt ->
  container_wait (timeout request) = Return status ->
  container_logs = Return logs ->
  container_remove = Return tt ->
  collect_outputs = Return outputs ->
  cleanup_tmpdir = Return tt ->
  exists r,
    run_code request tr
    = (tr ++ [WriteCode (code request);
              ContainersRun SANDBOX_IMAGE "python /code/analysis.py";
              ContainerWait (timeout request); ContainerRemove],
       Return r) /\
    r !! "success" = Some (VBool true) /\
    r !! "exit_code" = Some (VInt status) /\
    r !! "logs" = Some (VStr (last_1000 logs)).
Proof.
  intros Hs Hd Hmk Hw Hr Hwait Hl Hrm Hout Hcl.
  rewrite run_code_in_docker by assumption.
  unfold Financial._execute_in_docker, with_TemporaryDirectory, try_except,
    bindM, emit, lift, ret.
  rewrite Hmk, Hw, Hr, Hwait, Hl, Hrm, Hout, Hcl. cbn.
  eexists. split; [rewrite <- !app_assoc; reflexivity|].
  split; [reflexivity|]. split; reflexivity.
Qed.

(** X19: When waiting for the container fails (the time is up, for one),
    the container is neither stopped nor removed, and the answer is the
    failure "Docker execution failed: ..." and not "Execution timeout":
    with the text of the wait's error, or with that of the removal of the
    temporary directory when this fails as well. *)
Theorem docker_wait_failure_leaves_the_container (request : CodeExecutionRequest)
    (tr : list event) (e : exn) :
  sandbox request = true -> is_Some docker_client ->
  make_tmpdir = Return tt ->
  write_text (code request) = Return tt ->
  containers_run (code request) = Return tt ->
  container_wait (timeout request) = Raise e ->
  derives_Exception e = true ->
  fst (run_code request tr)
  = tr ++ [WriteCode (code request);
           ContainersRun SANDBOX_IMAGE "python /code/analysis.py";
           ContainerWait (timeout request)] /\
  (cleanup_tmpdir = Return tt ->
   run_code request tr
   = (tr ++ [WriteCode (code request);
             ContainersRun SANDBOX_IMAGE "python /code/analysis.py";
             ContainerWait (timeout request)],
      Return (error_response ("Docker execution failed: " ++ exn_str e)))) /\
  (forall e', cleanup_tmpdir = Raise e' -> derives_Exception e' = true ->
   snd (run_code request tr)
   = Return (error_response ("Docker execution failed: " ++ exn_str e'))).
Proof.
  intros Hs Hd Hmk Hw Hr Hwait He.
  rewrite run_code_in_docker by assumption.
  unfold Financial._execute_in_docker, with_TemporaryDirectory, try_except,
    bindM, emit, lift, ret.
  rewrite Hmk, Hw, Hr, Hwait. cbn.
  destruct cleanup_tmpdir as [[]|ec]; cbn.
  - rewrite He. cbn. split; [rewrite <- !app_assoc; reflexivity|].
    split; [intros _; rewrite <- !app_assoc; reflexivity|].
    intros e' [=].
  - destruct (derives_Exception ec) eqn:Hec; cbn;
      (split; [rewrite <- !app_assoc; reflexivity|]);
      (split; [intros [=]|]);
      intros e' [= <-] He'; [reflexivity|congruence].
Qed.

Lemma not_kill_in (tr : list event) (evs : list event) :
  ProcKill ∉ tr -> ProcKill ∈ tr ++ evs -> ProcKill ∈ evs.
Proof. intros Hn Hin. apply elem_of_app in Hin as [Hin|Hin]; [contradiction|exact Hin]. Qed.

Lemma forallb_elem {A} (f : A -> bool) (l : list A) (x : A) :
  forallb f l = true -> x ∈ l -> f x = true.
Proof.
  induction l as [|a l IH]; simpl; intros H Hin; [inversion Hin|].
  apply andb_true_iff in H as [Ha Hl].
  apply elem_of_cons in Hin as [->|Hin]; [exact Ha|apply IH; assumption].
Qed.

(** Whatever the world does, the Docker path adds only events of its
    own. *)
Lemma docker_run_only_docker_events c limit tr :
  exists evs,
    fst (run_in_docker c limit tr) = tr ++ evs /\
    forallb is_docker_event evs = true.
Proof.
  unfold Financial._execute_in_docker, with_TemporaryDirectory, try_except,
    bindM, emit, lift, ret.
  destruct make_tmpdir as [[]|em]; cbn.
  2:{ exists []. destruct (derives_Exception em); cbn;
      (split; [symmetry; apply app_nil_r|reflexivity]). }
  repeat match goal with
         | |- context [match ?x with Return _ => _ | Raise _ => _ end] =>
             destruct x; cbn
         | |- context [if derives_Exception ?e then _ else _] =>
             destruct (derives_Exception e); cbn
         end;
    eexists; (split; [rewrite <- ?app_assoc; reflexivity|reflexivity]).
Qed.

(** X20: A process is killed only on the subprocess path and only when the
    wait for it ended in a timeout.  Whenever a run adds a kill to the
    trace, the request did not go to Docker, the wait raised a
    [TimeoutError], the answer is never a success, and it is the failure
    "Execution timeout" when the kill and the removal of the temporary
    directory succeed. *)
Theorem kill_only_on_timeout (request : CodeExecutionRequest)
    (tr tr' : list event) (out : result response) :
  run_code request tr = (tr', out) ->
  ProcKill ∉ tr ->
  ProcKill ∈ tr' ->
  sandbox request && bool_decide (is_Some docker_client) = false /\
  (exists e, wait_for_communicate (code request) (timeout request) = Raise e /\
             is_TimeoutError e = true) /\
  (proc_kill = Return tt -> cleanup_tmpdir = Return tt ->
   out = Return (error_response "Execution timeout")) /\
  (forall r, out = Return r -> r !! "success" = Some (VBool false)).
Proof.
  intros Hrun Hn Hin.
  destruct (sandbox request && bool_decide (is_Some docker_client)) eqn:Hcase.
  - exfalso. apply andb_true_iff in Hcase as [Hs Hd]. apply bool_decide_eq_true_1 in Hd.
    rewrite run_code_in_docker in Hrun by assumption.
    destruct (docker_run_only_docker_events (code request) (timeout request) tr)
      as (evs & Hevs & Hall).
    rewrite Hrun in Hevs. cbn [fst] in Hevs. subst tr'.
    apply (not_kill_in _ _ Hn) in Hin.
    pose proof (forallb_elem _ _ _ Hall Hin) as Habs. discriminate Habs.
  - split; [reflexivity|].
    rewrite run_code_in_subprocess in Hrun by assumption.
    unfold Financial._execute_subprocess, with_TemporaryDirectory, try_except,
      bindM, emit, lift, ret in Hrun.
    destruct make_tmpdir as [[]|em]; cbn in Hrun.
    2:{ exfalso. destruct (derives_Exception em); injection Hrun as <- <-;
        exact (Hn Hin). }
    assert (Hleaf : forall (evs : list event),
               ProcKill ∈ tr ++ evs -> forallb (fun ev => match ev with ProcKill => false | _ => true end) evs
               = true ->
               False).
    { intros evs Hk Hall. apply (not_kill_in _ _ Hn) in Hk.
      pose proof (forallb_elem _ _ _ Hall Hk) as Habs. discriminate Habs. }
    destruct (write_text (code request)) as [[]|e0]; cbn in Hrun.
    2:{ exfalso. destruct cleanup_tmpdir as [[]|ec]; cbn in Hrun;
        repeat match type of Hrun with
               | context [if derives_Exception ?e then _ else _] =>
                   destruct (derives_Exception e); cbn in Hrun
               end;
        injection Hrun as <- <-; rewrite <- ?app_assoc in Hin;
        exact (Hleaf _ Hin eq_refl). }
    destruct (create_subprocess_exec (code request)) as [[]|e0]; cbn in Hrun.
    2:{ exfalso. destruct cleanup_tmpdir as [[]|ec]; cbn in Hrun;
        repeat match type of Hrun with
               | context [if derives_Exception ?e then _ else _] =>
                   destruct (derives_Exception e); cbn in Hrun
               end;
        injection Hrun as <- <-; rewrite <- ?app_assoc in Hin;
        exact (Hleaf _ Hin eq_refl). }
    destruct (wait_for_communicate (code request) (timeout request))
      as [[[stdout stderr] returncode]|e0]; cbn in Hrun.
    + exfalso. destruct collect_outputs as [outputs|e1]; cbn in Hrun;
        destruct cleanup_tmpdir as [[]|ec]; cbn in Hrun;
        repeat match type of Hrun with
               | context [if derives_Exception ?e then _ else _] =>
                   destruct (derives_Exception e); cbn in Hrun
               end;
        injection Hrun as <- <-; rewrite <- ?app_assoc in Hin;
        exact (Hleaf _ Hin eq_refl).
    + destruct (is_TimeoutError e0) eqn:Ht; cbn in Hrun.
      * split; [exists e0; split; [reflexivity|exact Ht]|].
        destruct proc_kill as [[]|ek]; cbn in Hrun;
          destruct cleanup_tmpdir as [[]|ec]; cbn in Hrun;
          repeat match type of Hrun with
                 | context [if derives_Exception ?e then _ else _] =>
                     destruct (derives_Exception e); cbn in Hrun
                 end;
          injection Hrun as <- <-;
          (split; [intros; (reflexivity || discriminate)|]);
          intros r Hr; (discriminate Hr || (injection Hr as <-; reflexivity)).
      * exfalso. destruct cleanup_tmpdir as [[]|ec]; cbn in Hrun;
          repeat match type of Hrun with
                 | context [if derives_Exception ?e then _ else _] =>
                     destruct (derives_Exception e); cbn in Hrun
                 end;
          injection Hrun as <- <-; rewrite <- ?app_assoc in Hin;
          exact (Hleaf _ Hin eq_refl).
Qed.
End ExecutionTraces.

Lemma docker_success_whatever_the_exit_code_witness :
  exists r,
    Financial.sample_run (Some Financial.docker_from_env) (Py.Return 1%Z)
      (Py.Raise (Py.Exception "TimeoutError" "")) (Py.Return tt) (Py.Return tt)
      (Financial.CodeExecutionRequest_of_code "raise SystemExit(1)")
    = ([Financial.WriteCode "raise SystemExit(1)";
        Financial.ContainersRun "python:3.11-slim" "python /code/analysis.py";
        Financial.ContainerWait (Some 30%Z); Financial.ContainerRemove],
       Py.Return r) /\
    r !! "success" = Some (Py.VBool true) /\
    r !! "exit_code" = Some (Py.VInt 1) /\
    r !! "logs" = Some (Py.VStr (Financial.last_1000 "{}")).
Proof.
  unfold Financial.sample_run.
  apply (docker_success_whatever_the_exit_code (Some Financial.docker_from_env)
           (Py.Return tt) (Py.Return tt)
           (fun _ => Py.Return tt) (fun _ => Py.Return tt)
           (fun _ => Py.Return 1%Z) (Py.Return "{}") (Py.Return tt)
           (fun _ => Py.Return tt)
           (fun _ _ => Py.Raise (Py.Exception "TimeoutError" "")) (Py.Return tt)
           (Py.Return (Py.VDict [])) (fun _ => Py.VDict [])
           (Financial.CodeExecutionRequest_of_code "raise SystemExit(1)") []
           1%Z "{}" (Py.VDict []));
    try reflexivity.
  eexists. reflexivity.
Defined.

Lemma docker_wait_failure_leaves_the_container_witness :
  Financial.sample_run (Some Financial.docker_from_env)
    (Py.Raise (Py.Exception "ReadTimeout" "Read timed out."))
    (Py.Raise (Py.Exception "TimeoutError" "")) (Py.Return tt) (Py.Return tt)
    (Financial.CodeExecutionRequest_of_code "while True: pass")
  = ([Financial.WriteCode "while True: pass";
      Financial.ContainersRun "python:3.11-slim" "python /code/analysis.py";
      Financial.ContainerWait (Some 30%Z)],
     Py.Return (Py.error_response "Docker execution failed: Read timed out.")).
Proof.
  unfold Financial.sample_run.
  refine (proj1 (proj2 (docker_wait_failure_leaves_the_container
           (Some Financial.docker_from_env) (Py.Return tt) (Py.Return tt)
           (fun _ => Py.Return tt) (fun _ => Py.Return tt)
           (fun _ => Py.Raise (Py.Exception "ReadTimeout" "Read timed out."))
           (Py.Return "{}") (Py.Return tt)
           (fun _ => Py.Return tt)
           (fun _ _ => Py.Raise (Py.Exception "TimeoutError" "")) (Py.Return tt)
           (Py.Return (Py.VDict [])) (fun _ => Py.VDict [])
           (Financial.CodeExecutionRequest_of_code "while True: pass") []
           (Py.Exception "ReadTimeout" "Read timed out.")
           eq_refl _ eq_refl eq_refl eq_refl eq_refl eq_refl)) eq_refl).
  eexists. reflexivity.
Defined.

Lemma kill_only_on_timeout_witness :
  let request := Financial.CodeExecutionRequest_of_code "while True: pass" in
  let timed_out : Py.result (string * string * Z) :=
    Py.Raise (Py.Exception "TimeoutError" "") in
  (exists e, timed_out = Py.Raise e /\ Financial.is_TimeoutError e = true) /\
  forall r, Py.Return (Py.error_response "Execution timeout") = Py.Return r ->
            r !! "success" = Some (Py.VBool false).
Proof.
  intros request timed_out.
  destruct (kill_only_on_timeout None (Py.Return tt) (Py.Return tt)
              (fun _ => Py.Return tt) (fun _ => Py.Return tt)
              (fun _ => Py.Return 0%Z) (Py.Return "{}") (Py.Return tt)
              (fun _ => Py.Return tt) (fun _ _ => timed_out) (Py.Return tt)
              (Py.Return (Py.VDict [])) (fun _ => Py.VDict []) request []
              [Financial.WriteCode "while True: pass";
               Financial.SubprocessExec "python";
               Financial.WaitForCommunicate (Some 30%Z); Financial.ProcKill]
              (Py.Return (Py.error_response "Execution timeout")))
    as (_ & Hwait & _ & Hfail).
  - reflexivity.
  - apply not_elem_of_nil.
  - repeat constructor.
  - split; [exact Hwait|exact Hfail].
Defined.


(* ===================================================================== *)
(** * Further properties: the data sources and the unified query *)
(* ===================================================================== *)

Section SourceRegistry.
Import Py UnifiedSources.

Lemma dict_set_lookup_same {A} (d : list (string * A)) k v :
  dict_lookup (CallAssessment.dict_set d k v) k = Some v.
Proof.
  induction d as [|[k' v'] d IH]; simpl.
  - rewrite String.eqb_refl. reflexivity.
  - destruct (String.eqb k' k) eqn:E; simpl; rewrite E; [reflexivity|exact IH].
Qed.

Lemma dict_set_lookup_other {A} (d : list (string * A)) k v n :
  n <> k -> dict_lookup (CallAssessment.dict_set d k v) n = dict_lookup d n.
Proof.
  intros Hn. induction d as [|[k' v'] d IH]; simpl.
  - destruct (String.eqb k n) eqn:E; [apply String.eqb_eq in E; congruence|reflexivity].
  - destruct (String.eqb k' k) eqn:E; simpl.
    + apply String.eqb_eq in E. subst k'.
      destruct (String.eqb k n) eqn:E'; [|reflexivity].
      apply String.eqb_eq in E'. congruence.
    + destruct (String.eqb k' n); [reflexivity|exact IH].
Qed.

Lemma dict_set_keys {A} (d : list (string * A)) k v :
  map fst (CallAssessment.dict_set d k v)
  = match dict_lookup d k with
    | Some _ => map fst d
    | None => map fst d ++ [k]
    end.
Proof.
  induction d as [|[k' v'] d IH]; simpl; [reflexivity|].
  destruct (String.eqb k' k) eqn:E; simpl; [reflexivity|].
  rewrite IH. destruct (dict_lookup d k); reflexivity.
Qed.

Lemma dict_lookup_None {A} (d : list (string * A)) k :
  dict_lookup d k = None -> k ∉ map fst d.
Proof.
  induction d as [|[k' v'] d IH]; simpl; intros H; [apply not_elem_of_nil|].
  destruct (String.eqb k' k) eqn:E; [discriminate|].
  apply String.eqb_neq in E. apply not_elem_of_cons. split; [congruence|apply IH, H].
Qed.

(** X21: Adding a source stores it under its name and leaves every other name
    as it was; a name that is already there keeps its place and is given
    the new config, so the names stay distinct and the number of sources
    grows only for a new name. *)
Theorem add_source_then_lookup (sources : sources_dict) (config : DataSourceConfig) :
  NoDup (map fst sources) ->
  dict_lookup (add_source sources config) (name config) = Some config /\
  (forall n, n <> name config ->
     dict_lookup (add_source sources config) n = dict_lookup sources n) /\
  map fst (add_source sources config)
  = match dict_lookup sources (name config) with
    | Some _ => map fst sources
    | None => map fst sources ++ [name config]
    end /\
  NoDup (map fst (add_source sources config)).
Proof.
  intros Hnd. unfold add_source.
  split; [apply dict_set_lookup_same|].
  split; [intros n Hn; apply dict_set_lookup_other, Hn|].
  split; [apply dict_set_keys|].
  rewrite dict_set_keys.
  destruct (dict_lookup sources (name config)) eqn:E; [exact Hnd|].
  apply NoDup_app. split; [exact Hnd|]. split; [|apply NoDup_singleton].
  intros x Hx Hin. apply list_elem_of_singleton in Hin as ->.
  exact (dict_lookup_None _ _ E Hx).
Qed.
End SourceRegistry.

Lemma add_source_then_lookup_witness :
  let config :=
    {| UnifiedSources.name := "scout_metrics"; UnifiedSources.type := "api";
       UnifiedSources.connection_params := [];
       UnifiedSources.sync_interval := None |} in
  UnifiedSources.dict_lookup
    (UnifiedSources.add_source UnifiedSources.DataSourceManager_init config)
    "scout_metrics" = Some config /\
  map fst (UnifiedSources.add_source UnifiedSources.DataSourceManager_init config)
  = ["scout_metrics"; "creative_insights"; "voice_analytics"; "financial_kpis"].
Proof.
  intros config.
  destruct (add_source_then_lookup UnifiedSources.DataSourceManager_init config)
    as (Hsame & _ & Hkeys & _).
  - apply (bool_decide_unpack _). vm_compute. exact I.
  - split; [exact Hsame|exact Hkeys].
Defined.

Section UnifiedQueryFacts.
Import Py UnifiedSources.
Variable hash : string -> Z.
Variable str_of_int : Z -> string.

Abbreviation ask := (query_unified_data hash str_of_int).

Lemma redis_get_after_setex (redis : cache) (set_at clock : Z) key ttl value :
  redis_get (redis_setex redis set_at key ttl value) clock key
  = if (clock <? set_at + ttl)%Z then Some value else None.
Proof.
  unfold redis_get, redis_setex.
  rewrite (lookup_insert_eq (M:=gmap string) redis). reflexivity.
Qed.

(** X22: The cache key holds the query text and the requested sources only,
    and an entry lives 300 seconds.  After a request that missed the cache
    at time [clock1], a second request with the same query text and
    sources before [clock1 + 300] gets the answer of the first, with its
    results and its timestamp, whatever its timeframe and output format
    and whatever sources were added in between, and it leaves the cache as
    it is; from [clock1 + 300] on the answer is made anew, from the sources
    registered then and with the new timestamp. *)
Theorem cached_answer_ignores_the_rest (registered registered' : sources_dict)
    (r1 r2 : UnifiedQueryRequest) (clock1 clock2 : Z) (now1 now2 : string)
    (redis : cache) (requested : list string) :
  sources r1 = Some requested ->
  sources r2 = Some requested ->
  query r2 = query r1 ->
  redis_get redis clock1 (cache_key hash str_of_int (query r1) requested) = None ->
  exists response,
    snd (ask registered r1 clock1 now1 redis) = Answer response /\
    timestamp response = now1 /\
    ((clock2 < clock1 + 300)%Z ->
     ask registered' r2 clock2 now2 (fst (ask registered r1 clock1 now1 redis))
     = (fst (ask registered r1 clock1 now1 redis), Answer response)) /\
    ((clock1 + 300 <= clock2)%Z ->
     exists response',
       snd (ask registered' r2 clock2 now2
              (fst (ask registered r1 clock1 now1 redis)))
       = Answer response' /\
       timestamp response' = now2 /\
       results response'
       = query_sources registered'
           match requested with [] => map fst registered' | _ => requested end).
Proof.
  intros H1 H2 Hq Hmiss. unfold query_unified_data. rewrite H1, H2, Hq, Hmiss.
  cbn [fst snd]. eexists. split; [reflexivity|]. split; [reflexivity|].
  rewrite redis_get_after_setex. split; intros Hclock.
  - destruct (clock2 <? clock1 + 300)%Z eqn:E; [reflexivity|lia].
  - destruct (clock2 <? clock1 + 300)%Z eqn:E; [lia|].
    eexists. cbn [snd]. split; [reflexivity|]. split; reflexivity.
Qed.

Lemma source_of_retrieve source_name config :
  source_of (retrieve source_name config) = source_name.
Proof.
  unfold retrieve. destruct (String.eqb _ "database"); [reflexivity|].
  destruct (String.eqb _ "api"); reflexivity.
Qed.

Lemma query_sources_names (registered : sources_dict) (names : list string) :
  map source_of (query_sources registered names)
  = filter (fun n => is_Some (dict_lookup registered n)) names.
Proof.
  induction names as [|n names IH]; simpl; [reflexivity|].
  rewrite filter_cons.
  destruct (dict_lookup registered n) as [config|] eqn:E.
  - rewrite decide_True by (eexists; reflexivity).
    simpl. rewrite source_of_retrieve, IH. reflexivity.
  - rewrite decide_False by (intros [? ?]; discriminate). exact IH.
Qed.

(** X23: On a cache miss the answer holds one result for each requested name
    that is registered, in the order of the request, and none for the
    others: unknown names are skipped without a failure, and
    [sources_queried] counts the results, not the request. *)
Theorem unknown_sources_are_skipped (registered : sources_dict)
    (request : UnifiedQueryRequest) (clock : Z) (now : string) (redis : cache)
    (requested : list string) :
  sources request = Some requested ->
  requested <> [] ->
  redis_get redis clock (cache_key hash str_of_int (query request) requested)
  = None ->
  exists response,
    snd (ask registered request clock now redis) = Answer response /\
    map source_of (results response)
    = filter (fun n => is_Some (dict_lookup registered n)) requested /\
    sources_queried response = length (results response) /\
    (sources_queried response <= length requested)%nat.
Proof.
  intros Hs Hne Hmiss. unfold query_unified_data. rewrite Hs, Hmiss.
  destruct requested as [|n rest]; [congruence|].
  eexists. cbn [snd results sources_queried]. split; [reflexivity|].
  split; [apply query_sources_names|]. split; [reflexivity|].
  rewrite <- (length_map source_of), query_sources_names.
  apply length_filter.
Qed.
End UnifiedQueryFacts.

Lemma cached_answer_ignores_the_rest_witness :
  let hash := fun _ : string => 7%Z in
  let str_of_int := fun _ : Z => "7" in
  let r1 := {| UnifiedSources.query := "revenue by region";
               UnifiedSources.sources := Some ["scout_metrics"];
               UnifiedSources.timeframe := Some "1W";
               UnifiedSources.output_format := "data" |} in
  let r2 := {| UnifiedSources.query := "revenue by region";
               UnifiedSources.sources := Some ["scout_metrics"];
               UnifiedSources.timeframe := Some "1Y";
               UnifiedSources.output_format := "chart" |} in
  let first := UnifiedSources.query_unified_data hash str_of_int
                 UnifiedSources.DataSourceManager_init r1 1000 "t1" ∅ in
  exists response,
    snd first = UnifiedSources.Answer response /\
    UnifiedSources.timestamp response = "t1" /\
    UnifiedSources.query_unified_data hash str_of_int [] r2 1299 "t2" (fst first)
    = (fst first, UnifiedSources.Answer response).
Proof.
  intros hash str_of_int r1 r2 first.
  destruct (cached_answer_ignores_the_rest hash str_of_int
              UnifiedSources.DataSourceManager_init [] r1 r2 1000 1299 "t1" "t2" ∅
              ["scout_metrics"])
    as (response & Hfirst & Hstamp & Hhit & _);
    [reflexivity|reflexivity|reflexivity|reflexivity|].
  exists response. split; [exact Hfirst|]. split; [exact Hstamp|].
  apply Hhit. reflexivity.
Defined.

Lemma unknown_sources_are_skipped_witness :
  let hash := fun _ : string => 7%Z in
  let str_of_int := fun _ : Z => "7" in
  let request := {| UnifiedSources.query := "revenue by region";
                    UnifiedSources.sources := Some ["scout_metrics"; "nowhere"];
                    UnifiedSources.timeframe := Some "1W";
                    UnifiedSources.output_format := "data" |} in
  exists response,
    snd (UnifiedSources.query_unified_data hash str_of_int
           UnifiedSources.DataSourceManager_init request 1000 "t1" ∅)
    = UnifiedSources.Answer response /\
    UnifiedSources.sources_queried response = 1%nat.
Proof.
  intros hash str_of_int request.
  destruct (unknown_sources_are_skipped hash str_of_int
              UnifiedSources.DataSourceManager_init request 1000 "t1" ∅
              ["scout_metrics"; "nowhere"])
    as (response & Hrun & _ & Hcount & _); [reflexivity|discriminate|reflexivity|].
  exists response. split; [exact Hrun|].
  rewrite Hcount. injection Hrun as <-. reflexivity.
Defined.

Section CrossAgentShape.
Import Py Unified.

Lemma trends_dom (l : list string) (acc : gmap string trend) :
  dom (foldl (fun acc agent => <[agent := mock_trend]> acc) acc l)
  = list_to_set l ∪ dom acc.
Proof.
  revert acc. induction l as [|a l IH]; intros acc; simpl.
  - rewrite (left_id_L ∅ (∪)). reflexivity.
  - rewrite IH, dom_insert_L, (assoc_L (∪)), (comm_L (∪) (list_to_set l)).
    reflexivity.
Qed.

(** X24: The cross-agent analysis never answers with an error: for every
    request it succeeds and echoes the type, agents and metrics; the
    result holds correlations, anomalies or trends exactly for the type of
    that name and nothing for any other type; there is one anomaly for
    each agent, in order, and one trend for each distinct agent. *)
Theorem cross_agent_analysis_always_succeeds (request : CrossAgentAnalysis)
    (now : string) :
  exists a,
    analyze_cross_agent request now = Return (CrossAgentSuccess a now) /\
    res_analysis_type a = analysis_type request /\
    res_agents a = agents request /\
    res_metrics a = metrics request /\
    (is_Some (correlations a) <-> analysis_type request = "correlation") /\
    (is_Some (anomalies a) <-> analysis_type request = "anomaly") /\
    (is_Some (trends a) <-> analysis_type request = "trend") /\
    (forall l, anomalies a = Some l -> map anomaly_agent l = agents request) /\
    (forall t, trends a = Some t -> dom t = list_to_set (agents request)).
Proof.
  unfold analyze_cross_agent.
  destruct (String.eqb (analysis_type request) "correlation") eqn:E1;
    [|destruct (String.eqb (analysis_type request) "anomaly") eqn:E2;
      [|destruct (String.eqb (analysis_type request) "trend") eqn:E3]];
    eexists; (split; [reflexivity|]); cbn;
    repeat match goal with
           | H : String.eqb _ _ = true |- _ => apply String.eqb_eq in H
           | H : String.eqb _ _ = false |- _ => apply String.eqb_neq in H
           end;
    repeat split; try reflexivity; try congruence;
    try (intros [? ?]; discriminate);
    try (intros H; rewrite H in *; discriminate);
    try (intros; eexists; reflexivity);
    try discriminate.
  - intros l [= <-]. rewrite map_map. simpl. apply map_id.
  - intros t [= <-]. rewrite trends_dom, dom_empty_L, (right_id_L ∅ (∪)).
    reflexivity.
Qed.
End CrossAgentShape.


(* ===================================================================== *)
(** * Further properties: the query of [fetch_transcriptions] *)
(* ===================================================================== *)

Section ScoutFacts.
Import Py ScoutQuery.

(** X25: Whatever the request holds, the statement has as many [?] as values are
    bound to it, and the values are those of the keys [store_id], [region],
    [brand], [date_from], [date_to] that are present, in this order: at
    most five, and no other key of the request is used. *)
Theorem placeholders_match_bound_values (query_params : gmap string pyval) :
  Text.str_count (build_query query_params).1 "?"
  = length (build_query query_params).2 /\
  (build_query query_params).2 = omap (fun k => query_params !! k) FILTER_KEYS /\
  (length (build_query query_params).2 <= 5)%nat.
Proof.
  unfold build_query, add_filter, FILTER_KEYS. cbn [omap list_omap].
  destruct (query_params !! "store_id"), (query_params !! "region"),
    (query_params !! "brand"), (query_params !! "date_from"),
    (query_params !! "date_to");
    (split; [vm_compute; reflexivity|split; [reflexivity|simpl; lia]]).
Qed.

(** X26: The text of the statement depends only on which of the five keys are
    present, never on their values: two requests with the same keys give
    the same statement. *)
Theorem query_text_ignores_values (p1 p2 : gmap string pyval) :
  (forall k, k ∈ FILTER_KEYS -> (is_Some (p1 !! k) <-> is_Some (p2 !! k))) ->
  (build_query p1).1 = (build_query p2).1.
Proof.
  intros H. unfold build_query, add_filter.
  repeat match goal with
         | |- context [p1 !! ?k] =>
             let E1 := fresh "E" in
             let E2 := fresh "E" in
             let Hk := fresh "Hk" in
             assert (Hk : is_Some (p1 !! k) <-> is_Some (p2 !! k))
               by (apply H; unfold FILTER_KEYS; repeat constructor);
             destruct (p1 !! k) eqn:E1, (p2 !! k) eqn:E2;
             [ | exfalso; destruct Hk as [Hk _];
                 destruct (Hk (ex_intro _ _ eq_refl)) as [? ?]; discriminate
               | exfalso; destruct Hk as [_ Hk];
                 destruct (Hk (ex_intro _ _ eq_refl)) as [? ?]; discriminate
               | ]; clear Hk
         end;
    reflexivity.
Qed.
End ScoutFacts.

Lemma query_text_ignores_values_witness :
  (ScoutQuery.build_query {[ "region" := Py.VStr "NCR" ]}).1
  = (ScoutQuery.build_query {[ "region" := Py.VStr "x' OR '1'='1" ]}).1.
Proof.
  apply query_text_ignores_values.
  intros k Hk. unfold ScoutQuery.FILTER_KEYS in Hk.
  repeat (apply elem_of_cons in Hk as [->|Hk]);
    [..|inversion Hk];
    (split; intros [v Hv]; vm_compute in Hv;
     first [discriminate Hv | eexists; vm_compute; reflexivity]).
Defined.

(* ===================================================================== *)
(** * Further properties: the demo analysis *)
(* ===================================================================== *)

Section DemoAnalyzeFacts.
Import Py DemoAnalyze.

(** X27: An answer of [/tools/analyze] holds the sentiment, the entities and
    the keywords all three for the type [comprehensive] and none of them
    for any other type, the one that was asked for included; its word
    count is that of its summary. *)
Theorem optional_parts_are_all_or_nothing (request : AnalyzeRequest) (elapsed : Q)
    (response : AnalyzeResponse) :
  analyze_route request elapsed = Return response ->
  ((analysis_type request = comprehensive /\
    is_Some (res_sentiment response) /\ is_Some (res_entities response) /\
    is_Some (res_keywords response))
   \/
   (analysis_type request <> comprehensive /\
    res_sentiment response = None /\ res_entities response = None /\
    res_keywords response = None)) /\
  option_map word_count (res_metadata response) = Some (summary_words response).
Proof.
  unfold analyze_route, AnalyzeHandler_analyze.
  destruct (split_len _) as [n|e]; unfold mbind, result_bind; cbn [Py.bind];
    [|destruct (derives_Exception e); discriminate].
  intros [= <-]. cbn.
  split; [|reflexivity].
  destruct (analysis_type request); cbn;
    first [left; split; [reflexivity|]; repeat split; eexists; reflexivity
          |right; split; [discriminate|]; repeat split].
Qed.

(** X28: A request with neither a document URL nor a content is answered with
    status 500: the handler splits a content that is not there. *)
Theorem analyze_without_text_is_a_500 (request : AnalyzeRequest) (elapsed : Q) :
  truthy_str (document_url request) = false ->
  content request = None ->
  analyze_route request elapsed
  = Raise (HTTPException 500 "'NoneType' object has no attribute 'split'").
Proof.
  intros Hurl Hc. unfold analyze_route, AnalyzeHandler_analyze.
  rewrite Hurl, Hc. reflexivity.
Qed.
End DemoAnalyzeFacts.

Lemma optional_parts_are_all_or_nothing_witness :
  exists response,
    DemoAnalyze.analyze_route
      {| DemoAnalyze.document_url := None;
         DemoAnalyze.content := Some "Pulser speaks MCP";
         DemoAnalyze.analysis_type := DemoAnalyze.sentiment |} 300
    = Py.Return response /\
    DemoAnalyze.res_sentiment response = None /\
    DemoAnalyze.summary_words response = 3%nat.
Proof.
  eexists. split; [reflexivity|].
  destruct (optional_parts_are_all_or_nothing
              {| DemoAnalyze.document_url := None;
                 DemoAnalyze.content := Some "Pulser speaks MCP";
                 DemoAnalyze.analysis_type := DemoAnalyze.sentiment |} 300 _ eq_refl)
    as [[[Habs _]|(_ & Hs & _)] _]; [discriminate Habs|].
  split; [exact Hs|reflexivity].
Defined.

Lemma analyze_without_text_is_a_500_witness :
  DemoAnalyze.analyze_route
    {| DemoAnalyze.document_url := Some "";
       DemoAnalyze.content := None;
       DemoAnalyze.analysis_type := DemoAnalyze.comprehensive |} 0
  = Py.Raise (Py.HTTPException 500 "'NoneType' object has no attribute 'split'").
Proof.
  apply analyze_without_text_is_a_500; reflexivity.
Defined.
